(** * Mirror strategy of kelp: a shallow embedding of [plugins/mirrorStrategy.go]

    The development follows the Go source function by function:
    the asset-surplus ledger and the fill handler ([baseVolumeToOffset],
    [HandleFill]), the balance coordinator ([checkBalance]) and the mirror
    engine ([PreUpdate], [recordBalances], [UpdateWithOps], [updateLevels],
    [doModifyOffer]).

    Conventions.
    - Go's [float64] is idealised as the rationals [Q]; rounding of binary
      floating point is not modelled.
    - [model.Number] lives in package [model], which is not part of the
      sources at hand.  Its operations are therefore an interface
      ([NumberOps]); the arithmetic facts some properties need are a second
      interface ([NumberLaws]); and [Decimal] below is an implementation
      that follows the specification's description of Number.
    - [log.Printf] has no effect on the state and is left out.
    - The collaborators (SDEX, IEIF, the backing exchange) are modelled by
      their call interface: SDEX as a record of functions that may read the
      liabilities cached so far, IEIF as the chronological list of
      [AddLiabilities] calls, the exchange as a record of responses. *)

From Stdlib Require Import ZArith QArith Qabs Lqa Lia List String Ascii Bool.
Import ListNotations.

Local Open Scope Z_scope.

(** ** Floats *)

Definition float64 := Q.
Definition int8 := Z.
Definition int32 := Z.

(** [a < b] on float64, as a boolean. *)
Definition fltb (a b : float64) : bool :=
  match Qcompare a b with
  | Lt => true
  | _ => false
  end.

(** ** Errors and panics *)

(** A Go [error] value.  Errors of the collaborators are opaque; the ones
    built with [fmt.Errorf] in this file keep their cause. *)
Inductive error : Type :=
| ExternalError (msg : string)
| ErrFetchBalances (cause : error)
| ErrNoBaseBalance
| ErrNoQuoteBalance
| ErrOffsetting (cause : error)
| ErrOffsettingNilTransactionID.

Inductive panic : Type :=
| NilPointerDereference
| MustNumberFromStringPanic (s : string).

(** The three ways a Go call ends: a value, a returned error, a panic. *)
Inductive result (A : Type) : Type :=
| Ok (a : A)
| Error (e : error)
| Panic (p : panic).

Arguments Ok {A} a.
Arguments Error {A} e.
Arguments Panic {A} p.

(** What a collaborator hands back: a value or an error. *)
Inductive reply (A : Type) : Type :=
| Reply (a : A)
| Failed (e : error).

Arguments Reply {A} a.
Arguments Failed {A} e.

Definition fromReply {A : Type} (r : reply A) : result A :=
  match r with
  | Reply a => Ok a
  | Failed e => Error e
  end.

(** ** The Number interface (package [model]) *)

Class NumberOps : Type := {
  Number : Type;
  (** [model.NumberConstants.Zero] *)
  Zero : Number;
  AsFloat : Number -> float64;
  Add : Number -> Number -> Number;
  Subtract : Number -> Number -> Number;
  Multiply : Number -> Number -> Number;
  Scale : Number -> float64 -> Number;
  InvertNumber : Number -> Number;
  EqualsPrecisionNormalized : Number -> Number -> float64 -> bool;
  NumberByCappingPrecision : Number -> int8 -> Number;
  (** [None] stands for the panic of [MustNumberFromString]. *)
  MustNumberFromString : string -> int8 -> option Number
}.

(** Arithmetic facts of a Number implementation whose operations are exact
    and whose capping truncates. *)
Class NumberLaws (N : NumberOps) : Prop := {
  AsFloat_Add : forall a b, (AsFloat (Add a b) == AsFloat a + AsFloat b)%Q;
  AsFloat_Subtract : forall a b, (AsFloat (Subtract a b) == AsFloat a - AsFloat b)%Q;
  AsFloat_Multiply : forall a b, (AsFloat (Multiply a b) == AsFloat a * AsFloat b)%Q;
  AsFloat_Scale : forall a k, (AsFloat (Scale a k) == AsFloat a * k)%Q;
  cap_nonneg : forall a p,
    (0 <= AsFloat a)%Q -> (0 <= AsFloat (NumberByCappingPrecision a p))%Q;
  cap_le : forall a p,
    (0 <= AsFloat a)%Q -> (AsFloat (NumberByCappingPrecision a p) <= AsFloat a)%Q
}.

(** ** Data model *)

(** [model.Asset] of the backing exchange. *)
Definition Asset := string.

(** [hProtocol.Asset] of the primary exchange. *)
Record hAsset : Type := {
  asset_Type : string;
  asset_Code : string;
  asset_Issuer : string
}.

Record TradingPair : Type := {
  Base : Asset;
  Quote : Asset
}.

Inductive OrderAction : Type :=
| OrderActionBuy
| OrderActionSell.

Definition Reverse (a : OrderAction) : OrderAction :=
  match a with
  | OrderActionBuy => OrderActionSell
  | OrderActionSell => OrderActionBuy
  end.

Inductive OrderType : Type :=
| OrderTypeMarket
| OrderTypeLimit.

Definition TransactionID := string.

(** [hProtocol.Offer]: price and amount are decimal strings. *)
Record Offer : Type := {
  offer_ID : Z;
  Selling : hAsset;
  Buying : hAsset;
  Amount : string;
  offer_Price : string
}.

(** One recorded call [ieif.AddLiabilities(selling, buying, sellAmt, buyAmt, native)]. *)
Record LiabilityCall : Type := {
  lc_selling : hAsset;
  lc_buying : hAsset;
  lc_sellAmount : float64;
  lc_buyAmount : float64;
  lc_native : float64
}.

(** The state of the IEIF collaborator: the calls it received, oldest first. *)
Definition Liabilities := list LiabilityCall.

(** ** Calls that read and extend the cached liabilities

    The update path threads the IEIF state through every call and stops at
    the first error or panic; the liabilities recorded up to that point
    stay recorded. *)

Definition M (A : Type) : Type := Liabilities -> result A * Liabilities.

Definition ret {A : Type} (a : A) : M A := fun l => (Ok a, l).

Definition bind {A B : Type} (m : M A) (f : A -> M B) : M B :=
  fun l =>
    match m l with
    | (Ok a, l') => f a l'
    | (Error e, l') => (Error e, l')
    | (Panic p, l') => (Panic p, l')
    end.

(** A call that does not touch the liabilities. *)
Definition lift {A : Type} (r : result A) : M A := fun l => (r, l).

(** A call that reads the liabilities cached so far. *)
Definition reading {A : Type} (f : Liabilities -> reply A) : M A :=
  fun l => (fromReply (f l), l).

(** [ieif.AddLiabilities]. *)
Definition AddLiabilities (selling buying : hAsset) (sellAmount buyAmount native : float64)
  : M unit :=
  fun l => (Ok tt, l ++ [ {| lc_selling := selling; lc_buying := buying;
                             lc_sellAmount := sellAmount; lc_buyAmount := buyAmount;
                             lc_native := native |} ]).

(** The outcome of a call seen through [f]. *)
Definition mapResult {A C : Type} (f : A -> C) (r : result A * Liabilities)
  : result C * Liabilities :=
  match r with
  | (Ok a, l) => (Ok (f a), l)
  | (Error e, l) => (Error e, l)
  | (Panic p, l) => (Panic p, l)
  end.

(** The call did not end in a nil pointer dereference. *)
Definition noNilDereference {A : Type} (r : result A * Liabilities) : Prop :=
  fst r <> Panic NilPointerDereference.

Declare Scope go_scope.
Delimit Scope go_scope with go.
Notation "x <- c ;; k" := (bind c (fun x => k))
  (at level 61, c at next level, right associativity) : go_scope.
Notation "c ;;; k" := (bind c (fun _ => k))
  (at level 61, right associativity) : go_scope.

Section Model.

Context {N : NumberOps}.

(** [build.ManageOfferBuilder]: opaque, produced by SDEX only. *)
Variable ManageOfferBuilder : Type.

Record Order : Type := {
  Pair : TradingPair;
  order_Action : OrderAction;
  order_Type : OrderType;
  Price : Number;
  Volume : Number;
  Timestamp : option Z
}.

(** [model.Trade]: the embedded order's fields that the strategy reads. *)
Record Trade : Type := {
  trade_Action : OrderAction;
  trade_Price : Number;
  trade_Volume : Number;
  trade_TransactionID : TransactionID
}.

Record OrderBook : Type := {
  Bids : list Order;
  Asks : list Order
}.

Record OrderConstraints : Type := {
  PricePrecision : int8;
  VolumePrecision : int8;
  MinBaseVolume : Number;
  MinQuoteVolume : option Number
}.

(** [build.TransactionMutator], tagged with the SDEX call that built it:
    [sdex.DeleteOffer], the modify function or the create function. *)
Inductive TransactionMutator : Type :=
| DeleteOp (offer : Offer)
| ModifyOp (mo : ManageOfferBuilder)
| CreateOp (mo : ManageOfferBuilder).

Definition isDelete (op : TransactionMutator) : bool :=
  match op with
  | DeleteOp _ => true
  | _ => false
  end.

Definition modifyFn : Type :=
  Liabilities -> Offer -> float64 -> float64 -> float64 -> reply (option ManageOfferBuilder).

Definition createFn : Type :=
  Liabilities -> hAsset -> hAsset -> float64 -> float64 -> float64
  -> reply (option ManageOfferBuilder).

(** The primary venue client.  A nil builder is [Reply None]. *)
Record SDEX : Type := {
  ModifyBuyOffer : modifyFn;
  ModifySellOffer : modifyFn;
  CreateBuyOffer : createFn;
  CreateSellOffer : createFn;
  ComputeIncrementalNativeAmountRaw : bool -> float64
}.

(** The backing venue client, as it answers at the time of a call.
    A nil transaction id is [Reply None]. *)
Record Exchange : Type := {
  GetOrderBook : TradingPair -> int32 -> reply OrderBook;
  GetAccountBalances : list Asset -> reply (list (Asset * Number));
  AddOrder : Order -> reply (option TransactionID)
}.

(** *** Asset surplus ledger *)

Record assetSurplus : Type := {
  total : Number;
  committed : Number
}.

Definition makeAssetSurplus : assetSurplus :=
  {| total := Zero; committed := Zero |}.

(** [map[model.OrderAction]*assetSurplus] with its two keys. *)
Record surplusMap : Type := {
  onBuy : assetSurplus;
  onSell : assetSurplus
}.

Definition surplusOf (m : surplusMap) (a : OrderAction) : assetSurplus :=
  match a with
  | OrderActionBuy => onBuy m
  | OrderActionSell => onSell m
  end.

Definition setSurplus (m : surplusMap) (a : OrderAction) (v : assetSurplus) : surplusMap :=
  match a with
  | OrderActionBuy => {| onBuy := v; onSell := onSell m |}
  | OrderActionSell => {| onBuy := onBuy m; onSell := v |}
  end.

Record mirrorStrategy : Type := {
  sdex : SDEX;
  baseAsset : hAsset;
  quoteAsset : hAsset;
  primaryConstraints : OrderConstraints;
  backingPair : TradingPair;
  backingConstraints : OrderConstraints;
  orderbookDepth : int32;
  perLevelSpread : float64;
  volumeDivideBy : float64;
  offsetTrades : bool;
  baseSurplus : surplusMap;
  maxBackingBase : option Number;
  maxBackingQuote : option Number
}.

Definition withBaseSurplus (s : mirrorStrategy) (m : surplusMap) : mirrorStrategy :=
  {| sdex := sdex s; baseAsset := baseAsset s; quoteAsset := quoteAsset s;
     primaryConstraints := primaryConstraints s; backingPair := backingPair s;
     backingConstraints := backingConstraints s; orderbookDepth := orderbookDepth s;
     perLevelSpread := perLevelSpread s; volumeDivideBy := volumeDivideBy s;
     offsetTrades := offsetTrades s; baseSurplus := m;
     maxBackingBase := maxBackingBase s; maxBackingQuote := maxBackingQuote s |}.

Definition withMaxBacking (s : mirrorStrategy) (b q : option Number) : mirrorStrategy :=
  {| sdex := sdex s; baseAsset := baseAsset s; quoteAsset := quoteAsset s;
     primaryConstraints := primaryConstraints s; backingPair := backingPair s;
     backingConstraints := backingConstraints s; orderbookDepth := orderbookDepth s;
     perLevelSpread := perLevelSpread s; volumeDivideBy := volumeDivideBy s;
     offsetTrades := offsetTrades s; baseSurplus := baseSurplus s;
     maxBackingBase := b; maxBackingQuote := q |}.

(** *** Balance coordinator *)

Record balanceCoordinator : Type := {
  placedUnits : Number;
  backingBalance : option Number;
  backingAssetType : string;
  isBackingBuy : bool
}.

Definition withPlacedUnits (b : balanceCoordinator) (n : Number) : balanceCoordinator :=
  {| placedUnits := n; backingBalance := backingBalance b;
     backingAssetType := backingAssetType b; isBackingBuy := isBackingBuy b |}.

(** [additionalUnits] of [checkBalance]. *)
Definition additionalUnits (b : balanceCoordinator) (vol price : Number) : Number :=
  if isBackingBuy b then Multiply vol price else vol.

(** The value [additionalUnits] stands for: volume * price when buying on
    the backing exchange, the volume otherwise. *)
Definition additionalValue (b : balanceCoordinator) (vol price : Number) : float64 :=
  if isBackingBuy b then (AsFloat vol * AsFloat price)%Q else AsFloat vol.

(** [func (b *balanceCoordinator) checkBalance(vol, price) bool]: the
    answer and the coordinator after the call.  Reading the balance through
    a nil [backingBalance] panics. *)
Definition checkBalance (b : balanceCoordinator) (vol price : Number)
  : result (bool * balanceCoordinator) :=
  let newPlacedUnits := Add (placedUnits b) (additionalUnits b vol price) in
  match backingBalance b with
  | None => Panic NilPointerDereference
  | Some balance =>
      if fltb (AsFloat balance) (AsFloat newPlacedUnits)
      then Ok (false, b)
      else Ok (true, withPlacedUnits b newPlacedUnits)
  end.

(** A sequence of [checkBalance] calls on one coordinator. *)
Fixpoint checkBalances (b : balanceCoordinator) (calls : list (Number * Number))
  : result balanceCoordinator :=
  match calls with
  | [] => Ok b
  | (vol, price) :: rest =>
      match checkBalance b vol price with
      | Ok (_, b') => checkBalances b' rest
      | Error e => Error e
      | Panic p => Panic p
      end
  end.

(** *** Fill handler *)

(** [baseVolumeToOffset]: [(newVolume, ok)], a nil volume being [None]. *)
Definition baseVolumeToOffset (s : mirrorStrategy) (trade : Trade) (newOrderAction : OrderAction)
  : option Number * bool :=
  let surplus := surplusOf (baseSurplus s) newOrderAction in
  let uncommittedBase := Subtract (total surplus) (committed surplus) in
  let minBaseVolume := MinBaseVolume (backingConstraints s) in
  if fltb (AsFloat uncommittedBase) (AsFloat (Scale minBaseVolume (1 # 2)%Q))
  then (None, false)
  else
    let newVolume :=
      if fltb (AsFloat minBaseVolume) (AsFloat uncommittedBase)
      then uncommittedBase
      else minBaseVolume in
    (Some (NumberByCappingPrecision newVolume (VolumePrecision (backingConstraints s))), true).

Definition addTotal (s : mirrorStrategy) (a : OrderAction) (v : Number) : mirrorStrategy :=
  let r := surplusOf (baseSurplus s) a in
  withBaseSurplus s (setSurplus (baseSurplus s) a
    {| total := Add (total r) v; committed := committed r |}).

Definition addCommitted (s : mirrorStrategy) (a : OrderAction) (v : Number) : mirrorStrategy :=
  let r := surplusOf (baseSurplus s) a in
  withBaseSurplus s (setSurplus (baseSurplus s) a
    {| total := total r; committed := Add (committed r) v |}).

Definition settle (s : mirrorStrategy) (a : OrderAction) (v : Number) : mirrorStrategy :=
  let r := surplusOf (baseSurplus s) a in
  withBaseSurplus s (setSurplus (baseSurplus s) a
    {| total := Subtract (total r) v; committed := Subtract (committed r) v |}).

(** The order submitted by [HandleFill]. *)
Definition offsetOrder (s : mirrorStrategy) (trade : Trade) (newVolume : Number) : Order :=
  {| Pair := backingPair s;
     order_Action := Reverse (trade_Action trade);
     order_Type := OrderTypeLimit;
     Price := NumberByCappingPrecision (trade_Price trade) (PricePrecision (backingConstraints s));
     Volume := newVolume;
     Timestamp := None |}.

(** [HandleFill]: the returned error (or nil) and the strategy afterwards.
    The mutex makes the body atomic with respect to other fill handlers. *)
Definition HandleFill (s : mirrorStrategy) (exchange : Exchange) (trade : Trade)
  : result unit * mirrorStrategy :=
  let newOrderAction := Reverse (trade_Action trade) in
  let s1 := addTotal s newOrderAction (trade_Volume trade) in
  match baseVolumeToOffset s1 trade newOrderAction with
  | (_, false) => (Ok tt, s1)
  | (None, true) => (Panic NilPointerDereference, s1)
  | (Some newVolume, true) =>
      let s2 := addCommitted s1 newOrderAction newVolume in
      let newOrder := offsetOrder s trade newVolume in
      match AddOrder exchange newOrder with
      | Failed e => (Error (ErrOffsetting e), s2)
      | Reply None => (Error ErrOffsettingNilTransactionID, s2)
      | Reply (Some transactionID) => (Ok tt, settle s2 newOrderAction newVolume)
      end
  end.

(** A trace of fill notifications, each with the exchange as it answers
    then; the handler's return values are dropped by the caller. *)
Fixpoint handleFills (s : mirrorStrategy) (fills : list (Exchange * Trade)) : mirrorStrategy :=
  match fills with
  | [] => s
  | (exchange, trade) :: rest => handleFills (snd (HandleFill s exchange trade)) rest
  end.

(** The ledger invariant of the data model: [0 <= committed <= total] on
    both sides. *)
Definition surplusInvariant (s : mirrorStrategy) : Prop :=
  forall side : OrderAction,
    (0 <= AsFloat (committed (surplusOf (baseSurplus s) side)))%Q
    /\ (AsFloat (committed (surplusOf (baseSurplus s) side))
        <= AsFloat (total (surplusOf (baseSurplus s) side)))%Q.

(** *** Mirror engine *)

(** [PruneExistingOffers] deletes nothing. *)
Definition PruneExistingOffers (s : mirrorStrategy) (buyingAOffers sellingAOffers : list Offer)
  : list TransactionMutator * list Offer * list Offer :=
  ([], buyingAOffers, sellingAOffers).

(** Lookup in the [map[model.Asset]model.Number] of [GetAccountBalances]. *)
Fixpoint lookupBalance (balanceMap : list (Asset * Number)) (a : Asset) : option Number :=
  match balanceMap with
  | [] => None
  | (k, v) :: rest => if String.eqb k a then Some v else lookupBalance rest a
  end.

Definition recordBalances (s : mirrorStrategy) (exchange : Exchange)
  : result unit * mirrorStrategy :=
  match GetAccountBalances exchange [Base (backingPair s); Quote (backingPair s)] with
  | Failed e => (Error (ErrFetchBalances e), s)
  | Reply balanceMap =>
      match lookupBalance balanceMap (Base (backingPair s)) with
      | None => (Error ErrNoBaseBalance, s)
      | Some baseBalance =>
          let s1 := withMaxBacking s (Some baseBalance) (maxBackingQuote s) in
          match lookupBalance balanceMap (Quote (backingPair s)) with
          | None => (Error ErrNoQuoteBalance, s1)
          | Some quoteBalance =>
              (Ok tt, withMaxBacking s1 (maxBackingBase s1) (Some quoteBalance))
          end
      end
  end.

Definition PreUpdate (s : mirrorStrategy) (exchange : Exchange)
  (maxAssetA maxAssetB trustA trustB : float64) : result unit * mirrorStrategy :=
  if offsetTrades s then recordBalances s exchange else (Ok tt, s).

Definition mustNumber (str : string) (precision : int8) : M Number :=
  match MustNumberFromString str precision with
  | Some n => ret n
  | None => lift (Panic (MustNumberFromStringPanic str))
  end.

Definition epsilon : float64 := (1 # 10000)%Q.

Local Open Scope go_scope.

(** [doModifyOffer] returns [(modifyOp, deleteOp)] or an error. *)
Definition doModifyOffer (s : mirrorStrategy) (oldOffer : Offer) (newOrder : Order)
  (priceMultiplier : float64) (modifyOffer : modifyFn)
  (hackPriceInvertForBuyOrderChangeCheck : bool)
  : M (option TransactionMutator * option TransactionMutator) :=
  let price := Scale (Price newOrder) priceMultiplier in
  let vol := Scale (Volume newOrder) (1 / volumeDivideBy s)%Q in
  oldPrice0 <- mustNumber (offer_Price oldOffer) (PricePrecision (primaryConstraints s)) ;;
  oldVol0 <- mustNumber (Amount oldOffer) (VolumePrecision (primaryConstraints s)) ;;
  let oldVol := if hackPriceInvertForBuyOrderChangeCheck
                then Multiply oldVol0 oldPrice0 else oldVol0 in
  let oldPrice := if hackPriceInvertForBuyOrderChangeCheck
                  then InvertNumber oldPrice0 else oldPrice0 in
  let incrementalNativeAmountRaw := ComputeIncrementalNativeAmountRaw (sdex s) false in
  let sameOrderParams :=
    EqualsPrecisionNormalized oldPrice price epsilon
    && EqualsPrecisionNormalized oldVol vol epsilon in
  if sameOrderParams then
    (if hackPriceInvertForBuyOrderChangeCheck
     then AddLiabilities (Selling oldOffer) (Buying oldOffer)
            (AsFloat (Multiply oldVol oldPrice)) (AsFloat oldVol) incrementalNativeAmountRaw
     else AddLiabilities (Selling oldOffer) (Buying oldOffer)
            (AsFloat oldVol) (AsFloat (Multiply oldVol oldPrice)) incrementalNativeAmountRaw) ;;;
    ret (None, None)
  else
    let offerPrice := NumberByCappingPrecision price (PricePrecision (primaryConstraints s)) in
    let offerAmount := NumberByCappingPrecision vol (VolumePrecision (primaryConstraints s)) in
    if offsetTrades s
       && fltb (AsFloat offerAmount) (AsFloat (MinBaseVolume (backingConstraints s)))
    then ret (None, Some (DeleteOp oldOffer))
    else
      mo <- reading (fun l => modifyOffer l oldOffer (AsFloat offerPrice) (AsFloat offerAmount)
                                incrementalNativeAmountRaw) ;;
      match mo with
      | Some mo =>
          (if hackPriceInvertForBuyOrderChangeCheck
           then AddLiabilities (Selling oldOffer) (Buying oldOffer)
                  (AsFloat (Multiply offerAmount offerPrice)) (AsFloat offerAmount)
                  incrementalNativeAmountRaw
           else AddLiabilities (Selling oldOffer) (Buying oldOffer)
                  (AsFloat offerAmount) (AsFloat (Multiply offerAmount offerPrice))
                  incrementalNativeAmountRaw) ;;;
          ret (Some (ModifyOp mo), None)
      | None => ret (None, Some (DeleteOp oldOffer))
      end.

(** The call [doModifyOffer] makes to [AddLiabilities] for an offer of the
    given volume and price: the amounts are swapped on the bid side. *)
Definition liabilityOf (s : mirrorStrategy) (oldOffer : Offer) (hack : bool)
  (vol price : Number) : LiabilityCall :=
  {| lc_selling := Selling oldOffer;
     lc_buying := Buying oldOffer;
     lc_sellAmount := if hack then AsFloat (Multiply vol price) else AsFloat vol;
     lc_buyAmount := if hack then AsFloat vol else AsFloat (Multiply vol price);
     lc_native := ComputeIncrementalNativeAmountRaw (sdex s) false |}.

(** The local variables of [updateLevels] that its loops update. *)
Record levelState : Type := {
  ops : list TransactionMutator;
  deleteOps : list TransactionMutator;
  bc : balanceCoordinator
}.

Definition appendOp (st : levelState) (op : TransactionMutator) : levelState :=
  {| ops := ops st ++ [op]; deleteOps := deleteOps st; bc := bc st |}.

Definition appendDeleteOp (st : levelState) (op : TransactionMutator) : levelState :=
  {| ops := ops st; deleteOps := deleteOps st ++ [op]; bc := bc st |}.

Definition withBc (st : levelState) (b : balanceCoordinator) : levelState :=
  {| ops := ops st; deleteOps := deleteOps st; bc := b |}.

(** [if deleteOp != nil { deleteOps = append(deleteOps, deleteOp) }] *)
Definition queueDelete (st : levelState) (deleteOp : option TransactionMutator) : levelState :=
  match deleteOp with
  | Some d => appendDeleteOp st d
  | None => st
  end.

(** The body of the loop over the paired levels [oldOffers[i]], [newOrders[i]];
    it is the same in both branches of [updateLevels]. *)
Definition modifyLevel (s : mirrorStrategy) (modifyOffer : modifyFn)
  (priceMultiplier : float64) (hack : bool)
  (st : levelState) (oldOffer : Offer) (newOrder : Order) : M levelState :=
  r <- doModifyOffer s oldOffer newOrder priceMultiplier modifyOffer hack ;;
  match r with
  | (Some modifyOp, deleteOp) =>
      if offsetTrades s then
        c <- lift (checkBalance (bc st) (Volume newOrder) (Price newOrder)) ;;
        match c with
        | (false, b') => ret (withBc st b')
        | (true, b') => ret (queueDelete (appendOp (withBc st b') modifyOp) deleteOp)
        end
      else ret (queueDelete (appendOp st modifyOp) deleteOp)
  | (None, deleteOp) => ret (queueDelete st deleteOp)
  end.

Fixpoint modifyLevels (s : mirrorStrategy) (modifyOffer : modifyFn)
  (priceMultiplier : float64) (hack : bool)
  (st : levelState) (levels : list (Offer * Order)) : M levelState :=
  match levels with
  | [] => ret st
  | (oldOffer, newOrder) :: rest =>
      st' <- modifyLevel s modifyOffer priceMultiplier hack st oldOffer newOrder ;;
      modifyLevels s modifyOffer priceMultiplier hack st' rest
  end.

(** The body of the loop that creates offers for the remaining new orders. *)
Definition createLevel (s : mirrorStrategy) (createOffer : createFn)
  (priceMultiplier : float64) (hack : bool)
  (st : levelState) (newOrder : Order) : M levelState :=
  let price := Scale (Price newOrder) priceMultiplier in
  let vol := Scale (Volume newOrder) (1 / volumeDivideBy s)%Q in
  let incrementalNativeAmountRaw := ComputeIncrementalNativeAmountRaw (sdex s) true in
  if fltb (AsFloat vol) (AsFloat (MinBaseVolume (backingConstraints s)))
  then ret st
  else
    let create (st : levelState) : M levelState :=
      mo <- reading (fun l => createOffer l (baseAsset s) (quoteAsset s)
                                (AsFloat price) (AsFloat vol) incrementalNativeAmountRaw) ;;
      match mo with
      | Some mo =>
          (if hack
           then AddLiabilities (quoteAsset s) (baseAsset s)
                  (AsFloat (Multiply vol price)) (AsFloat vol) incrementalNativeAmountRaw
           else AddLiabilities (baseAsset s) (quoteAsset s)
                  (AsFloat vol) (AsFloat (Multiply vol price)) incrementalNativeAmountRaw) ;;;
          ret (appendOp st (CreateOp mo))
      | None => ret st
      end in
    if offsetTrades s then
      c <- lift (checkBalance (bc st) vol price) ;;
      match c with
      | (false, b') => ret (withBc st b')
      | (true, b') => create (withBc st b')
      end
    else create st.

Fixpoint createLevels (s : mirrorStrategy) (createOffer : createFn)
  (priceMultiplier : float64) (hack : bool)
  (st : levelState) (newOrders : list Order) : M levelState :=
  match newOrders with
  | [] => ret st
  | newOrder :: rest =>
      st' <- createLevel s createOffer priceMultiplier hack st newOrder ;;
      createLevels s createOffer priceMultiplier hack st' rest
  end.

Definition updateLevels (s : mirrorStrategy) (oldOffers : list Offer) (newOrders : list Order)
  (modifyOffer : modifyFn) (createOffer : createFn) (priceMultiplier : float64)
  (hackPriceInvertForBuyOrderChangeCheck : bool) (bc0 : balanceCoordinator)
  : M (list TransactionMutator) :=
  let st0 := {| ops := []; deleteOps := []; bc := bc0 |} in
  st <- (if (List.length oldOffers <=? List.length newOrders)%nat then
           st1 <- modifyLevels s modifyOffer priceMultiplier
                    hackPriceInvertForBuyOrderChangeCheck st0 (combine oldOffers newOrders) ;;
           createLevels s createOffer priceMultiplier
             hackPriceInvertForBuyOrderChangeCheck st1 (skipn (List.length oldOffers) newOrders)
         else
           st1 <- modifyLevels s modifyOffer priceMultiplier
                    hackPriceInvertForBuyOrderChangeCheck st0 (combine oldOffers newOrders) ;;
           ret {| ops := ops st1;
                  deleteOps := deleteOps st1
                                 ++ map DeleteOp (skipn (List.length newOrders) oldOffers);
                  bc := bc st1 |}) ;;
  ret (deleteOps st ++ ops st).

(** The operations collected so far, without the balance coordinator. *)
Definition collected (st : levelState)
  : list TransactionMutator * list TransactionMutator :=
  (ops st, deleteOps st).

(** The invariant of the loops: [deleteOps] holds delete operations only and
    [ops] holds none. *)
Definition sorted (st : levelState) : Prop :=
  Forall (fun op => isDelete op = true) (deleteOps st)
  /\ Forall (fun op => isDelete op = false) (ops st).

(** A batch in which every delete operation comes before every modify or
    create operation. *)
Definition deletesFirst (batch : list TransactionMutator) : Prop :=
  exists dels rest : list TransactionMutator,
    batch = dels ++ rest
    /\ Forall (fun op => isDelete op = true) dels
    /\ Forall (fun op => isDelete op = false) rest.

(** [utils.PriceAsFloat] parses an offer's price string. *)
Variable PriceAsFloat : string -> float64.

(** The test of [UpdateWithOps] that puts the sell operations first. *)
Definition sellOpsFirst (ob : OrderBook) (sellingAOffers : list Offer) : bool :=
  match Bids ob, sellingAOffers with
  | topBid :: _, topAsk :: _ =>
      negb (fltb (AsFloat (Price topBid)) (PriceAsFloat (offer_Price topAsk)))
  | _, _ => false
  end.

(** The crossed condition in words: the backing book has a top bid, there
    is a top primary ask, and the bid's price is at least the ask's. *)
Definition crossed (ob : OrderBook) (sellingAOffers : list Offer) : Prop :=
  exists (topBid : Order) (bids : list Order) (topAsk : Offer) (asks : list Offer),
    Bids ob = topBid :: bids
    /\ sellingAOffers = topAsk :: asks
    /\ (PriceAsFloat (offer_Price topAsk) <= AsFloat (Price topBid))%Q.

Definition UpdateWithOps (s : mirrorStrategy) (exchange : Exchange)
  (buyingAOffers sellingAOffers : list Offer) : M (list TransactionMutator) :=
  ob <- lift (fromReply (GetOrderBook exchange (backingPair s) (orderbookDepth s))) ;;
  let bids := firstn 50 (Bids ob) in
  let asks := firstn 50 (Asks ob) in
  let sellBalanceCoordinator :=
    {| placedUnits := Zero; backingBalance := maxBackingBase s;
       backingAssetType := "base"; isBackingBuy := false |} in
  buyOps <- updateLevels s buyingAOffers bids
              (ModifyBuyOffer (sdex s)) (CreateBuyOffer (sdex s))
              (1 - perLevelSpread s)%Q true sellBalanceCoordinator ;;
  let buyBalanceCoordinator :=
    {| placedUnits := Zero; backingBalance := maxBackingQuote s;
       backingAssetType := "quote"; isBackingBuy := true |} in
  sellOps <- updateLevels s sellingAOffers asks
               (ModifySellOffer (sdex s)) (CreateSellOffer (sdex s))
               (1 + perLevelSpread s)%Q false buyBalanceCoordinator ;;
  if sellOpsFirst ob sellingAOffers
  then ret (sellOps ++ buyOps)
  else ret (buyOps ++ sellOps).

End Model.

Arguments isDelete {ManageOfferBuilder}.
Arguments ModifyBuyOffer {ManageOfferBuilder}.
Arguments ModifySellOffer {ManageOfferBuilder}.
Arguments CreateBuyOffer {ManageOfferBuilder}.
Arguments CreateSellOffer {ManageOfferBuilder}.
Arguments ComputeIncrementalNativeAmountRaw {ManageOfferBuilder}.
Arguments sdex {N ManageOfferBuilder}.
Arguments baseAsset {N ManageOfferBuilder}.
Arguments quoteAsset {N ManageOfferBuilder}.
Arguments primaryConstraints {N ManageOfferBuilder}.
Arguments backingPair {N ManageOfferBuilder}.
Arguments backingConstraints {N ManageOfferBuilder}.
Arguments orderbookDepth {N ManageOfferBuilder}.
Arguments perLevelSpread {N ManageOfferBuilder}.
Arguments volumeDivideBy {N ManageOfferBuilder}.
Arguments offsetTrades {N ManageOfferBuilder}.
Arguments baseSurplus {N ManageOfferBuilder}.
Arguments maxBackingBase {N ManageOfferBuilder}.
Arguments maxBackingQuote {N ManageOfferBuilder}.
Arguments withBaseSurplus {N ManageOfferBuilder}.
Arguments withMaxBacking {N ManageOfferBuilder}.
Arguments baseVolumeToOffset {N ManageOfferBuilder}.
Arguments addTotal {N ManageOfferBuilder}.
Arguments addCommitted {N ManageOfferBuilder}.
Arguments settle {N ManageOfferBuilder}.
Arguments offsetOrder {N ManageOfferBuilder}.
Arguments HandleFill {N ManageOfferBuilder}.
Arguments handleFills {N ManageOfferBuilder}.
Arguments surplusInvariant {N ManageOfferBuilder}.
Arguments liabilityOf {N ManageOfferBuilder}.
Arguments deletesFirst {ManageOfferBuilder}.
Arguments sorted {N ManageOfferBuilder}.
Arguments crossed {N}.
Arguments sellOpsFirst {N}.
Arguments collected {N ManageOfferBuilder}.
Arguments PruneExistingOffers {N ManageOfferBuilder}.
Arguments recordBalances {N ManageOfferBuilder}.
Arguments PreUpdate {N ManageOfferBuilder}.
Arguments doModifyOffer {N ManageOfferBuilder}.
Arguments ops {N ManageOfferBuilder}.
Arguments deleteOps {N ManageOfferBuilder}.
Arguments bc {N ManageOfferBuilder}.
Arguments appendOp {N ManageOfferBuilder}.
Arguments appendDeleteOp {N ManageOfferBuilder}.
Arguments withBc {N ManageOfferBuilder}.
Arguments queueDelete {N ManageOfferBuilder}.
Arguments modifyLevel {N ManageOfferBuilder}.
Arguments modifyLevels {N ManageOfferBuilder}.
Arguments createLevel {N ManageOfferBuilder}.
Arguments createLevels {N ManageOfferBuilder}.
Arguments updateLevels {N ManageOfferBuilder}.
Arguments UpdateWithOps {N ManageOfferBuilder}.
Arguments DeleteOp {ManageOfferBuilder} offer.
Arguments ModifyOp {ManageOfferBuilder} mo.
Arguments CreateOp {ManageOfferBuilder} mo.

(** ** Construction of the strategy *)

(** [model.OrderConstraintsOverride], as [model.MakeOrderConstraintsOverride]
    builds it from its four pointers; the last one is a pointer to a pointer. *)
Record OrderConstraintsOverride {N : NumberOps} : Type := {
  ov_PricePrecision : option int8;
  ov_VolumePrecision : option int8;
  ov_MinBaseVolume : option Number;
  ov_MinQuoteVolume : option (option Number)
}.

(** The errors [makeMirrorStrategy] returns: the one of the exchange factory
    and the four of its own checks. *)
Inductive configError : Type :=
| ExchangeError (e : error)
| NeedPositiveMinBaseVolumeOverride
| NeedPositiveMinQuoteVolumeOverride
| NeedNonNegativeVolumePrecisionOverride
| NeedNonNegativePricePrecisionOverride.

(** How [makeMirrorStrategy] ends: a strategy, an error, or the panic of
    [MustFromString] on an asset string. *)
Inductive made (A : Type) : Type :=
| Made (a : A)
| Refused (e : configError)
| MustFromStringPanic (str : string).

Arguments Made {A} a.
Arguments Refused {A} e.
Arguments MustFromStringPanic {A} str.

Section Construction.

Context {N : NumberOps}.

Variable ManageOfferBuilder : Type.

(** The credential, parameter and header bags of the backing exchange, and
    the exchange handle: opaque to the strategy. *)
Variables APIKeys Params Headers Venue : Type.

(** [mirrorConfig]; the three bags are kept as the factory takes them. *)
Record mirrorConfig : Type := {
  cfg_Exchange : string;
  ExchangeBase : string;
  ExchangeQuote : string;
  OrderbookDepth : int32;
  VolumeDivideBy : float64;
  PerLevelSpread : float64;
  PricePrecisionOverride : option int8;
  VolumePrecisionOverride : option int8;
  MinBaseVolumeDeprecated : option float64;
  MinBaseVolumeOverride : option float64;
  MinQuoteVolumeOverride : option float64;
  OffsetTrades : bool;
  ExchangeAPIKeys : APIKeys;
  ExchangeParams : Params;
  ExchangeHeaders : Headers
}.

Definition withMinBaseVolumeOverride (config : mirrorConfig) (v : option float64)
  : mirrorConfig :=
  {| cfg_Exchange := cfg_Exchange config; ExchangeBase := ExchangeBase config;
     ExchangeQuote := ExchangeQuote config; OrderbookDepth := OrderbookDepth config;
     VolumeDivideBy := VolumeDivideBy config; PerLevelSpread := PerLevelSpread config;
     PricePrecisionOverride := PricePrecisionOverride config;
     VolumePrecisionOverride := VolumePrecisionOverride config;
     MinBaseVolumeDeprecated := MinBaseVolumeDeprecated config;
     MinBaseVolumeOverride := v;
     MinQuoteVolumeOverride := MinQuoteVolumeOverride config;
     OffsetTrades := OffsetTrades config;
     ExchangeAPIKeys := ExchangeAPIKeys config; ExchangeParams := ExchangeParams config;
     ExchangeHeaders := ExchangeHeaders config |}.

(** [convertDeprecatedMirrorConfigValues]: the config after the call. *)
Definition convertDeprecatedMirrorConfigValues (config : mirrorConfig) : mirrorConfig :=
  match MinBaseVolumeOverride config with
  | None => withMinBaseVolumeOverride config (MinBaseVolumeDeprecated config)
  | Some _ => config
  end.

(** What [makeMirrorStrategy] uses of its surroundings: the two exchange
    factories, the asset converter, the order constraints of the backing
    exchange with their overrides, [sdex.GetOrderConstraints] and
    [model.NumberFromFloat]. *)
Record Surroundings : Type := {
  MakeTradingExchange : string -> APIKeys -> Params -> Headers -> bool -> reply Venue;
  MakeExchange : string -> bool -> reply Venue;
  MustFromString : Venue -> string -> option Asset;
  OverrideOrderConstraints : Venue -> TradingPair -> OrderConstraintsOverride -> Venue;
  venue_GetOrderConstraints : Venue -> TradingPair -> OrderConstraints;
  sdex_GetOrderConstraints : TradingPair -> OrderConstraints;
  NumberFromFloat : float64 -> int8 -> Number
}.

(** [*p <= 0.0] behind a nil check. *)
Definition notPositive (p : option float64) : bool :=
  match p with
  | Some v => negb (fltb 0%Q v)
  | None => false
  end.

(** [*p < 0] behind a nil check. *)
Definition negative (p : option int8) : bool :=
  match p with
  | Some v => (v <? 0)%Z
  | None => false
  end.

(** The first part of [makeMirrorStrategy]: the exchange, after the checks
    made when trades are offset. *)
Definition makeBackingExchange (w : Surroundings) (config : mirrorConfig) (simMode : bool)
  : made Venue :=
  if OffsetTrades config then
    match MakeTradingExchange w (cfg_Exchange config) (ExchangeAPIKeys config)
            (ExchangeParams config) (ExchangeHeaders config) simMode with
    | Failed e => Refused (ExchangeError e)
    | Reply exchange =>
        if notPositive (MinBaseVolumeOverride config)
        then Refused NeedPositiveMinBaseVolumeOverride
        else if notPositive (MinQuoteVolumeOverride config)
        then Refused NeedPositiveMinQuoteVolumeOverride
        else if negative (VolumePrecisionOverride config)
        then Refused NeedNonNegativeVolumePrecisionOverride
        else if negative (PricePrecisionOverride config)
        then Refused NeedNonNegativePricePrecisionOverride
        else Made exchange
    end
  else
    match MakeExchange w (cfg_Exchange config) simMode with
    | Failed e => Refused (ExchangeError e)
    | Reply exchange => Made exchange
    end.

(** The second part: the order constraints of the backing pair after the
    three overrides. *)
Definition overrideConstraints (w : Surroundings) (config : mirrorConfig)
  (exchange : Venue) (backingPair0 : TradingPair) : Venue :=
  let exchange1 :=
    OverrideOrderConstraints w exchange backingPair0
      {| ov_PricePrecision := PricePrecisionOverride config;
         ov_VolumePrecision := VolumePrecisionOverride config;
         ov_MinBaseVolume := None; ov_MinQuoteVolume := None |} in
  let exchange2 :=
    match MinBaseVolumeOverride config with
    | Some minBase =>
        OverrideOrderConstraints w exchange1 backingPair0
          {| ov_PricePrecision := None; ov_VolumePrecision := None;
             ov_MinBaseVolume :=
               Some (NumberFromFloat w minBase
                       (VolumePrecision (venue_GetOrderConstraints w exchange1 backingPair0)));
             ov_MinQuoteVolume := None |}
    | None => exchange1
    end in
  match MinQuoteVolumeOverride config with
  | Some minQuote =>
      OverrideOrderConstraints w exchange2 backingPair0
        {| ov_PricePrecision := None; ov_VolumePrecision := None;
           ov_MinBaseVolume := None;
           ov_MinQuoteVolume :=
             Some (Some (NumberFromFloat w minQuote
                           (VolumePrecision
                              (venue_GetOrderConstraints w exchange2 backingPair0)))) |}
  | None => exchange2
  end.

(** [makeMirrorStrategy]: the strategy with its exchange, and the config as
    the call leaves it. *)
Definition makeMirrorStrategy (w : Surroundings) (sdex0 : SDEX ManageOfferBuilder)
  (pair : TradingPair) (baseAsset0 quoteAsset0 : hAsset) (config0 : mirrorConfig)
  (simMode : bool) : made (mirrorStrategy ManageOfferBuilder * Venue) * mirrorConfig :=
  let config := convertDeprecatedMirrorConfigValues config0 in
  match makeBackingExchange w config simMode with
  | Refused e => (Refused e, config)
  | MustFromStringPanic str => (MustFromStringPanic str, config)
  | Made exchange =>
      let primaryConstraints0 := sdex_GetOrderConstraints w pair in
      match MustFromString w exchange (ExchangeBase config) with
      | None => (MustFromStringPanic (ExchangeBase config), config)
      | Some base =>
          match MustFromString w exchange (ExchangeQuote config) with
          | None => (MustFromStringPanic (ExchangeQuote config), config)
          | Some quote =>
              let backingPair0 := {| Base := base; Quote := quote |} in
              let exchange' := overrideConstraints w config exchange backingPair0 in
              (Made ({| sdex := sdex0;
                        baseAsset := baseAsset0;
                        quoteAsset := quoteAsset0;
                        primaryConstraints := primaryConstraints0;
                        backingPair := backingPair0;
                        backingConstraints :=
                          venue_GetOrderConstraints w exchange' backingPair0;
                        orderbookDepth := OrderbookDepth config;
                        perLevelSpread := PerLevelSpread config;
                        volumeDivideBy := VolumeDivideBy config;
                        offsetTrades := OffsetTrades config;
                        baseSurplus := {| onBuy := makeAssetSurplus;
                                          onSell := makeAssetSurplus |};
                        maxBackingBase := None;
                        maxBackingQuote := None |},
                     exchange'),
               config)
          end
      end
  end.

(** [GetFillHandlers]: the strategy itself when trades are offset. *)
Definition GetFillHandlers (s : mirrorStrategy ManageOfferBuilder)
  : list (mirrorStrategy ManageOfferBuilder) :=
  if offsetTrades s then [s] else [].

End Construction.

Arguments cfg_Exchange {APIKeys Params Headers}.
Arguments ExchangeBase {APIKeys Params Headers}.
Arguments ExchangeQuote {APIKeys Params Headers}.
Arguments OrderbookDepth {APIKeys Params Headers}.
Arguments VolumeDivideBy {APIKeys Params Headers}.
Arguments PerLevelSpread {APIKeys Params Headers}.
Arguments PricePrecisionOverride {APIKeys Params Headers}.
Arguments VolumePrecisionOverride {APIKeys Params Headers}.
Arguments MinBaseVolumeDeprecated {APIKeys Params Headers}.
Arguments MinBaseVolumeOverride {APIKeys Params Headers}.
Arguments MinQuoteVolumeOverride {APIKeys Params Headers}.
Arguments OffsetTrades {APIKeys Params Headers}.
Arguments ExchangeAPIKeys {APIKeys Params Headers}.
Arguments ExchangeParams {APIKeys Params Headers}.
Arguments ExchangeHeaders {APIKeys Params Headers}.
Arguments withMinBaseVolumeOverride {APIKeys Params Headers}.
Arguments convertDeprecatedMirrorConfigValues {APIKeys Params Headers}.
Arguments MakeTradingExchange {N APIKeys Params Headers Venue}.
Arguments MakeExchange {N APIKeys Params Headers Venue}.
Arguments MustFromString {N APIKeys Params Headers Venue}.
Arguments OverrideOrderConstraints {N APIKeys Params Headers Venue}.
Arguments venue_GetOrderConstraints {N APIKeys Params Headers Venue}.
Arguments sdex_GetOrderConstraints {N APIKeys Params Headers Venue}.
Arguments NumberFromFloat {N APIKeys Params Headers Venue}.
Arguments makeBackingExchange {N APIKeys Params Headers Venue}.
Arguments overrideConstraints {N APIKeys Params Headers Venue}.
Arguments makeMirrorStrategy {N ManageOfferBuilder APIKeys Params Headers Venue}.
Arguments GetFillHandlers {N ManageOfferBuilder}.

(** ** Predicates on outcomes *)

(** The call left the liabilities it found in place and added at most [k]
    calls after them. *)
Definition extendsBy {A : Type} (k : nat) (l : Liabilities) (r : result A * Liabilities)
  : Prop :=
  exists added : Liabilities, snd r = l ++ added /\ (List.length added <= k)%nat.

(** The coordinator has a balance and has placed no more than it. *)
Definition withinBalance {N : NumberOps} (b : balanceCoordinator) : Prop :=
  exists balance : Number,
    backingBalance b = Some balance
    /\ (AsFloat (placedUnits b) <= AsFloat balance)%Q.

(** The uncommitted surplus of a side: total - committed. *)
Definition uncommitted {N : NumberOps} {ManageOfferBuilder : Type}
  (s : mirrorStrategy ManageOfferBuilder) (side : OrderAction) : float64 :=
  (AsFloat (total (surplusOf (baseSurplus s) side))
   - AsFloat (committed (surplusOf (baseSurplus s) side)))%Q.

(** The number of operations of a batch that are not deletes. *)
Definition countPlaced {ManageOfferBuilder : Type}
  (batch : list (TransactionMutator ManageOfferBuilder)) : nat :=
  List.length (filter (fun op => negb (isDelete op)) batch).

(** ** A Number implementation *)

Module Decimal.

(** Modelled from the spec: package [model] (number.go) is not among the
    sources.  The specification describes Number as a fixed-precision decimal
    with an intrinsic precision p and the operations add, subtract, multiply,
    scale, invert, equalsWithinEpsilon and capPrecision, which truncates to p
    decimals.  Values are signed, since the ledger of the strategy documents
    negative totals.  Arithmetic is exact on the value; the precision is
    carried along and only capping and parsing truncate. *)
Record t : Type := {
  value : Q;
  precision : Z
}.

Definition pow10 (p : Z) : positive := Z.to_pos (10 ^ Z.max 0 p).

(** [q] with the decimals after the [p]-th dropped. *)
Definition truncate (q : Q) (p : Z) : Q :=
  Qred (Qmake (Z.quot (Qnum q * Zpos (pow10 p)) (Zpos (Qden q))) (pow10 p)).

Definition zero : t := {| value := 0; precision := 16 |}.

Definition add (a b : t) : t :=
  {| value := Qred (value a + value b); precision := Z.max (precision a) (precision b) |}.

Definition subtract (a b : t) : t :=
  {| value := Qred (value a - value b); precision := Z.max (precision a) (precision b) |}.

Definition multiply (a b : t) : t :=
  {| value := Qred (value a * value b); precision := precision a + precision b |}.

Definition scale (a : t) (k : float64) : t :=
  {| value := Qred (value a * k); precision := precision a |}.

Definition invert (a : t) : t :=
  {| value := Qred (/ value a); precision := precision a |}.

Definition capPrecision (a : t) (p : int8) : t :=
  {| value := truncate (value a) p; precision := p |}.

(** Equality within [eps] after both values are brought to the lower of the
    two precisions. *)
Definition equalsWithinEpsilon (a b : t) (eps : float64) : bool :=
  let p := Z.min (precision a) (precision b) in
  fltb (Qabs (truncate (value a) p - truncate (value b) p)) eps.

Definition digitOf (c : ascii) : option Z :=
  let n := Z.of_nat (nat_of_ascii c) in
  if (48 <=? n) && (n <=? 57) then Some (n - 48) else None.

(** Digits with at most one decimal point, at least one digit. *)
Fixpoint parseDigits (str : string) (num : Z) (den : positive) (afterPoint seen : bool)
  : option Q :=
  match str with
  | EmptyString => if seen then Some (Qmake num den) else None
  | String c rest =>
      if Ascii.eqb c "."%char then
        if afterPoint then None else parseDigits rest num den true seen
      else
        match digitOf c with
        | Some d =>
            parseDigits rest (num * 10 + d) (if afterPoint then (den * 10)%positive else den)
              afterPoint true
        | None => None
        end
  end.

Definition fromString (str : string) (p : int8) : option t :=
  match parseDigits str 0 1 false false with
  | Some q => Some {| value := truncate q p; precision := p |}
  | None => None
  end.

(** A decimal literal: [mantissa / 10^p] at precision [p]. *)
Definition lit (mantissa : Z) (p : Z) : t :=
  {| value := Qred (Qmake mantissa (pow10 p)); precision := p |}.

End Decimal.

(** Modelled from the spec: the Number operations of package [model], which
    is not among the sources, given by the decimal implementation above. *)
#[export] Instance DecimalOps : NumberOps := {|
  Number := Decimal.t;
  Zero := Decimal.zero;
  AsFloat := Decimal.value;
  Add := Decimal.add;
  Subtract := Decimal.subtract;
  Multiply := Decimal.multiply;
  Scale := Decimal.scale;
  InvertNumber := Decimal.invert;
  EqualsPrecisionNormalized := Decimal.equalsWithinEpsilon;
  NumberByCappingPrecision := Decimal.capPrecision;
  MustNumberFromString := Decimal.fromString
|}.

(** ** A concrete market, used to run the model *)

Module Scenario.

Import Decimal.

(** A builder that keeps the price and amount SDEX was called with. *)
Record builder : Type := {
  b_price : float64;
  b_amount : float64
}.

Definition echoModify : modifyFn builder :=
  fun _ _ price amount _ => Reply (Some {| b_price := price; b_amount := amount |}).

Definition echoCreate : createFn builder :=
  fun _ _ _ price amount _ => Reply (Some {| b_price := price; b_amount := amount |}).

Definition nilModify : modifyFn builder :=
  fun _ _ _ _ _ => Reply None.

Definition nativeAmount (isNewOffer : bool) : float64 :=
  if isNewOffer then (1 # 2)%Q else 0%Q.

Definition echoSdex : SDEX builder :=
  {| ModifyBuyOffer := echoModify; ModifySellOffer := echoModify;
     CreateBuyOffer := echoCreate; CreateSellOffer := echoCreate;
     ComputeIncrementalNativeAmountRaw := nativeAmount |}.

Definition nilSdex : SDEX builder :=
  {| ModifyBuyOffer := nilModify; ModifySellOffer := nilModify;
     CreateBuyOffer := echoCreate; CreateSellOffer := echoCreate;
     ComputeIncrementalNativeAmountRaw := nativeAmount |}.

Definition xlm : hAsset :=
  {| asset_Type := "native"; asset_Code := "XLM"; asset_Issuer := "" |}.

Definition usd : hAsset :=
  {| asset_Type := "credit_alphanum4"; asset_Code := "USD"; asset_Issuer := "GISSUER" |}.

Definition pair : TradingPair := {| Base := "XLM"%string; Quote := "USD"%string |}.

(** Primary venue: 7 decimals.  Backing venue: 8 decimals, minimum base
    volume 1. *)
Definition primary : OrderConstraints :=
  {| PricePrecision := 7; VolumePrecision := 7;
     MinBaseVolume := lit 1 7; MinQuoteVolume := None |}.

Definition backing : OrderConstraints :=
  {| PricePrecision := 8; VolumePrecision := 8;
     MinBaseVolume := lit 100000000 8; MinQuoteVolume := None |}.

Definition strategy (sdex0 : SDEX builder) (offset : bool) (divideBy : float64)
  (maxBase maxQuote : option Number) : mirrorStrategy builder :=
  {| sdex := sdex0; baseAsset := xlm; quoteAsset := usd;
     primaryConstraints := primary; backingPair := pair; backingConstraints := backing;
     orderbookDepth := 20; perLevelSpread := (1 # 100)%Q; volumeDivideBy := divideBy;
     offsetTrades := offset;
     baseSurplus := {| onBuy := makeAssetSurplus; onSell := makeAssetSurplus |};
     maxBackingBase := maxBase; maxBackingQuote := maxQuote |}.

Definition level (action : OrderAction) (price volume : Number) : Order :=
  {| Pair := pair; order_Action := action; order_Type := OrderTypeLimit;
     Price := price; Volume := volume; Timestamp := None |}.

Definition exchangeWith (ob : OrderBook) (answer : reply (option TransactionID)) : Exchange :=
  {| GetOrderBook := fun _ _ => Reply ob;
     GetAccountBalances := fun _ => Reply [("XLM"%string, lit 1000 0); ("USD"%string, lit 1000 0)];
     AddOrder := fun _ => answer |}.

(** Bids [(100, 2)], asks [(101, 3)]. *)
Definition book : OrderBook :=
  {| Bids := [level OrderActionBuy (lit 100 0) (lit 2 0)];
     Asks := [level OrderActionSell (lit 101 0) (lit 3 0)] |}.

(** Top bid 200, above resting asks at 150. *)
Definition crossedBook : OrderBook :=
  {| Bids := [level OrderActionBuy (lit 200 0) (lit 2 0)];
     Asks := [level OrderActionSell (lit 201 0) (lit 3 0)] |}.

(** A level priced with 8 decimals: 1.23456789. *)
Definition fineLevel : Order := level OrderActionBuy (lit 123456789 8) (lit 2 0).

Definition accepting : Exchange := exchangeWith book (Reply (Some "tx-1"%string)).
Definition rejecting : Exchange := exchangeWith book (Failed (ExternalError "rejected")).
Definition answeringNil : Exchange := exchangeWith book (Reply None).

Definition fill (action : OrderAction) (price volume : Number) : Trade :=
  {| trade_Action := action; trade_Price := price; trade_Volume := volume;
     trade_TransactionID := "fill-1"%string |}.

(** A resting primary offer. *)
Definition offer (id : Z) (selling buying : hAsset) (amount price : string) : Offer :=
  {| offer_ID := id; Selling := selling; Buying := buying;
     Amount := amount; offer_Price := price |}.

(** [utils.PriceAsFloat] on well-formed prices; 0 otherwise. *)
Definition priceAsFloat (str : string) : float64 :=
  match parseDigits str 0 1 false false with
  | Some q => Qred q
  | None => 0%Q
  end.

(** A backing exchange with a single pair: the handle is the pair's order
    constraints, and an override replaces the fields it names. *)
Definition applyOverride (c : OrderConstraints) (o : OrderConstraintsOverride)
  : OrderConstraints :=
  {| PricePrecision :=
       match ov_PricePrecision o with Some p => p | None => PricePrecision c end;
     VolumePrecision :=
       match ov_VolumePrecision o with Some p => p | None => VolumePrecision c end;
     MinBaseVolume :=
       match ov_MinBaseVolume o with Some v => v | None => MinBaseVolume c end;
     MinQuoteVolume :=
       match ov_MinQuoteVolume o with Some v => v | None => MinQuoteVolume c end |}.

Definition surroundings : Surroundings unit unit unit OrderConstraints :=
  {| MakeTradingExchange := fun _ _ _ _ _ => Reply backing;
     MakeExchange := fun _ _ => Reply backing;
     MustFromString := fun _ str => if String.eqb str "" then None else Some str;
     OverrideOrderConstraints := fun c _ o => applyOverride c o;
     venue_GetOrderConstraints := fun c _ => c;
     sdex_GetOrderConstraints := fun _ => primary;
     NumberFromFloat := fun f p => {| value := truncate f p; precision := p |} |}.

Definition config (offset : bool) (minBase deprecated : option float64)
  (pricePrecision : option int8) : mirrorConfig unit unit unit :=
  {| cfg_Exchange := "kraken"; ExchangeBase := "XLM"; ExchangeQuote := "USD";
     OrderbookDepth := 20; VolumeDivideBy := 2%Q; PerLevelSpread := (1 # 100)%Q;
     PricePrecisionOverride := pricePrecision; VolumePrecisionOverride := None;
     MinBaseVolumeDeprecated := deprecated; MinBaseVolumeOverride := minBase;
     MinQuoteVolumeOverride := None; OffsetTrades := offset;
     ExchangeAPIKeys := tt; ExchangeParams := tt; ExchangeHeaders := tt |}.

(** A backing book without levels. *)
Definition emptyBook : OrderBook := {| Bids := []; Asks := [] |}.

(** Two resting bids and two resting asks. *)
Definition restingBids : list Offer :=
  [offer 1 usd xlm "1" "3"; offer 3 usd xlm "1" "3"].

Definition restingAsks : list Offer :=
  [offer 2 xlm usd "1.5" "150"; offer 5 xlm usd "1.5" "150"].

(** An exchange whose account holds the given balances. *)
Definition exchangeHolding (balances : list (Asset * Number)) : Exchange :=
  {| GetOrderBook := fun _ _ => Reply book;
     GetAccountBalances := fun _ => Reply balances;
     AddOrder := fun _ => Reply None |}.

End Scenario.

(** * Properties *)

(** ** Comparison of floats *)

Lemma fltb_true_iff (a b : float64) : fltb a b = true <-> (a < b)%Q.
Proof.
  unfold fltb. rewrite Qlt_alt.
  destruct (Qcompare a b); split; intro H; try reflexivity; discriminate.
Qed.

Lemma fltb_false_iff (a b : float64) : fltb a b = false <-> (b <= a)%Q.
Proof.
  split; intro H.
  - apply Qnot_lt_le. intro Hlt. apply fltb_true_iff in Hlt. congruence.
  - destruct (fltb a b) eqn:E; [|reflexivity].
    apply fltb_true_iff in E. exfalso. apply (Qlt_not_le _ _ E H).
Qed.

(** ** The decimal implementation is exact and its capping truncates *)

Lemma truncate_nonneg (q : Q) (p : Z) : (0 <= q)%Q -> (0 <= Decimal.truncate q p)%Q.
Proof.
  intro Hq. unfold Decimal.truncate. rewrite Qred_correct.
  unfold Qle in *. simpl in *. rewrite Z.mul_1_r in *.
  apply Z.quot_pos; [|lia].
  apply Z.mul_nonneg_nonneg; lia.
Qed.

Lemma truncate_le (q : Q) (p : Z) : (0 <= q)%Q -> (Decimal.truncate q p <= q)%Q.
Proof.
  intro Hq. unfold Decimal.truncate. rewrite Qred_correct.
  unfold Qle in *. simpl in *. rewrite Z.mul_1_r in Hq.
  rewrite Z.quot_div_nonneg by (try apply Z.mul_nonneg_nonneg; lia).
  rewrite Z.mul_comm. apply Z.mul_div_le. lia.
Qed.

#[export] Instance DecimalLaws : NumberLaws DecimalOps.
Proof.
  constructor; intros; cbn [AsFloat Add Subtract Multiply Scale NumberByCappingPrecision
    DecimalOps Decimal.add Decimal.subtract Decimal.multiply Decimal.scale
    Decimal.capPrecision Decimal.value] in *.
  - apply Qred_correct.
  - apply Qred_correct.
  - apply Qred_correct.
  - apply Qred_correct.
  - now apply truncate_nonneg.
  - now apply truncate_le.
Qed.

(** ** The hedge volume *)

Section Ledger.

Context {N : NumberOps} {L : NumberLaws N} {B : Type}.

(** The threshold [MinBaseVolume.Scale(0.5)] is half the minimum. *)
Lemma half_minBase (s : mirrorStrategy B) :
  (AsFloat (Scale (MinBaseVolume (backingConstraints s)) (1 # 2))
   == AsFloat (MinBaseVolume (backingConstraints s)) / 2)%Q.
Proof.
  rewrite AsFloat_Scale. unfold Qdiv. reflexivity.
Qed.

Lemma fltb_half_minBase (s : mirrorStrategy B) (u : Number) :
  fltb (AsFloat u) (AsFloat (Scale (MinBaseVolume (backingConstraints s)) (1 # 2))) = true
  <-> (AsFloat u < AsFloat (MinBaseVolume (backingConstraints s)) / 2)%Q.
Proof.
  rewrite fltb_true_iff, half_minBase. reflexivity.
Qed.

(** C1.  With u = total[side] - committed[side] and minBase the minimum base
    volume of the backing venue (a non-negative Number), [baseVolumeToOffset]
    answers ok = false when u < minBase/2; the hedge volume u capped to the
    backing volume precision when u > minBase; and minBase capped to the
    backing volume precision otherwise. *)
Theorem baseVolumeToOffset_cases (s : mirrorStrategy B) (trade : Trade) (side : OrderAction) :
  let u := Subtract (total (surplusOf (baseSurplus s) side))
                    (committed (surplusOf (baseSurplus s) side)) in
  let minBase := MinBaseVolume (backingConstraints s) in
  let capped n := NumberByCappingPrecision n (VolumePrecision (backingConstraints s)) in
  (0 <= AsFloat minBase)%Q ->
  ((AsFloat u < AsFloat minBase / 2)%Q ->
     baseVolumeToOffset s trade side = (None, false))
  /\ ((AsFloat minBase < AsFloat u)%Q ->
     baseVolumeToOffset s trade side = (Some (capped u), true))
  /\ (~ (AsFloat u < AsFloat minBase / 2)%Q -> ~ (AsFloat minBase < AsFloat u)%Q ->
     baseVolumeToOffset s trade side = (Some (capped minBase), true)).
Proof.
  intros u minBase capped Hmin. unfold baseVolumeToOffset.
  fold u. fold minBase.
  destruct (fltb (AsFloat u) (AsFloat (Scale minBase (1 # 2)))) eqn:Ehalf.
  - apply fltb_half_minBase in Ehalf. fold minBase in Ehalf.
    split; [reflexivity|split].
    + intro Hgt. exfalso.
      assert (Hh : (AsFloat minBase / 2 <= AsFloat minBase)%Q).
      { apply Qle_shift_div_r; [reflexivity|]. lra. }
      lra.
    + intros Hn _. contradiction.
  - assert (Hge : ~ (AsFloat u < AsFloat minBase / 2)%Q).
    { intro H. apply (fltb_half_minBase s u) in H. fold minBase in H. congruence. }
    split; [intro; contradiction|split].
    + intro Hgt. apply fltb_true_iff in Hgt. rewrite Hgt. reflexivity.
    + intros _ Hle.
      destruct (fltb (AsFloat minBase) (AsFloat u)) eqn:E; [|reflexivity].
      apply fltb_true_iff in E. contradiction.
Qed.

End Ledger.

Lemma baseVolumeToOffset_cases_witness :
  let s := Scenario.strategy Scenario.echoSdex true 2%Q None None in
  (0 <= AsFloat (MinBaseVolume (backingConstraints s)))%Q
  /\ baseVolumeToOffset s
       (Scenario.fill OrderActionBuy (Decimal.lit 5 0) (Decimal.lit 6 1)) OrderActionSell
     = (None, false).
Proof.
  intro s.
  assert (H : (0 <= AsFloat (MinBaseVolume (backingConstraints s)))%Q)
    by (vm_compute; discriminate).
  split; [exact H|].
  apply (proj1 (baseVolumeToOffset_cases s
                  (Scenario.fill OrderActionBuy (Decimal.lit 5 0) (Decimal.lit 6 1))
                  OrderActionSell H)).
  vm_compute. reflexivity.
Defined.

(** ** The balance coordinator *)

Section Coordinator.

Context {N : NumberOps} {L : NumberLaws N}.

Lemma newPlacedUnits_value (b : balanceCoordinator) (vol price : Number) :
  (AsFloat (Add (placedUnits b) (additionalUnits b vol price))
   == AsFloat (placedUnits b) + additionalValue b vol price)%Q.
Proof.
  rewrite AsFloat_Add. unfold additionalUnits, additionalValue.
  destruct (isBackingBuy b); [rewrite AsFloat_Multiply|]; reflexivity.
Qed.

Lemma additionalValue_nonneg (b : balanceCoordinator) (vol price : Number) :
  (0 <= AsFloat vol)%Q -> (0 <= AsFloat price)%Q -> (0 <= additionalValue b vol price)%Q.
Proof.
  intros Hv Hp. unfold additionalValue.
  destruct (isBackingBuy b); [apply Qmult_le_0_compat|]; assumption.
Qed.

Lemma checkBalance_rejects (b : balanceCoordinator) (balance vol price : Number) :
  backingBalance b = Some balance ->
  (AsFloat balance < AsFloat (placedUnits b) + additionalValue b vol price)%Q ->
  checkBalance b vol price = Ok (false, b).
Proof.
  intros Hb Hlt. unfold checkBalance. rewrite Hb.
  rewrite <- newPlacedUnits_value in Hlt. apply fltb_true_iff in Hlt.
  rewrite Hlt. reflexivity.
Qed.

Lemma checkBalance_accepts (b : balanceCoordinator) (balance vol price : Number) :
  backingBalance b = Some balance ->
  ~ (AsFloat balance < AsFloat (placedUnits b) + additionalValue b vol price)%Q ->
  checkBalance b vol price
  = Ok (true, withPlacedUnits b (Add (placedUnits b) (additionalUnits b vol price))).
Proof.
  intros Hb Hge. unfold checkBalance. rewrite Hb.
  rewrite <- newPlacedUnits_value in Hge.
  destruct (fltb (AsFloat balance)
              (AsFloat (Add (placedUnits b) (additionalUnits b vol price)))) eqn:E.
  - apply fltb_true_iff in E. contradiction.
  - reflexivity.
Qed.

(** A sequence of calls with non-negative volumes and prices runs to its
    end and never lowers [placedUnits]. *)
Lemma checkBalances_monotone (calls : list (Number * Number)) :
  forall (b : balanceCoordinator) (balance : Number),
    backingBalance b = Some balance ->
    (forall vol price, In (vol, price) calls ->
       (0 <= AsFloat vol)%Q /\ (0 <= AsFloat price)%Q) ->
    exists b', checkBalances b calls = Ok b'
               /\ backingBalance b' = Some balance
               /\ (AsFloat (placedUnits b) <= AsFloat (placedUnits b'))%Q.
Proof.
  induction calls as [|[vol price] rest IH]; intros b balance Hb Hpos.
  - exists b. repeat split; [assumption|apply Qle_refl].
  - destruct (Hpos vol price (or_introl eq_refl)) as [Hv Hp].
    assert (Hrest : forall v p, In (v, p) rest ->
                      (0 <= AsFloat v)%Q /\ (0 <= AsFloat p)%Q)
      by (intros v p Hin; apply Hpos; right; exact Hin).
    cbn [checkBalances].
    destruct (Qlt_le_dec (AsFloat balance)
                (AsFloat (placedUnits b) + additionalValue b vol price)) as [Hlt|Hle].
    + rewrite (checkBalance_rejects b balance vol price Hb Hlt).
      apply (IH b balance Hb Hrest).
    + rewrite (checkBalance_accepts b balance vol price Hb (Qle_not_lt _ _ Hle)).
      destruct (IH (withPlacedUnits b (Add (placedUnits b) (additionalUnits b vol price)))
                  balance Hb Hrest) as (b' & Hrun & Hbal & Hmono).
      exists b'. repeat split; try assumption.
      eapply Qle_trans; [|exact Hmono].
      cbn [withPlacedUnits placedUnits]. rewrite newPlacedUnits_value.
      pose proof (additionalValue_nonneg b vol price Hv Hp). lra.
Qed.

(** C7.  [checkBalance(volume, price)] takes additional = volume * price
    when isBackingBuy and additional = volume otherwise.  It answers false
    and leaves the coordinator as it is exactly when
    placedUnits + additional > backingBalance; otherwise it answers true and
    sets placedUnits to placedUnits + additional, which is then at most
    backingBalance.  Over any sequence of calls (with the non-negative
    volumes and prices of order-book levels) placedUnits never decreases. *)
Theorem checkBalance_spec (b : balanceCoordinator) (balance : Number) :
  backingBalance b = Some balance ->
  (forall vol price : Number,
     let additional :=
       if isBackingBuy b then (AsFloat vol * AsFloat price)%Q else AsFloat vol in
     ((AsFloat balance < AsFloat (placedUnits b) + additional)%Q ->
        checkBalance b vol price = Ok (false, b))
     /\ (~ (AsFloat balance < AsFloat (placedUnits b) + additional)%Q ->
        exists b', checkBalance b vol price = Ok (true, b')
                   /\ (AsFloat (placedUnits b') == AsFloat (placedUnits b) + additional)%Q
                   /\ (AsFloat (placedUnits b') <= AsFloat balance)%Q
                   /\ backingBalance b' = backingBalance b
                   /\ isBackingBuy b' = isBackingBuy b))
  /\ (forall calls : list (Number * Number),
        (forall vol price, In (vol, price) calls ->
           (0 <= AsFloat vol)%Q /\ (0 <= AsFloat price)%Q) ->
        exists b', checkBalances b calls = Ok b'
                   /\ (AsFloat (placedUnits b) <= AsFloat (placedUnits b'))%Q).
Proof.
  intro Hb. split.
  - intros vol price additional. change additional with (additionalValue b vol price).
    split.
    + apply checkBalance_rejects. exact Hb.
    + intro Hge. eexists. split; [apply (checkBalance_accepts b balance); assumption|].
      cbn [withPlacedUnits placedUnits backingBalance isBackingBuy].
      repeat split.
      * apply newPlacedUnits_value.
      * rewrite newPlacedUnits_value. apply Qnot_lt_le. exact Hge.
  - intros calls Hpos.
    destruct (checkBalances_monotone calls b balance Hb Hpos) as (b' & Hrun & _ & Hmono).
    exists b'. split; assumption.
Qed.

End Coordinator.

Lemma checkBalance_spec_witness :
  let b := {| placedUnits := Zero; backingBalance := Some (Decimal.lit 15 1);
              backingAssetType := "base"; isBackingBuy := false |} in
  let one := Decimal.lit 1 0 in
  backingBalance b = Some (Decimal.lit 15 1)
  /\ exists b', checkBalances b [(one, one); (one, one); (one, one)] = Ok b'
                /\ (AsFloat (placedUnits b) <= AsFloat (placedUnits b'))%Q.
Proof.
  intros b one. split; [reflexivity|].
  apply (proj2 (checkBalance_spec b (Decimal.lit 15 1) eq_refl)).
  intros vol price [H|[H|[H|[]]]]; inversion H; subst vol price;
    vm_compute; split; discriminate.
Defined.

(** ** The fill handler *)

Section FillHandler.

Context {N : NumberOps} {B : Type}.

Lemma surplusOf_setSurplus_same (m : surplusMap) (a : OrderAction) (v : assetSurplus) :
  surplusOf (setSurplus m a v) a = v.
Proof. destruct a; reflexivity. Qed.

Lemma surplusOf_setSurplus_other (m : surplusMap) (a a' : OrderAction) (v : assetSurplus) :
  a <> a' -> surplusOf (setSurplus m a v) a' = surplusOf m a'.
Proof. destruct a, a'; intro H; try reflexivity; congruence. Qed.

Lemma baseSurplus_withBaseSurplus (s : mirrorStrategy B) (m : surplusMap) :
  baseSurplus (withBaseSurplus s m) = m.
Proof. reflexivity. Qed.

Lemma backingConstraints_withBaseSurplus (s : mirrorStrategy B) (m : surplusMap) :
  backingConstraints (withBaseSurplus s m) = backingConstraints s.
Proof. reflexivity. Qed.

(** The ledger of one side after each of the three ledger updates. *)
Lemma surplusOf_addTotal (s : mirrorStrategy B) (a : OrderAction) (v : Number) :
  surplusOf (baseSurplus (addTotal s a v)) a
  = {| total := Add (total (surplusOf (baseSurplus s) a)) v;
       committed := committed (surplusOf (baseSurplus s) a) |}.
Proof. unfold addTotal. cbn [baseSurplus withBaseSurplus]. apply surplusOf_setSurplus_same. Qed.

Lemma surplusOf_addCommitted (s : mirrorStrategy B) (a : OrderAction) (v : Number) :
  surplusOf (baseSurplus (addCommitted s a v)) a
  = {| total := total (surplusOf (baseSurplus s) a);
       committed := Add (committed (surplusOf (baseSurplus s) a)) v |}.
Proof.
  unfold addCommitted. cbn [baseSurplus withBaseSurplus]. apply surplusOf_setSurplus_same.
Qed.

Lemma surplusOf_settle (s : mirrorStrategy B) (a : OrderAction) (v : Number) :
  surplusOf (baseSurplus (settle s a v)) a
  = {| total := Subtract (total (surplusOf (baseSurplus s) a)) v;
       committed := Subtract (committed (surplusOf (baseSurplus s) a)) v |}.
Proof. unfold settle. cbn [baseSurplus withBaseSurplus]. apply surplusOf_setSurplus_same. Qed.

(** C3.  When the hedge order is submitted and the backing venue answers
    with an error or with a nil transaction id, [HandleFill] returns an
    error and the ledger is not rolled back: total of the hedged side keeps
    the added fill volume and committed keeps the committed hedge volume. *)
Theorem HandleFill_failure_keeps_commit
  (s : mirrorStrategy B) (exchange : Exchange) (trade : Trade) (newVolume : Number) :
  let side := Reverse (trade_Action trade) in
  baseVolumeToOffset (addTotal s side (trade_Volume trade)) trade side
    = (Some newVolume, true) ->
  ((exists e, AddOrder exchange (offsetOrder s trade newVolume) = Failed e)
   \/ AddOrder exchange (offsetOrder s trade newVolume) = Reply None) ->
  (exists e, fst (HandleFill s exchange trade) = Error e)
  /\ surplusOf (baseSurplus (snd (HandleFill s exchange trade))) side
     = {| total := Add (total (surplusOf (baseSurplus s) side)) (trade_Volume trade);
          committed := Add (committed (surplusOf (baseSurplus s) side)) newVolume |}.
Proof.
  intros side Hvol Hsubmit. unfold HandleFill. fold side. rewrite Hvol.
  assert (Hledger :
    surplusOf (baseSurplus (addCommitted (addTotal s side (trade_Volume trade))
                              side newVolume)) side
    = {| total := Add (total (surplusOf (baseSurplus s) side)) (trade_Volume trade);
         committed := Add (committed (surplusOf (baseSurplus s) side)) newVolume |}).
  { rewrite surplusOf_addCommitted, surplusOf_addTotal. reflexivity. }
  destruct Hsubmit as [[e He]|Hnil].
  - rewrite He. cbn [fst snd]. split; [eexists; reflexivity|exact Hledger].
  - rewrite Hnil. cbn [fst snd]. split; [eexists; reflexivity|exact Hledger].
Qed.

End FillHandler.

Lemma HandleFill_failure_keeps_commit_witness :
  let s := Scenario.strategy Scenario.echoSdex true 2%Q None None in
  let trade := Scenario.fill OrderActionBuy (Decimal.lit 5 0) (Decimal.lit 6 1) in
  let newVolume := Decimal.capPrecision (Decimal.lit 100000000 8) 8 in
  (exists e, fst (HandleFill s Scenario.rejecting trade) = Error e)
  /\ surplusOf (baseSurplus (snd (HandleFill s Scenario.rejecting trade))) OrderActionSell
     = {| total := Add Zero (Decimal.lit 6 1); committed := Add Zero newVolume |}.
Proof.
  intros s trade newVolume.
  apply (HandleFill_failure_keeps_commit s Scenario.rejecting trade newVolume).
  - vm_compute. reflexivity.
  - left. eexists. vm_compute. reflexivity.
Defined.

(** ** The ledger invariant *)

Section LedgerInvariant.

Context {N : NumberOps} {L : NumberLaws N} {B : Type}.

Lemma surplusOf_addTotal_other (s : mirrorStrategy B) (a a' : OrderAction) (v : Number) :
  a <> a' -> surplusOf (baseSurplus (addTotal s a v)) a' = surplusOf (baseSurplus s) a'.
Proof.
  intro H. unfold addTotal. cbn [baseSurplus withBaseSurplus].
  now apply surplusOf_setSurplus_other.
Qed.

Lemma surplusOf_addCommitted_other (s : mirrorStrategy B) (a a' : OrderAction) (v : Number) :
  a <> a' -> surplusOf (baseSurplus (addCommitted s a v)) a' = surplusOf (baseSurplus s) a'.
Proof.
  intro H. unfold addCommitted. cbn [baseSurplus withBaseSurplus].
  now apply surplusOf_setSurplus_other.
Qed.

Lemma surplusOf_settle_other (s : mirrorStrategy B) (a a' : OrderAction) (v : Number) :
  a <> a' -> surplusOf (baseSurplus (settle s a v)) a' = surplusOf (baseSurplus s) a'.
Proof.
  intro H. unfold settle. cbn [baseSurplus withBaseSurplus].
  now apply surplusOf_setSurplus_other.
Qed.

(** [HandleFill] leaves the constraints of the backing venue alone. *)
Lemma HandleFill_backingConstraints (s : mirrorStrategy B) (exchange : Exchange) (trade : Trade) :
  backingConstraints (snd (HandleFill s exchange trade)) = backingConstraints s.
Proof.
  unfold HandleFill.
  destruct (baseVolumeToOffset _ trade _) as [[v|] [|]]; try reflexivity.
  destruct (AddOrder exchange _) as [[tx|]|e]; reflexivity.
Qed.

(** [HandleFill] does not touch the side it does not hedge. *)
Lemma HandleFill_other_side (s : mirrorStrategy B) (exchange : Exchange) (trade : Trade)
  (side : OrderAction) :
  Reverse (trade_Action trade) <> side ->
  surplusOf (baseSurplus (snd (HandleFill s exchange trade))) side
  = surplusOf (baseSurplus s) side.
Proof.
  intro Hside. unfold HandleFill.
  destruct (baseVolumeToOffset _ trade _) as [[v|] [|]]; cbn [snd];
    try (now apply surplusOf_addTotal_other).
  destruct (AddOrder exchange _) as [[tx|]|e]; cbn [snd];
    rewrite ?surplusOf_settle_other, ?surplusOf_addCommitted_other by assumption;
    now apply surplusOf_addTotal_other.
Qed.

(** What [baseVolumeToOffset] can answer. *)
Lemma baseVolumeToOffset_inv (s : mirrorStrategy B) (trade : Trade) (side : OrderAction) :
  let u := Subtract (total (surplusOf (baseSurplus s) side))
                    (committed (surplusOf (baseSurplus s) side)) in
  let minBase := MinBaseVolume (backingConstraints s) in
  let capped n := NumberByCappingPrecision n (VolumePrecision (backingConstraints s)) in
  ((AsFloat u < AsFloat minBase / 2)%Q /\ baseVolumeToOffset s trade side = (None, false))
  \/ ((AsFloat minBase < AsFloat u)%Q
      /\ baseVolumeToOffset s trade side = (Some (capped u), true))
  \/ ((AsFloat minBase / 2 <= AsFloat u)%Q /\ (AsFloat u <= AsFloat minBase)%Q
      /\ baseVolumeToOffset s trade side = (Some (capped minBase), true)).
Proof.
  intros u minBase capped. unfold baseVolumeToOffset. fold u. fold minBase.
  destruct (fltb (AsFloat u) (AsFloat (Scale minBase (1 # 2)))) eqn:Ehalf.
  - left. split; [|reflexivity]. apply (fltb_half_minBase s u). exact Ehalf.
  - right. apply fltb_false_iff in Ehalf. unfold minBase in Ehalf.
    rewrite half_minBase in Ehalf. fold minBase in Ehalf.
    destruct (fltb (AsFloat minBase) (AsFloat u)) eqn:E.
    + left. apply fltb_true_iff in E. split; [assumption|reflexivity].
    + right. apply fltb_false_iff in E. repeat split; assumption.
Qed.

(** The ledger of the hedged side when [HandleFill] returns: the fill is
    added; a hedge volume is committed unless the call skips; and the hedge
    volume is taken off both fields when the order was accepted. *)
Lemma HandleFill_hedged_side (s : mirrorStrategy B) (exchange : Exchange) (trade : Trade) :
  let side := Reverse (trade_Action trade) in
  let t := Add (total (surplusOf (baseSurplus s) side)) (trade_Volume trade) in
  let c := committed (surplusOf (baseSurplus s) side) in
  let u := Subtract t c in
  let minBase := MinBaseVolume (backingConstraints s) in
  let capped n := NumberByCappingPrecision n (VolumePrecision (backingConstraints s)) in
  let after := surplusOf (baseSurplus (snd (HandleFill s exchange trade))) side in
  let hedged v :=
    (after = {| total := t; committed := Add c v |}
     /\ forall tx, AddOrder exchange (offsetOrder s trade v) <> Reply (Some tx))
    \/ (after = {| total := Subtract t v; committed := Subtract (Add c v) v |}
        /\ exists tx, AddOrder exchange (offsetOrder s trade v) = Reply (Some tx)) in
  ((AsFloat u < AsFloat minBase / 2)%Q /\ after = {| total := t; committed := c |})
  \/ ((AsFloat minBase < AsFloat u)%Q /\ hedged (capped u))
  \/ ((AsFloat minBase / 2 <= AsFloat u)%Q /\ (AsFloat u <= AsFloat minBase)%Q
      /\ hedged (capped minBase)).
Proof.
  intros side t c u minBase capped after hedged.
  pose proof (baseVolumeToOffset_inv (addTotal s side (trade_Volume trade)) trade side) as Hinv.
  cbv zeta in Hinv. rewrite surplusOf_addTotal in Hinv. cbn [total committed] in Hinv.
  change (backingConstraints (addTotal s side (trade_Volume trade)))
    with (backingConstraints s) in Hinv.
  fold t c in Hinv. fold u in Hinv. fold minBase in Hinv.
  assert (Hafter : after = surplusOf (baseSurplus (snd (HandleFill s exchange trade))) side)
    by reflexivity.
  unfold HandleFill in Hafter. fold side in Hafter.
  assert (Hout : forall v,
    surplusOf (baseSurplus
      (snd (match AddOrder exchange (offsetOrder s trade v) with
            | Reply (Some _) =>
                (Ok tt, settle (addCommitted (addTotal s side (trade_Volume trade)) side v)
                          side v)
            | Reply None =>
                (Error ErrOffsettingNilTransactionID,
                 addCommitted (addTotal s side (trade_Volume trade)) side v)
            | Failed e =>
                (Error (ErrOffsetting e),
                 addCommitted (addTotal s side (trade_Volume trade)) side v)
            end))) side = after -> hedged v).
  { intros v Hv. unfold hedged.
    destruct (AddOrder exchange (offsetOrder s trade v)) as [[tx|]|e]; cbn [snd] in Hv;
      rewrite ?surplusOf_settle, ?surplusOf_addCommitted, ?surplusOf_addTotal in Hv;
      cbn [total committed] in Hv; fold t c in Hv.
    - right. split; [symmetry; exact Hv|exists tx; reflexivity].
    - left. split; [symmetry; exact Hv|intros tx; discriminate].
    - left. split; [symmetry; exact Hv|intros tx; discriminate]. }
  destruct Hinv as [[Hu Ha]|[[Hu Ha]|(Hu1 & Hu2 & Ha)]]; rewrite Ha in Hafter.
  - left. split; [exact Hu|]. rewrite Hafter. cbn [snd]. apply surplusOf_addTotal.
  - right. left. split; [exact Hu|]. apply Hout. symmetry. exact Hafter.
  - right. right. repeat split; try assumption. apply Hout. symmetry. exact Hafter.
Qed.

Lemma OrderAction_eq_dec (a b : OrderAction) : a = b \/ a <> b.
Proof. destruct a, b; auto; right; discriminate. Qed.

(** One call keeps committed non-negative, whatever the fill and whatever
    the backing venue answers. *)
Lemma HandleFill_committed_nonneg (s : mirrorStrategy B) (exchange : Exchange) (trade : Trade) :
  (0 <= AsFloat (MinBaseVolume (backingConstraints s)))%Q ->
  (forall side, (0 <= AsFloat (committed (surplusOf (baseSurplus s) side)))%Q) ->
  forall side,
    (0 <= AsFloat (committed (surplusOf (baseSurplus (snd (HandleFill s exchange trade)))
                                side)))%Q.
Proof.
  intros Hmin Hc side.
  destruct (OrderAction_eq_dec (Reverse (trade_Action trade)) side) as [<-|Hne].
  - pose proof (Hc (Reverse (trade_Action trade))) as Hc0.
    pose proof (HandleFill_hedged_side s exchange trade) as H. cbv zeta in H.
    assert (Hhedged : forall (v : Number) (r : assetSurplus),
        r = {| total := Add (total (surplusOf (baseSurplus s) (Reverse (trade_Action trade))))
                          (trade_Volume trade);
               committed := Add (committed (surplusOf (baseSurplus s)
                                              (Reverse (trade_Action trade)))) v |}
        \/ r = {| total := Subtract (Add (total (surplusOf (baseSurplus s)
                                                  (Reverse (trade_Action trade))))
                                        (trade_Volume trade)) v;
                  committed := Subtract (Add (committed (surplusOf (baseSurplus s)
                                                (Reverse (trade_Action trade)))) v) v |} ->
        (0 <= AsFloat v)%Q ->
        (0 <= AsFloat (committed r))%Q).
    { intros v r [->| ->] Hv; cbn [committed].
      - rewrite AsFloat_Add. lra.
      - rewrite AsFloat_Subtract, AsFloat_Add. lra. }
    destruct H as [[_ ->]|[[Hu Hh]|(Hu1 & Hu2 & Hh)]].
    + exact Hc0.
    + destruct Hh as [[Hh _]|[Hh _]];
        (eapply Hhedged; [first [left; exact Hh|right; exact Hh]|]);
        apply cap_nonneg; lra.
    + destruct Hh as [[Hh _]|[Hh _]];
        (eapply Hhedged; [first [left; exact Hh|right; exact Hh]|]);
        apply cap_nonneg; exact Hmin.
  - rewrite HandleFill_other_side by assumption. apply Hc.
Qed.

Lemma handleFills_committed_nonneg (fills : list (Exchange * Trade)) :
  forall s : mirrorStrategy B,
    (0 <= AsFloat (MinBaseVolume (backingConstraints s)))%Q ->
    (forall side, (0 <= AsFloat (committed (surplusOf (baseSurplus s) side)))%Q) ->
    forall side,
      (0 <= AsFloat (committed (surplusOf (baseSurplus (handleFills s fills)) side)))%Q.
Proof.
  induction fills as [|[exchange trade] rest IH]; intros s Hmin Hc side.
  - apply Hc.
  - cbn [handleFills]. apply IH.
    + rewrite HandleFill_backingConstraints. exact Hmin.
    + apply HandleFill_committed_nonneg; assumption.
Qed.

(** C2, amended.  The backing venue's minimum base volume being
    non-negative: (a) along every trace of [HandleFill] calls committed stays
    non-negative on both sides; (b) a call with a non-negative fill volume
    that skips (u < minBase/2) or hedges the whole uncommitted surplus
    (u > minBase) keeps 0 <= committed <= total on both sides, whatever the
    backing venue answers; (c) a call that over-hedges
    (minBase/2 <= u <= minBase) and whose order is accepted restores
    committed and leaves total = total + fill - minBase (capped), a deficit
    when u < minBase (capped).  Here u = total + fill - committed. *)
Theorem surplus_ledger_amended (s : mirrorStrategy B) :
  let minBase := MinBaseVolume (backingConstraints s) in
  let capped n := NumberByCappingPrecision n (VolumePrecision (backingConstraints s)) in
  (0 <= AsFloat minBase)%Q ->
  (forall fills : list (Exchange * Trade),
     (forall side, (0 <= AsFloat (committed (surplusOf (baseSurplus s) side)))%Q) ->
     forall side,
       (0 <= AsFloat (committed (surplusOf (baseSurplus (handleFills s fills)) side)))%Q)
  /\ (forall (exchange : Exchange) (trade : Trade),
        let side := Reverse (trade_Action trade) in
        let u := (AsFloat (total (surplusOf (baseSurplus s) side))
                  + AsFloat (trade_Volume trade)
                  - AsFloat (committed (surplusOf (baseSurplus s) side)))%Q in
        (0 <= AsFloat (trade_Volume trade))%Q ->
        surplusInvariant s ->
        (u < AsFloat minBase / 2)%Q \/ (AsFloat minBase < u)%Q ->
        surplusInvariant (snd (HandleFill s exchange trade)))
  /\ (forall (exchange : Exchange) (trade : Trade),
        let side := Reverse (trade_Action trade) in
        let u := (AsFloat (total (surplusOf (baseSurplus s) side))
                  + AsFloat (trade_Volume trade)
                  - AsFloat (committed (surplusOf (baseSurplus s) side)))%Q in
        let after := surplusOf (baseSurplus (snd (HandleFill s exchange trade))) side in
        (AsFloat minBase / 2 <= u)%Q -> (u <= AsFloat minBase)%Q ->
        (exists tx, AddOrder exchange (offsetOrder s trade (capped minBase)) = Reply (Some tx)) ->
        (AsFloat (committed after)
         == AsFloat (committed (surplusOf (baseSurplus s) side)))%Q
        /\ (AsFloat (total after)
            == AsFloat (total (surplusOf (baseSurplus s) side))
               + AsFloat (trade_Volume trade) - AsFloat (capped minBase))%Q).
Proof.
  intros minBase capped Hmin. split; [|split].
  - intros fills Hc side. apply handleFills_committed_nonneg; assumption.
  - intros exchange trade side u Hfill Hinv Hbranch side'.
    destruct (OrderAction_eq_dec side side') as [<-|Hne];
      [|rewrite (HandleFill_other_side s exchange trade side' Hne); apply Hinv].
    destruct (Hinv side) as [Hc0 Hct].
    pose proof (HandleFill_hedged_side s exchange trade) as H. cbv zeta in H.
    fold side in H. fold minBase in H.
    assert (Hu : (AsFloat (Subtract (Add (total (surplusOf (baseSurplus s) side))
                                        (trade_Volume trade))
                                   (committed (surplusOf (baseSurplus s) side))) == u)%Q).
    { rewrite AsFloat_Subtract, AsFloat_Add. reflexivity. }
    rewrite Hu in H.
    destruct H as [[_ ->]|[[Hgt Hh]|(Hu1 & Hu2 & _)]].
    + cbn [total committed]. rewrite AsFloat_Add. split; lra.
    + assert (Hu0 : (0 <= AsFloat (Subtract (Add (total (surplusOf (baseSurplus s) side))
                                              (trade_Volume trade))
                                         (committed (surplusOf (baseSurplus s) side))))%Q)
        by (rewrite Hu; lra).
      pose proof (cap_nonneg _ (VolumePrecision (backingConstraints s)) Hu0) as Hv0.
      pose proof (cap_le _ (VolumePrecision (backingConstraints s)) Hu0) as Hv1.
      rewrite Hu in Hv1.
      destruct Hh as [[-> _]|[-> _]]; cbn [total committed];
        rewrite ?AsFloat_Subtract, ?AsFloat_Add; unfold u in *; split; lra.
    + exfalso. destruct Hbranch; lra.
  - intros exchange trade side u after Hu1 Hu2 [tx Htx].
    pose proof (HandleFill_hedged_side s exchange trade) as H. cbv zeta in H.
    fold side in H. fold minBase in H. fold after in H.
    assert (Hu : (AsFloat (Subtract (Add (total (surplusOf (baseSurplus s) side))
                                        (trade_Volume trade))
                                   (committed (surplusOf (baseSurplus s) side))) == u)%Q).
    { rewrite AsFloat_Subtract, AsFloat_Add. reflexivity. }
    rewrite Hu in H.
    assert (Hsettled :
      after = {| total := Subtract (Add (total (surplusOf (baseSurplus s) side))
                                       (trade_Volume trade)) (capped minBase);
                 committed := Subtract (Add (committed (surplusOf (baseSurplus s) side))
                                           (capped minBase)) (capped minBase) |} ->
      (AsFloat (committed after)
       == AsFloat (committed (surplusOf (baseSurplus s) side)))%Q
      /\ (AsFloat (total after)
          == AsFloat (total (surplusOf (baseSurplus s) side))
             + AsFloat (trade_Volume trade) - AsFloat (capped minBase))%Q).
    { intros ->. cbn [total committed]. rewrite !AsFloat_Subtract, !AsFloat_Add.
      split; ring. }
    destruct H as [[Hlt _]|[[Hgt Hh]|(_ & _ & Hh)]].
    + exfalso. lra.
    + assert (Heq : (u == AsFloat minBase)%Q \/ (u < AsFloat minBase)%Q)
        by (destruct (Qlt_le_dec u (AsFloat minBase)); [right; assumption|left; lra]).
      exfalso. destruct Heq; lra.
    + destruct Hh as [[_ Hno]|[Hs _]].
      * exfalso. apply (Hno tx). exact Htx.
      * apply Hsettled. exact Hs.
Qed.

End LedgerInvariant.

(** C2 as stated fails: the ledger starts at total = committed = 0, one
    fill of 0.6 arrives with minBase = 1, the backing venue accepts the
    hedge order of volume 1, and [HandleFill] returns with total = -0.4
    and committed = 0 on the hedged side. *)
Lemma surplusInvariant_broken_at_rest :
  ~ surplusInvariant
      (handleFills (Scenario.strategy Scenario.echoSdex true 2%Q None None)
         [(Scenario.accepting,
           Scenario.fill OrderActionBuy (Decimal.lit 5 0) (Decimal.lit 6 1))]).
Proof.
  intro H. destruct (H OrderActionSell) as [_ Hle].
  vm_compute in Hle. apply Hle. reflexivity.
Qed.

Lemma surplus_ledger_amended_witness :
  let s := Scenario.strategy Scenario.echoSdex true 2%Q None None in
  let small := Scenario.fill OrderActionBuy (Decimal.lit 5 0) (Decimal.lit 3 1) in
  let large := Scenario.fill OrderActionBuy (Decimal.lit 5 0) (Decimal.lit 6 1) in
  (0 <= AsFloat (MinBaseVolume (backingConstraints s)))%Q
  /\ surplusInvariant (snd (HandleFill s Scenario.rejecting small))
  /\ (AsFloat (total (surplusOf (baseSurplus (snd (HandleFill s Scenario.accepting large)))
                        OrderActionSell))
      == 0 + (3 # 5) - 1)%Q.
Proof.
  intros s small large.
  assert (Hmin : (0 <= AsFloat (MinBaseVolume (backingConstraints s)))%Q)
    by (vm_compute; discriminate).
  destruct (surplus_ledger_amended s Hmin) as (_ & Hkeep & Hover).
  split; [exact Hmin|split].
  - apply Hkeep.
    + vm_compute. discriminate.
    + intro side. destruct side; vm_compute; split; discriminate.
    + left. vm_compute. reflexivity.
  - refine (proj2 (Hover Scenario.accepting large _ _ _)).
    + vm_compute. discriminate.
    + vm_compute. discriminate.
    + exists "tx-1"%string. reflexivity.
Defined.

(** ** The mirror engine: one paired level *)

Section PairedLevel.

Context {N : NumberOps} {B : Type}.

Lemma mustNumber_some (str : string) (p : int8) (n : Number) (l : Liabilities) :
  MustNumberFromString str p = Some n -> mustNumber str p l = (Ok n, l).
Proof. intro H. unfold mustNumber. rewrite H. reflexivity. Qed.

(** C6.  With invertForBuyCheck set, [doModifyOffer] first remaps the old
    offer's volume to oldAmount * oldPrice and its price to 1/oldPrice.
    Whenever the (remapped) old price and old volume both equal the target
    within epsilon = 1e-4, it makes exactly one [AddLiabilities] call, for
    the retained offer, and returns (nil, nil): no operation for the level. *)
Theorem doModifyOffer_noop
  (s : mirrorStrategy B) (oldOffer : Offer) (newOrder : Order) (priceMultiplier : float64)
  (modifyOffer : modifyFn B) (invertForBuyCheck : bool) (l : Liabilities)
  (oldPrice0 oldAmount : Number) :
  MustNumberFromString (offer_Price oldOffer) (PricePrecision (primaryConstraints s))
    = Some oldPrice0 ->
  MustNumberFromString (Amount oldOffer) (VolumePrecision (primaryConstraints s))
    = Some oldAmount ->
  let oldVol := if invertForBuyCheck then Multiply oldAmount oldPrice0 else oldAmount in
  let oldPrice := if invertForBuyCheck then InvertNumber oldPrice0 else oldPrice0 in
  EqualsPrecisionNormalized oldPrice (Scale (Price newOrder) priceMultiplier)
    (1 # 10000)%Q = true ->
  EqualsPrecisionNormalized oldVol (Scale (Volume newOrder) (1 / volumeDivideBy s)%Q)
    (1 # 10000)%Q = true ->
  doModifyOffer s oldOffer newOrder priceMultiplier modifyOffer invertForBuyCheck l
  = (Ok (None, None), l ++ [liabilityOf s oldOffer invertForBuyCheck oldVol oldPrice]).
Proof.
  intros Hprice Hamount oldVol oldPrice Hp Hv.
  unfold doModifyOffer, bind.
  rewrite (mustNumber_some _ _ _ _ Hprice), (mustNumber_some _ _ _ _ Hamount).
  fold oldVol oldPrice. unfold epsilon. rewrite Hp, Hv. cbn [andb].
  unfold liabilityOf. destruct invertForBuyCheck; reflexivity.
Qed.

(** C8.  When the no-op check fails: with hedging enabled and the capped
    target volume below the backing minimum base volume, [doModifyOffer]
    returns a delete operation, no modify operation and no error, without
    consulting the modify function; and when the modify function is called
    and returns nil, it likewise returns a delete operation. *)
Theorem doModifyOffer_delete
  (s : mirrorStrategy B) (oldOffer : Offer) (newOrder : Order) (priceMultiplier : float64)
  (invertForBuyCheck : bool) (l : Liabilities) (oldPrice0 oldAmount : Number) :
  MustNumberFromString (offer_Price oldOffer) (PricePrecision (primaryConstraints s))
    = Some oldPrice0 ->
  MustNumberFromString (Amount oldOffer) (VolumePrecision (primaryConstraints s))
    = Some oldAmount ->
  let price := Scale (Price newOrder) priceMultiplier in
  let vol := Scale (Volume newOrder) (1 / volumeDivideBy s)%Q in
  let oldVol := if invertForBuyCheck then Multiply oldAmount oldPrice0 else oldAmount in
  let oldPrice := if invertForBuyCheck then InvertNumber oldPrice0 else oldPrice0 in
  let offerPrice := NumberByCappingPrecision price (PricePrecision (primaryConstraints s)) in
  let offerAmount := NumberByCappingPrecision vol (VolumePrecision (primaryConstraints s)) in
  let belowMinimum :=
    (AsFloat offerAmount < AsFloat (MinBaseVolume (backingConstraints s)))%Q in
  EqualsPrecisionNormalized oldPrice price (1 # 10000)%Q
  && EqualsPrecisionNormalized oldVol vol (1 # 10000)%Q = false ->
  (offsetTrades s = true -> belowMinimum ->
   forall modifyOffer : modifyFn B,
     doModifyOffer s oldOffer newOrder priceMultiplier modifyOffer invertForBuyCheck l
     = (Ok (None, Some (DeleteOp oldOffer)), l))
  /\ (forall modifyOffer : modifyFn B,
        offsetTrades s = false \/ ~ belowMinimum ->
        modifyOffer l oldOffer (AsFloat offerPrice) (AsFloat offerAmount)
          (ComputeIncrementalNativeAmountRaw (sdex s) false) = Reply None ->
        doModifyOffer s oldOffer newOrder priceMultiplier modifyOffer invertForBuyCheck l
        = (Ok (None, Some (DeleteOp oldOffer)), l)).
Proof.
  intros Hprice Hamount price vol oldVol oldPrice offerPrice offerAmount belowMinimum Hsame.
  split.
  - intros Hoff Hbelow modifyOffer. unfold doModifyOffer, bind.
    rewrite (mustNumber_some _ _ _ _ Hprice), (mustNumber_some _ _ _ _ Hamount).
    fold price vol oldVol oldPrice. unfold epsilon. rewrite Hsame.
    fold offerAmount. apply fltb_true_iff in Hbelow. rewrite Hoff, Hbelow. reflexivity.
  - intros modifyOffer Hguard Hnil. unfold doModifyOffer, bind.
    rewrite (mustNumber_some _ _ _ _ Hprice), (mustNumber_some _ _ _ _ Hamount).
    fold price vol oldVol oldPrice. unfold epsilon. rewrite Hsame.
    fold offerPrice offerAmount.
    assert (Hg : offsetTrades s
                 && fltb (AsFloat offerAmount) (AsFloat (MinBaseVolume (backingConstraints s)))
                 = false).
    { destruct Hguard as [->|Hn]; [reflexivity|].
      destruct (fltb (AsFloat offerAmount) _) eqn:E.
      - apply fltb_true_iff in E. contradiction.
      - apply andb_false_r. }
    rewrite Hg. unfold reading. rewrite Hnil. reflexivity.
Qed.

End PairedLevel.

Lemma doModifyOffer_noop_witness :
  let s := Scenario.strategy Scenario.echoSdex false 2%Q None None in
  let oldOffer := Scenario.offer 7 Scenario.usd Scenario.xlm "1" "2" in
  let newOrder := Scenario.level OrderActionBuy (Decimal.lit 5 1) (Decimal.lit 4 0) in
  doModifyOffer s oldOffer newOrder 1%Q Scenario.echoModify true []
  = (Ok (None, None),
     [liabilityOf s oldOffer true
        (Multiply (Decimal.lit 10000000 7) (Decimal.lit 20000000 7))
        (InvertNumber (Decimal.lit 20000000 7))]).
Proof.
  intros s oldOffer newOrder.
  apply (doModifyOffer_noop s oldOffer newOrder 1%Q Scenario.echoModify true []
           (Decimal.lit 20000000 7) (Decimal.lit 10000000 7)); vm_compute; reflexivity.
Defined.

Lemma doModifyOffer_delete_witness :
  let s := Scenario.strategy Scenario.echoSdex true 2%Q None None in
  let oldOffer := Scenario.offer 7 Scenario.usd Scenario.xlm "1" "2" in
  let newOrder := Scenario.level OrderActionBuy (Decimal.lit 5 1) (Decimal.lit 1 0) in
  doModifyOffer s oldOffer newOrder 1%Q Scenario.echoModify true []
  = (Ok (None, Some (DeleteOp oldOffer)), []).
Proof.
  intros s oldOffer newOrder.
  apply (proj1 (doModifyOffer_delete s oldOffer newOrder 1%Q true []
                  (Decimal.lit 20000000 7) (Decimal.lit 10000000 7)
                  ltac:(vm_compute; reflexivity) ltac:(vm_compute; reflexivity)
                  ltac:(vm_compute; reflexivity))).
  - reflexivity.
  - vm_compute. reflexivity.
Defined.

(** ** The mirror engine: the loops of [updateLevels] *)

Section Levels.

Context {N : NumberOps} {B : Type}.

Lemma withBc_same (st : levelState B) : withBc st (bc st) = st.
Proof. destruct st; reflexivity. Qed.

(** What [doModifyOffer] did when it hands back a modify operation: the
    modify function produced a builder and one [AddLiabilities] call was
    made, for the capped target volume and price. *)
Lemma doModifyOffer_modify_inv
  (s : mirrorStrategy B) (oldOffer : Offer) (newOrder : Order) (priceMultiplier : float64)
  (modifyOffer : modifyFn B) (hack : bool) (l l' : Liabilities)
  (modifyOp : TransactionMutator B) (deleteOp : option (TransactionMutator B)) :
  doModifyOffer s oldOffer newOrder priceMultiplier modifyOffer hack l
  = (Ok (Some modifyOp, deleteOp), l') ->
  let offerPrice := NumberByCappingPrecision (Scale (Price newOrder) priceMultiplier)
                      (PricePrecision (primaryConstraints s)) in
  let offerAmount := NumberByCappingPrecision
                       (Scale (Volume newOrder) (1 / volumeDivideBy s)%Q)
                       (VolumePrecision (primaryConstraints s)) in
  (exists mo, modifyOp = ModifyOp mo
              /\ modifyOffer l oldOffer (AsFloat offerPrice) (AsFloat offerAmount)
                   (ComputeIncrementalNativeAmountRaw (sdex s) false) = Reply (Some mo))
  /\ deleteOp = None
  /\ l' = l ++ [liabilityOf s oldOffer hack offerAmount offerPrice].
Proof.
  intros H offerPrice offerAmount.
  unfold doModifyOffer, bind, mustNumber, lift, ret, reading in H.
  destruct (MustNumberFromString (offer_Price oldOffer) _) as [oldPrice0|];
    [|discriminate H].
  destruct (MustNumberFromString (Amount oldOffer) _) as [oldVol0|];
    [|discriminate H].
  destruct (EqualsPrecisionNormalized _ _ _ && EqualsPrecisionNormalized _ _ _).
  - destruct hack; discriminate H.
  - fold offerPrice offerAmount in H.
    destruct (offsetTrades s && _); [discriminate H|].
    destruct (modifyOffer l oldOffer _ _ _) as [[mo|]|e] eqn:Emo; cbn [fromReply] in H;
      [|discriminate H|discriminate H].
    destruct hack; unfold AddLiabilities in H; inversion H; subst;
      (split; [exists mo; split; reflexivity|split; reflexivity]).
Qed.

(** What the create loop does for a new level that passes the checks: the
    create function is called with the scaled price and volume as they are. *)
Lemma createLevel_calls_create
  (s : mirrorStrategy B) (createOffer : createFn B) (priceMultiplier : float64) (hack : bool)
  (st : levelState B) (newOrder : Order) (l : Liabilities) (mo : B) :
  let price := Scale (Price newOrder) priceMultiplier in
  let vol := Scale (Volume newOrder) (1 / volumeDivideBy s)%Q in
  let native := ComputeIncrementalNativeAmountRaw (sdex s) true in
  fltb (AsFloat vol) (AsFloat (MinBaseVolume (backingConstraints s))) = false ->
  (offsetTrades s = true -> exists b', checkBalance (bc st) vol price = Ok (true, b')) ->
  createOffer l (baseAsset s) (quoteAsset s) (AsFloat price) (AsFloat vol) native
    = Reply (Some mo) ->
  exists st' l',
    createLevel s createOffer priceMultiplier hack st newOrder l = (Ok st', l')
    /\ ops st' = ops st ++ [CreateOp mo].
Proof.
  intros price vol native Hmin Hbal Hcreate. unfold createLevel.
  fold price vol native. rewrite Hmin.
  destruct (offsetTrades s).
  - destruct (Hbal eq_refl) as [b' Hb]. unfold bind at 1, lift. rewrite Hb.
    unfold bind, reading. rewrite Hcreate. cbn [fromReply].
    destruct hack; unfold AddLiabilities, ret; eexists; eexists; split; reflexivity.
  - unfold bind, reading. rewrite Hcreate. cbn [fromReply].
    destruct hack; unfold AddLiabilities, ret; eexists; eexists; split; reflexivity.
Qed.

(** C9.  At a paired level where [doModifyOffer] hands back a modify
    operation while hedging is enabled and the balance coordinator rejects
    (newOrder.volume, newOrder.price), the loop body appends nothing: the
    modify operation is dropped (a single such level yields an empty batch).
    Yet [doModifyOffer] has already made exactly one [AddLiabilities] call
    for that level, so the liabilities record an update that is not
    emitted. *)
Theorem rejected_modify_keeps_liability
  (s : mirrorStrategy B) (oldOffer : Offer) (newOrder : Order) (priceMultiplier : float64)
  (modifyOffer : modifyFn B) (createOffer : createFn B) (hack : bool)
  (st : levelState B) (l l' : Liabilities)
  (modifyOp : TransactionMutator B) (deleteOp : option (TransactionMutator B)) :
  doModifyOffer s oldOffer newOrder priceMultiplier modifyOffer hack l
  = (Ok (Some modifyOp, deleteOp), l') ->
  offsetTrades s = true ->
  checkBalance (bc st) (Volume newOrder) (Price newOrder) = Ok (false, bc st) ->
  let offerPrice := NumberByCappingPrecision (Scale (Price newOrder) priceMultiplier)
                      (PricePrecision (primaryConstraints s)) in
  let offerAmount := NumberByCappingPrecision
                       (Scale (Volume newOrder) (1 / volumeDivideBy s)%Q)
                       (VolumePrecision (primaryConstraints s)) in
  modifyLevel s modifyOffer priceMultiplier hack st oldOffer newOrder l = (Ok st, l')
  /\ l' = l ++ [liabilityOf s oldOffer hack offerAmount offerPrice]
  /\ (ops st = [] -> deleteOps st = [] ->
      updateLevels s [oldOffer] [newOrder] modifyOffer createOffer priceMultiplier hack
        (bc st) l
      = (Ok [], l')).
Proof.
  intros Hmod Hoff Hrej offerPrice offerAmount.
  destruct (doModifyOffer_modify_inv _ _ _ _ _ _ _ _ _ _ Hmod) as (_ & _ & Hl).
  assert (Hstep : modifyLevel s modifyOffer priceMultiplier hack st oldOffer newOrder l
                  = (Ok st, l')).
  { unfold modifyLevel, bind. rewrite Hmod, Hoff. unfold lift. rewrite Hrej.
    unfold ret. rewrite withBc_same. reflexivity. }
  split; [exact Hstep|split; [exact Hl|]].
  intros Hops Hdel. destruct st as [ops0 dels0 bc0]. cbn in Hops, Hdel. subst ops0 dels0.
  cbn [bc] in Hstep. unfold updateLevels.
  cbn [List.length Nat.leb combine modifyLevels createLevels skipn bc].
  unfold bind. rewrite Hstep. reflexivity.
Qed.

End Levels.

Lemma rejected_modify_keeps_liability_witness :
  let s := Scenario.strategy Scenario.echoSdex true 2%Q None None in
  let oldOffer := Scenario.offer 7 Scenario.usd Scenario.xlm "1" "3" in
  let newOrder := Scenario.level OrderActionBuy (Decimal.lit 5 1) (Decimal.lit 4 0) in
  let lowBalance := {| placedUnits := Zero; backingBalance := Some (Decimal.lit 5 1);
                       backingAssetType := "base"; isBackingBuy := false |} in
  updateLevels s [oldOffer] [newOrder] Scenario.echoModify Scenario.echoCreate 1%Q true
    lowBalance []
  = (Ok [],
     [liabilityOf s oldOffer true
        (NumberByCappingPrecision (Scale (Decimal.lit 4 0) (1 / 2)%Q) 7)
        (NumberByCappingPrecision (Scale (Decimal.lit 5 1) 1%Q) 7)]).
Proof.
  intros s oldOffer newOrder lowBalance.
  assert (Hmod :
    doModifyOffer s oldOffer newOrder 1%Q Scenario.echoModify true []
    = (Ok (Some (ModifyOp {| Scenario.b_price := (1 # 2)%Q; Scenario.b_amount := 2%Q |}),
           None),
       [liabilityOf s oldOffer true
          (NumberByCappingPrecision (Scale (Decimal.lit 4 0) (1 / 2)%Q) 7)
          (NumberByCappingPrecision (Scale (Decimal.lit 5 1) 1%Q) 7)]))
    by (vm_compute; reflexivity).
  assert (Hrej :
    checkBalance lowBalance (Volume newOrder) (Price newOrder) = Ok (false, lowBalance))
    by (vm_compute; reflexivity).
  destruct (rejected_modify_keeps_liability s oldOffer newOrder 1%Q
              Scenario.echoModify Scenario.echoCreate true
              {| ops := []; deleteOps := []; bc := lowBalance |} [] _ _ _
              Hmod eq_refl Hrej) as (_ & _ & Hbatch).
  exact (Hbatch eq_refl eq_refl).
Defined.

(** ** The order of the emitted batch *)

Section Ordering.

Context {N : NumberOps} {B : Type}.

Lemma bind_ok_inv {A C : Type} (m : M A) (f : A -> M C) (l l' : Liabilities) (c : C) :
  bind m f l = (Ok c, l') ->
  exists a l1, m l = (Ok a, l1) /\ f a l1 = (Ok c, l').
Proof.
  unfold bind. destruct (m l) as [[a|e|p] l1]; intro H; try discriminate.
  exists a, l1. split; [reflexivity|exact H].
Qed.

Lemma ret_ok_inv {A : Type} (a a' : A) (l l' : Liabilities) :
  ret a l = (Ok a', l') -> a = a' /\ l = l'.
Proof. unfold ret. intro H. inversion H. split; reflexivity. Qed.

(** The operations [doModifyOffer] can hand back: a modify operation built
    by the modify function, and a delete operation for the old offer. *)
Lemma doModifyOffer_shape
  (s : mirrorStrategy B) (oldOffer : Offer) (newOrder : Order) (priceMultiplier : float64)
  (modifyOffer : modifyFn B) (hack : bool) (l l' : Liabilities)
  (modifyOp deleteOp : option (TransactionMutator B)) :
  doModifyOffer s oldOffer newOrder priceMultiplier modifyOffer hack l
  = (Ok (modifyOp, deleteOp), l') ->
  (modifyOp = None /\ deleteOp = None)
  \/ (modifyOp = None /\ deleteOp = Some (DeleteOp oldOffer))
  \/ (exists mo, modifyOp = Some (ModifyOp mo) /\ deleteOp = None).
Proof.
  intro H.
  unfold doModifyOffer, bind, mustNumber, lift, ret, reading in H.
  destruct (MustNumberFromString (offer_Price oldOffer) _) as [oldPrice0|];
    [|discriminate H].
  destruct (MustNumberFromString (Amount oldOffer) _) as [oldVol0|];
    [|discriminate H].
  destruct (EqualsPrecisionNormalized _ _ _ && EqualsPrecisionNormalized _ _ _).
  - left. destruct hack; unfold AddLiabilities in H; inversion H; split; reflexivity.
  - destruct (offsetTrades s && _).
    + right. left. inversion H. split; reflexivity.
    + destruct (modifyOffer l oldOffer _ _ _) as [[mo|]|e]; cbn [fromReply] in H.
      * right. right. exists mo.
        destruct hack; unfold AddLiabilities in H; inversion H; split; reflexivity.
      * right. left. inversion H. split; reflexivity.
      * discriminate H.
Qed.

Lemma sorted_withBc (st : levelState B) (b : balanceCoordinator) :
  sorted st -> sorted (withBc st b).
Proof. intro H. exact H. Qed.

Lemma sorted_appendOp (st : levelState B) (op : TransactionMutator B) :
  isDelete op = false -> sorted st -> sorted (appendOp st op).
Proof.
  intros Hop [Hd Ho]. split; [exact Hd|].
  cbn [appendOp ops]. apply Forall_app. split; [exact Ho|].
  constructor; [exact Hop|constructor].
Qed.

Lemma sorted_appendDeleteOp (st : levelState B) (op : TransactionMutator B) :
  isDelete op = true -> sorted st -> sorted (appendDeleteOp st op).
Proof.
  intros Hop [Hd Ho]. split; [|exact Ho].
  cbn [appendDeleteOp deleteOps]. apply Forall_app. split; [exact Hd|].
  constructor; [exact Hop|constructor].
Qed.

Lemma sorted_queueDelete (st : levelState B) (oldOffer : Offer)
  (deleteOp : option (TransactionMutator B)) :
  deleteOp = None \/ deleteOp = Some (DeleteOp oldOffer) ->
  sorted st -> sorted (queueDelete st deleteOp).
Proof.
  intros [->| ->] H; [exact H|].
  cbn [queueDelete]. apply sorted_appendDeleteOp; [reflexivity|exact H].
Qed.

Lemma modifyLevel_sorted
  (s : mirrorStrategy B) (modifyOffer : modifyFn B) (priceMultiplier : float64) (hack : bool)
  (st st' : levelState B) (oldOffer : Offer) (newOrder : Order) (l l' : Liabilities) :
  sorted st ->
  modifyLevel s modifyOffer priceMultiplier hack st oldOffer newOrder l = (Ok st', l') ->
  sorted st'.
Proof.
  intros Hst H. unfold modifyLevel in H.
  apply bind_ok_inv in H. destruct H as ([modifyOp deleteOp] & l1 & Hdo & H).
  apply doModifyOffer_shape in Hdo.
  destruct Hdo as [[-> ->]|[[-> ->]|(mo & -> & ->)]].
  - apply ret_ok_inv in H. destruct H as [<- _]. exact Hst.
  - apply ret_ok_inv in H. destruct H as [<- _].
    apply (sorted_queueDelete st oldOffer); [right; reflexivity|exact Hst].
  - destruct (offsetTrades s).
    + apply bind_ok_inv in H. destruct H as ([[|] b'] & l2 & _ & H);
        apply ret_ok_inv in H; destruct H as [<- _].
      * cbn [queueDelete]. apply sorted_appendOp; [reflexivity|].
        apply sorted_withBc. exact Hst.
      * apply sorted_withBc. exact Hst.
    + apply ret_ok_inv in H. destruct H as [<- _].
      cbn [queueDelete]. apply sorted_appendOp; [reflexivity|exact Hst].
Qed.

Lemma modifyLevels_sorted
  (s : mirrorStrategy B) (modifyOffer : modifyFn B) (priceMultiplier : float64) (hack : bool)
  (levels : list (Offer * Order)) :
  forall (st st' : levelState B) (l l' : Liabilities),
    sorted st ->
    modifyLevels s modifyOffer priceMultiplier hack st levels l = (Ok st', l') ->
    sorted st'.
Proof.
  induction levels as [|[oldOffer newOrder] rest IH]; intros st st' l l' Hst H.
  - apply ret_ok_inv in H. destruct H as [<- _]. exact Hst.
  - cbn [modifyLevels] in H. apply bind_ok_inv in H.
    destruct H as (st1 & l1 & Hstep & H).
    apply (IH st1 st' l1 l'); [|exact H].
    apply (modifyLevel_sorted _ _ _ _ _ _ _ _ _ _ Hst Hstep).
Qed.

Lemma createLevel_sorted
  (s : mirrorStrategy B) (createOffer : createFn B) (priceMultiplier : float64) (hack : bool)
  (st st' : levelState B) (newOrder : Order) (l l' : Liabilities) :
  sorted st ->
  createLevel s createOffer priceMultiplier hack st newOrder l = (Ok st', l') ->
  sorted st'.
Proof.
  intros Hst H. unfold createLevel in H.
  destruct (fltb _ _).
  { apply ret_ok_inv in H. destruct H as [<- _]. exact Hst. }
  assert (Hcreate : forall (st0 : levelState B) (l0 : Liabilities),
    sorted st0 ->
    bind (reading (fun l1 => createOffer l1 (baseAsset s) (quoteAsset s)
                     (AsFloat (Scale (Price newOrder) priceMultiplier))
                     (AsFloat (Scale (Volume newOrder) (1 / volumeDivideBy s)%Q))
                     (ComputeIncrementalNativeAmountRaw (sdex s) true)))
      (fun mo => match mo with
                 | Some mo =>
                     bind (if hack
                           then AddLiabilities (quoteAsset s) (baseAsset s)
                                  (AsFloat (Multiply
                                     (Scale (Volume newOrder) (1 / volumeDivideBy s)%Q)
                                     (Scale (Price newOrder) priceMultiplier)))
                                  (AsFloat (Scale (Volume newOrder) (1 / volumeDivideBy s)%Q))
                                  (ComputeIncrementalNativeAmountRaw (sdex s) true)
                           else AddLiabilities (baseAsset s) (quoteAsset s)
                                  (AsFloat (Scale (Volume newOrder) (1 / volumeDivideBy s)%Q))
                                  (AsFloat (Multiply
                                     (Scale (Volume newOrder) (1 / volumeDivideBy s)%Q)
                                     (Scale (Price newOrder) priceMultiplier)))
                                  (ComputeIncrementalNativeAmountRaw (sdex s) true))
                       (fun _ => ret (appendOp st0 (CreateOp mo)))
                 | None => ret st0
                 end) l0 = (Ok st', l') ->
    sorted st').
  { intros st0 l0 Hst0 Hc. apply bind_ok_inv in Hc. destruct Hc as ([mo|] & l1 & _ & Hc).
    - apply bind_ok_inv in Hc. destruct Hc as (_ & l2 & _ & Hc).
      apply ret_ok_inv in Hc. destruct Hc as [<- _].
      apply sorted_appendOp; [reflexivity|exact Hst0].
    - apply ret_ok_inv in Hc. destruct Hc as [<- _]. exact Hst0. }
  destruct (offsetTrades s).
  - apply bind_ok_inv in H. destruct H as ([[|] b'] & l2 & _ & H).
    + apply (Hcreate _ _ (sorted_withBc st b' Hst) H).
    + apply ret_ok_inv in H. destruct H as [<- _]. apply sorted_withBc. exact Hst.
  - apply (Hcreate _ _ Hst H).
Qed.

Lemma createLevels_sorted
  (s : mirrorStrategy B) (createOffer : createFn B) (priceMultiplier : float64) (hack : bool)
  (newOrders : list Order) :
  forall (st st' : levelState B) (l l' : Liabilities),
    sorted st ->
    createLevels s createOffer priceMultiplier hack st newOrders l = (Ok st', l') ->
    sorted st'.
Proof.
  induction newOrders as [|newOrder rest IH]; intros st st' l l' Hst H.
  - apply ret_ok_inv in H. destruct H as [<- _]. exact Hst.
  - cbn [createLevels] in H. apply bind_ok_inv in H.
    destruct H as (st1 & l1 & Hstep & H).
    apply (IH st1 st' l1 l'); [|exact H].
    apply (createLevel_sorted _ _ _ _ _ _ _ _ _ Hst Hstep).
Qed.

(** Every batch of [updateLevels] has its deletes first. *)
Lemma updateLevels_deletesFirst
  (s : mirrorStrategy B) (oldOffers : list Offer) (newOrders : list Order)
  (modifyOffer : modifyFn B) (createOffer : createFn B) (priceMultiplier : float64)
  (hack : bool) (bc0 : balanceCoordinator) (l l' : Liabilities)
  (batch : list (TransactionMutator B)) :
  updateLevels s oldOffers newOrders modifyOffer createOffer priceMultiplier hack bc0 l
  = (Ok batch, l') ->
  deletesFirst batch.
Proof.
  intro H. unfold updateLevels in H.
  apply bind_ok_inv in H. destruct H as (st & l1 & Hloops & H).
  apply ret_ok_inv in H. destruct H as [<- _].
  assert (Hst : sorted st).
  { assert (H0 : sorted (ManageOfferBuilder := B)
                   {| ops := []; deleteOps := []; bc := bc0 |})
      by (split; constructor).
    destruct (_ <=? _)%nat.
    - apply bind_ok_inv in Hloops. destruct Hloops as (st1 & l2 & Hmod & Hcreate).
      apply (createLevels_sorted _ _ _ _ _ _ _ _ _
               (modifyLevels_sorted _ _ _ _ _ _ _ _ _ H0 Hmod) Hcreate).
    - apply bind_ok_inv in Hloops. destruct Hloops as (st1 & l2 & Hmod & Hret).
      apply ret_ok_inv in Hret. destruct Hret as [<- _].
      destruct (modifyLevels_sorted _ _ _ _ _ _ _ _ _ H0 Hmod) as [Hd Ho].
      split; [|exact Ho]. cbn [deleteOps]. apply Forall_app. split; [exact Hd|].
      apply Forall_forall. intros op Hin. apply in_map_iff in Hin.
      destruct Hin as (o & <- & _). reflexivity. }
  exists (deleteOps st), (ops st). destruct Hst as [Hd Ho]. repeat split; assumption.
Qed.

End Ordering.

Section Batch.

Context {N : NumberOps} {B : Type}.

Variable PriceAsFloat : string -> float64.

(** The test in the code is the crossed condition. *)
Lemma sellOpsFirst_crossed (ob : OrderBook) (sellingAOffers : list Offer) :
  sellOpsFirst PriceAsFloat ob sellingAOffers = true <-> crossed PriceAsFloat ob sellingAOffers.
Proof.
  unfold sellOpsFirst, crossed. split.
  - destruct (Bids ob) as [|topBid bids]; [discriminate|].
    destruct sellingAOffers as [|topAsk asks]; [discriminate|].
    intro H. apply negb_true_iff, fltb_false_iff in H.
    exists topBid, bids, topAsk, asks. repeat split. exact H.
  - intros (topBid & bids & topAsk & asks & -> & -> & H).
    apply negb_true_iff, fltb_false_iff. exact H.
Qed.

(** C4.  A batch returned by [UpdateWithOps] is the bid-side operations
    followed by the ask-side operations, unless the backing book has a bid,
    there is an existing primary ask and the top backing bid price is at
    least the top primary ask price, in which case the ask-side operations
    come first; and within each side every delete operation precedes every
    modify or create operation. *)
Theorem UpdateWithOps_order
  (s : mirrorStrategy B) (exchange : Exchange) (buyingAOffers sellingAOffers : list Offer)
  (l l' : Liabilities) (batch : list (TransactionMutator B)) :
  UpdateWithOps PriceAsFloat s exchange buyingAOffers sellingAOffers l = (Ok batch, l') ->
  exists (ob : OrderBook) (buyOps sellOps : list (TransactionMutator B)) (l1 : Liabilities),
    GetOrderBook exchange (backingPair s) (orderbookDepth s) = Reply ob
    /\ updateLevels s buyingAOffers (firstn 50 (Bids ob))
         (ModifyBuyOffer (sdex s)) (CreateBuyOffer (sdex s)) (1 - perLevelSpread s)%Q true
         {| placedUnits := Zero; backingBalance := maxBackingBase s;
            backingAssetType := "base"; isBackingBuy := false |} l
       = (Ok buyOps, l1)
    /\ updateLevels s sellingAOffers (firstn 50 (Asks ob))
         (ModifySellOffer (sdex s)) (CreateSellOffer (sdex s)) (1 + perLevelSpread s)%Q false
         {| placedUnits := Zero; backingBalance := maxBackingQuote s;
            backingAssetType := "quote"; isBackingBuy := true |} l1
       = (Ok sellOps, l')
    /\ deletesFirst buyOps
    /\ deletesFirst sellOps
    /\ (crossed PriceAsFloat ob sellingAOffers -> batch = sellOps ++ buyOps)
    /\ (~ crossed PriceAsFloat ob sellingAOffers -> batch = buyOps ++ sellOps).
Proof.
  intro H. unfold UpdateWithOps in H.
  apply bind_ok_inv in H. destruct H as (ob & l0 & Hob & H).
  unfold lift in Hob.
  destruct (GetOrderBook exchange _ _) as [ob'|e] eqn:Ebook; [|discriminate Hob].
  cbn [fromReply] in Hob. inversion Hob. subst ob' l0. clear Hob.
  apply bind_ok_inv in H. destruct H as (buyOps & l1 & Hbuy & H).
  apply bind_ok_inv in H. destruct H as (sellOps & l2 & Hsell & H).
  exists ob, buyOps, sellOps, l1.
  pose proof (sellOpsFirst_crossed ob sellingAOffers) as Hcross.
  destruct (sellOpsFirst PriceAsFloat ob sellingAOffers);
    apply ret_ok_inv in H; destruct H as [<- <-].
  - repeat split; try assumption.
    + apply (updateLevels_deletesFirst _ _ _ _ _ _ _ _ _ _ _ Hbuy).
    + apply (updateLevels_deletesFirst _ _ _ _ _ _ _ _ _ _ _ Hsell).
    + intro Hn. exfalso. apply Hn, Hcross. reflexivity.
  - repeat split; try assumption.
    + apply (updateLevels_deletesFirst _ _ _ _ _ _ _ _ _ _ _ Hbuy).
    + apply (updateLevels_deletesFirst _ _ _ _ _ _ _ _ _ _ _ Hsell).
    + intro Hc. apply Hcross in Hc. discriminate Hc.
Qed.

End Batch.

Lemma UpdateWithOps_order_witness :
  let s := Scenario.strategy Scenario.echoSdex false 2%Q None None in
  let exchange := Scenario.exchangeWith Scenario.crossedBook (Reply None) in
  let bids := [Scenario.offer 1 Scenario.usd Scenario.xlm "1" "3";
               Scenario.offer 3 Scenario.usd Scenario.xlm "1" "3"] in
  let asks := [Scenario.offer 2 Scenario.xlm Scenario.usd "1.5" "150";
               Scenario.offer 5 Scenario.xlm Scenario.usd "1.5" "150"] in
  exists buyOps sellOps : list (TransactionMutator Scenario.builder),
    fst (UpdateWithOps Scenario.priceAsFloat s exchange bids asks []) = Ok (sellOps ++ buyOps)
    /\ deletesFirst buyOps /\ deletesFirst sellOps.
Proof.
  intros s exchange bids asks.
  assert (E : exists batch l',
             UpdateWithOps Scenario.priceAsFloat s exchange bids asks [] = (Ok batch, l'))
    by (eexists; eexists; vm_compute; reflexivity).
  destruct E as (batch & l' & E).
  destruct (UpdateWithOps_order Scenario.priceAsFloat s exchange bids asks [] l' batch E)
    as (ob & buyOps & sellOps & l1 & Hob & _ & _ & Hbuy & Hsell & Hcrossed & _).
  exists buyOps, sellOps. rewrite E. cbn [fst].
  split; [|split; assumption].
  f_equal. apply Hcrossed.
  cbn in Hob. inversion Hob. subst ob.
  exists (Scenario.level OrderActionBuy (Decimal.lit 200 0) (Decimal.lit 2 0)), [],
    (Scenario.offer 2 Scenario.xlm Scenario.usd "1.5" "150"),
    [Scenario.offer 5 Scenario.xlm Scenario.usd "1.5" "150"].
  repeat split. vm_compute. discriminate.
Defined.

(** C5 fails on the create path: the create function receives the scaled
    price as it is.  With a backing level priced 1.23456789 (8 decimals) of
    volume 2, which passes the minimum-volume and the balance checks, a
    primary price precision of 7 and multiplier 1, it is called with
    1.23456789, while the value capped to the primary precision is
    1.2345678. *)
Theorem create_price_not_capped :
  let s := Scenario.strategy Scenario.echoSdex true 1%Q
             (Some (Decimal.lit 1000 0)) (Some (Decimal.lit 1000 0)) in
  let coordinator := {| placedUnits := Zero; backingBalance := maxBackingBase s;
                        backingAssetType := "base"; isBackingBuy := false |} in
  let capped := NumberByCappingPrecision (Scale (Price Scenario.fineLevel) 1%Q)
                  (PricePrecision (primaryConstraints s)) in
  fst (updateLevels s [] [Scenario.fineLevel] Scenario.echoModify Scenario.echoCreate
         1%Q true coordinator [])
  = Ok [CreateOp {| Scenario.b_price := (123456789 # 100000000)%Q;
                    Scenario.b_amount := 2%Q |}]
  /\ (AsFloat capped == 12345678 # 10000000)%Q
  /\ ~ (123456789 # 100000000 == AsFloat capped)%Q.
Proof.
  intros s coordinator capped. split; [|split].
  - vm_compute. reflexivity.
  - vm_compute. reflexivity.
  - vm_compute. discriminate.
Qed.

(** ** Updating without a balance snapshot *)

Section NoSnapshot.

Context {N : NumberOps} {B : Type}.

Lemma noNilDereference_bind {A C : Type} (m : M A) (f : A -> M C) (l : Liabilities) :
  noNilDereference (m l) ->
  (forall a l1, m l = (Ok a, l1) -> noNilDereference (f a l1)) ->
  noNilDereference (bind m f l).
Proof.
  unfold noNilDereference, bind. intros Hm Hf.
  destruct (m l) as [[a|e|p] l1]; cbn [fst] in *.
  - apply (Hf a l1 eq_refl).
  - discriminate.
  - intro H. apply Hm. inversion H. reflexivity.
Qed.

Lemma noNilDereference_ret {A : Type} (a : A) (l : Liabilities) :
  noNilDereference (ret a l).
Proof. unfold noNilDereference, ret. cbn. discriminate. Qed.

Lemma noNilDereference_reading {A : Type} (f : Liabilities -> reply A) (l : Liabilities) :
  noNilDereference (reading f l).
Proof. unfold noNilDereference, reading. cbn. destruct (f l); discriminate. Qed.

Lemma noNilDereference_AddLiabilities (x y : hAsset) (a b c : float64) (l : Liabilities) :
  noNilDereference (AddLiabilities x y a b c l).
Proof. unfold noNilDereference, AddLiabilities. cbn. discriminate. Qed.

Lemma noNilDereference_mustNumber (str : string) (p : int8) (l : Liabilities) :
  noNilDereference (mustNumber str p l).
Proof.
  unfold noNilDereference, mustNumber, ret, lift.
  destruct (MustNumberFromString str p); cbn; discriminate.
Qed.

(** [doModifyOffer] dereferences no balance. *)
Lemma doModifyOffer_noNilDereference
  (s : mirrorStrategy B) (oldOffer : Offer) (newOrder : Order) (priceMultiplier : float64)
  (modifyOffer : modifyFn B) (hack : bool) (l : Liabilities) :
  noNilDereference (doModifyOffer s oldOffer newOrder priceMultiplier modifyOffer hack l).
Proof.
  unfold doModifyOffer.
  apply noNilDereference_bind; [apply noNilDereference_mustNumber|intros oldPrice0 l1 _].
  apply noNilDereference_bind; [apply noNilDereference_mustNumber|intros oldVol0 l2 _].
  destruct (_ && _).
  - apply noNilDereference_bind;
      [destruct hack; apply noNilDereference_AddLiabilities|intros; apply noNilDereference_ret].
  - destruct (_ && _); [apply noNilDereference_ret|].
    apply noNilDereference_bind; [apply noNilDereference_reading|intros [mo|] l3 _].
    + apply noNilDereference_bind;
        [destruct hack; apply noNilDereference_AddLiabilities
        |intros; apply noNilDereference_ret].
    + apply noNilDereference_ret.
Qed.

Section Unhedged.

Variable s : mirrorStrategy B.
Hypothesis unhedged : offsetTrades s = false.

Lemma collected_appendOp (st1 st2 : levelState B) (op : TransactionMutator B) :
  collected st1 = collected st2 -> collected (appendOp st1 op) = collected (appendOp st2 op).
Proof. destruct st1, st2. unfold collected. cbn. intro H. inversion H. reflexivity. Qed.

Lemma collected_queueDelete (st1 st2 : levelState B) (d : option (TransactionMutator B)) :
  collected st1 = collected st2 -> collected (queueDelete st1 d) = collected (queueDelete st2 d).
Proof.
  destruct st1, st2, d; unfold collected; cbn; intro H; inversion H; reflexivity.
Qed.

(** Without hedging the loop bodies neither read nor write the coordinator. *)
Lemma modifyLevel_unhedged (modifyOffer : modifyFn B) (priceMultiplier : float64) (hack : bool)
  (st1 st2 : levelState B) (oldOffer : Offer) (newOrder : Order) (l : Liabilities) :
  collected st1 = collected st2 ->
  mapResult collected (modifyLevel s modifyOffer priceMultiplier hack st1 oldOffer newOrder l)
  = mapResult collected (modifyLevel s modifyOffer priceMultiplier hack st2 oldOffer newOrder l)
  /\ noNilDereference (modifyLevel s modifyOffer priceMultiplier hack st1 oldOffer newOrder l).
Proof.
  intro Hst. unfold modifyLevel. split.
  - unfold bind.
    destruct (doModifyOffer s oldOffer newOrder priceMultiplier modifyOffer hack l)
      as [[[[modifyOp|] deleteOp]|e|p] l1]; try reflexivity; rewrite ?unhedged;
      unfold ret, mapResult; f_equal; f_equal;
      auto using collected_queueDelete, collected_appendOp.
  - apply noNilDereference_bind; [apply doModifyOffer_noNilDereference|].
    intros [[modifyOp|] deleteOp] l1 _; rewrite ?unhedged; apply noNilDereference_ret.
Qed.

Lemma createLevel_unhedged (createOffer : createFn B) (priceMultiplier : float64) (hack : bool)
  (st1 st2 : levelState B) (newOrder : Order) (l : Liabilities) :
  collected st1 = collected st2 ->
  mapResult collected (createLevel s createOffer priceMultiplier hack st1 newOrder l)
  = mapResult collected (createLevel s createOffer priceMultiplier hack st2 newOrder l)
  /\ noNilDereference (createLevel s createOffer priceMultiplier hack st1 newOrder l).
Proof.
  intro Hst. unfold createLevel. rewrite unhedged.
  destruct (fltb _ _).
  { split; [unfold ret, mapResult; f_equal; f_equal; exact Hst|apply noNilDereference_ret]. }
  split.
  - unfold bind, reading.
    destruct (createOffer l _ _ _ _ _) as [[mo|]|e]; cbn [fromReply]; try reflexivity.
    + destruct hack; unfold AddLiabilities, ret, mapResult; f_equal; f_equal;
        apply collected_appendOp; exact Hst.
    + unfold ret, mapResult. f_equal. f_equal. exact Hst.
  - apply noNilDereference_bind; [apply noNilDereference_reading|intros [mo|] l1 _].
    + apply noNilDereference_bind;
        [destruct hack; apply noNilDereference_AddLiabilities
        |intros; apply noNilDereference_ret].
    + apply noNilDereference_ret.
Qed.

(** Two computations that agree up to the coordinator still agree after
    continuations that do. *)
Lemma bind_collected {C D : Type} (g : C -> D) (m1 m2 : M (levelState B))
  (f1 f2 : levelState B -> M C) (l : Liabilities) :
  mapResult collected (m1 l) = mapResult collected (m2 l) ->
  (forall st1 st2 l1, collected st1 = collected st2 ->
     mapResult g (f1 st1 l1) = mapResult g (f2 st2 l1)) ->
  mapResult g (bind m1 f1 l) = mapResult g (bind m2 f2 l).
Proof.
  intros Hm Hf. unfold bind.
  destruct (m1 l) as [[a1|e1|p1] l1], (m2 l) as [[a2|e2|p2] l2];
    cbn [mapResult] in Hm; try discriminate Hm.
  - assert (Hl : l1 = l2) by congruence.
    assert (Ha : collected a1 = collected a2) by congruence.
    subst l2. apply Hf. exact Ha.
  - cbn [mapResult]. congruence.
  - cbn [mapResult]. congruence.
Qed.

Lemma modifyLevels_unhedged (modifyOffer : modifyFn B) (priceMultiplier : float64)
  (hack : bool) (levels : list (Offer * Order)) :
  forall (st1 st2 : levelState B) (l : Liabilities),
    collected st1 = collected st2 ->
    mapResult collected (modifyLevels s modifyOffer priceMultiplier hack st1 levels l)
    = mapResult collected (modifyLevels s modifyOffer priceMultiplier hack st2 levels l)
    /\ noNilDereference (modifyLevels s modifyOffer priceMultiplier hack st1 levels l).
Proof.
  induction levels as [|[oldOffer newOrder] rest IH]; intros st1 st2 l Hst.
  - cbn [modifyLevels].
    split; [unfold ret, mapResult; f_equal; f_equal; exact Hst|apply noNilDereference_ret].
  - cbn [modifyLevels]. split.
    + apply bind_collected.
      * apply modifyLevel_unhedged. exact Hst.
      * intros a1 a2 l1 Ha. apply IH. exact Ha.
    + apply noNilDereference_bind.
      * apply (modifyLevel_unhedged _ _ _ st1 st1). reflexivity.
      * intros a l1 _. apply (IH a a). reflexivity.
Qed.

Lemma createLevels_unhedged (createOffer : createFn B) (priceMultiplier : float64)
  (hack : bool) (newOrders : list Order) :
  forall (st1 st2 : levelState B) (l : Liabilities),
    collected st1 = collected st2 ->
    mapResult collected (createLevels s createOffer priceMultiplier hack st1 newOrders l)
    = mapResult collected (createLevels s createOffer priceMultiplier hack st2 newOrders l)
    /\ noNilDereference (createLevels s createOffer priceMultiplier hack st1 newOrders l).
Proof.
  induction newOrders as [|newOrder rest IH]; intros st1 st2 l Hst.
  - cbn [createLevels].
    split; [unfold ret, mapResult; f_equal; f_equal; exact Hst|apply noNilDereference_ret].
  - cbn [createLevels]. split.
    + apply bind_collected.
      * apply createLevel_unhedged. exact Hst.
      * intros a1 a2 l1 Ha. apply IH. exact Ha.
    + apply noNilDereference_bind.
      * apply (createLevel_unhedged _ _ _ st1 st1). reflexivity.
      * intros a l1 _. apply (IH a a). reflexivity.
Qed.

Lemma mapResult_id {A : Type} (r : result A * Liabilities) : mapResult (fun a => a) r = r.
Proof. destruct r as [[a|e|p] l]; reflexivity. Qed.

(** Without hedging [updateLevels] gives the same outcome for every balance
    coordinator, and dereferences no balance. *)
Lemma updateLevels_unhedged (oldOffers : list Offer) (newOrders : list Order)
  (modifyOffer : modifyFn B) (createOffer : createFn B) (priceMultiplier : float64)
  (hack : bool) (bc1 bc2 : balanceCoordinator) (l : Liabilities) :
  updateLevels s oldOffers newOrders modifyOffer createOffer priceMultiplier hack bc1 l
  = updateLevels s oldOffers newOrders modifyOffer createOffer priceMultiplier hack bc2 l
  /\ noNilDereference
       (updateLevels s oldOffers newOrders modifyOffer createOffer priceMultiplier hack bc1 l).
Proof.
  unfold updateLevels. split.
  - etransitivity; [symmetry; apply mapResult_id|].
    etransitivity; [|apply mapResult_id].
    apply bind_collected.
    + destruct (_ <=? _)%nat.
      * apply bind_collected; [apply modifyLevels_unhedged; reflexivity|].
        intros a1 a2 l1 Ha. apply createLevels_unhedged. exact Ha.
      * apply bind_collected; [apply modifyLevels_unhedged; reflexivity|].
        intros [o1 d1 b1] [o2 d2 b2] l1 Ha. unfold collected in Ha. cbn in Ha.
        inversion Ha. subst. reflexivity.
    + intros [o1 d1 b1] [o2 d2 b2] l1 Ha. unfold collected in Ha. cbn in Ha.
      inversion Ha. subst. reflexivity.
  - apply noNilDereference_bind; [|intros; apply noNilDereference_ret].
    destruct (_ <=? _)%nat.
    + apply noNilDereference_bind.
      * apply (modifyLevels_unhedged _ _ _ _ _ _ _ eq_refl).
      * intros a l1 _. apply (createLevels_unhedged _ _ _ _ a a _ eq_refl).
    + apply noNilDereference_bind.
      * apply (modifyLevels_unhedged _ _ _ _ _ _ _ eq_refl).
      * intros. apply noNilDereference_ret.
Qed.

End Unhedged.

End NoSnapshot.

Section WithoutSnapshot.

Context {N : NumberOps} {B : Type}.

(** The balance snapshot is not among the fields [updateLevels] reads. *)
Lemma updateLevels_withMaxBacking (s : mirrorStrategy B) (base quote : option Number)
  (oldOffers : list Offer) (newOrders : list Order)
  (modifyOffer : modifyFn B) (createOffer : createFn B) (priceMultiplier : float64)
  (hack : bool) (bc0 : balanceCoordinator) (l : Liabilities) :
  updateLevels (withMaxBacking s base quote) oldOffers newOrders modifyOffer createOffer
    priceMultiplier hack bc0 l
  = updateLevels s oldOffers newOrders modifyOffer createOffer priceMultiplier hack bc0 l.
Proof.
  assert (Hmodify : forall levels st l0,
    modifyLevels (withMaxBacking s base quote) modifyOffer priceMultiplier hack st levels l0
    = modifyLevels s modifyOffer priceMultiplier hack st levels l0).
  { induction levels as [|[oldOffer newOrder] rest IH]; intros st l0; [reflexivity|].
    cbn [modifyLevels]. unfold bind.
    change (modifyLevel (withMaxBacking s base quote) modifyOffer priceMultiplier hack st
              oldOffer newOrder l0)
      with (modifyLevel s modifyOffer priceMultiplier hack st oldOffer newOrder l0).
    destruct (modifyLevel s modifyOffer priceMultiplier hack st oldOffer newOrder l0)
      as [[st'|e|p] l1]; [apply IH|reflexivity|reflexivity]. }
  assert (Hcreate : forall orders st l0,
    createLevels (withMaxBacking s base quote) createOffer priceMultiplier hack st orders l0
    = createLevels s createOffer priceMultiplier hack st orders l0).
  { induction orders as [|newOrder rest IH]; intros st l0; [reflexivity|].
    cbn [createLevels]. unfold bind.
    change (createLevel (withMaxBacking s base quote) createOffer priceMultiplier hack st
              newOrder l0)
      with (createLevel s createOffer priceMultiplier hack st newOrder l0).
    destruct (createLevel s createOffer priceMultiplier hack st newOrder l0)
      as [[st'|e|p] l1]; [apply IH|reflexivity|reflexivity]. }
  unfold updateLevels, bind.
  destruct (_ <=? _)%nat; rewrite Hmodify;
    destruct (modifyLevels s modifyOffer priceMultiplier hack _ _ l) as [[st'|e|p] l1];
    rewrite ?Hcreate; reflexivity.
Qed.

Lemma bind_ext {A C : Type} (m1 m2 : M A) (f1 f2 : A -> M C) (l : Liabilities) :
  m1 l = m2 l -> (forall a l1, f1 a l1 = f2 a l1) -> bind m1 f1 l = bind m2 f2 l.
Proof.
  intros Hm Hf. unfold bind. rewrite Hm.
  destruct (m2 l) as [[a|e|p] l1]; [apply Hf|reflexivity|reflexivity].
Qed.

(** C10.  When offsetTrades is false: [PreUpdate] succeeds and leaves the
    strategy, hence a nil maxBackingBase and maxBackingQuote, as it is; and
    [UpdateWithOps] never consults the balance coordinator: it ends in no
    nil pointer dereference even with a nil snapshot, and its outcome is the
    same whatever the snapshot holds. *)
Theorem update_needs_no_snapshot (s : mirrorStrategy B) :
  offsetTrades s = false ->
  (forall (exchange : Exchange) (maxAssetA maxAssetB trustA trustB : float64),
     PreUpdate s exchange maxAssetA maxAssetB trustA trustB = (Ok tt, s))
  /\ (forall (PriceAsFloat : string -> float64) (exchange : Exchange)
             (buyingAOffers sellingAOffers : list Offer) (l : Liabilities),
        noNilDereference
          (UpdateWithOps PriceAsFloat (withMaxBacking s None None) exchange
             buyingAOffers sellingAOffers l)
        /\ forall base quote : option Number,
             UpdateWithOps PriceAsFloat (withMaxBacking s base quote) exchange
               buyingAOffers sellingAOffers l
             = UpdateWithOps PriceAsFloat (withMaxBacking s None None) exchange
                 buyingAOffers sellingAOffers l).
Proof.
  intro Hoff. split.
  - intros. unfold PreUpdate. rewrite Hoff. reflexivity.
  - intros PriceAsFloat exchange buyingAOffers sellingAOffers l.
    assert (Hoff' : forall base quote, offsetTrades (withMaxBacking s base quote) = false)
      by (intros; exact Hoff).
    split.
    + unfold UpdateWithOps.
      apply noNilDereference_bind.
      { unfold noNilDereference, lift. cbn [fst].
        destruct (GetOrderBook exchange _ _); discriminate. }
      intros ob l0 _.
      apply noNilDereference_bind;
        [apply (fun b => proj2 (updateLevels_unhedged _ (Hoff' None None)
                                  _ _ _ _ _ _ b b l0))|].
      intros buyOps l1 _.
      apply noNilDereference_bind;
        [apply (fun b => proj2 (updateLevels_unhedged _ (Hoff' None None)
                                  _ _ _ _ _ _ b b l1))|].
      intros sellOps l2 _.
      destruct (sellOpsFirst _ _ _); apply noNilDereference_ret.
    + intros base quote. unfold UpdateWithOps.
      cbn [withMaxBacking backingPair orderbookDepth sdex perLevelSpread
           maxBackingBase maxBackingQuote].
      unfold bind at 1 4. unfold lift.
      destruct (fromReply (GetOrderBook exchange (backingPair s) (orderbookDepth s)))
        as [ob|e|p]; try reflexivity.
      apply bind_ext.
      { rewrite !updateLevels_withMaxBacking. apply updateLevels_unhedged. exact Hoff. }
      intros buyOps l1. apply bind_ext; [|reflexivity].
      rewrite !updateLevels_withMaxBacking. apply updateLevels_unhedged. exact Hoff.
Qed.

End WithoutSnapshot.

Lemma update_needs_no_snapshot_witness :
  let s := Scenario.strategy Scenario.echoSdex false 2%Q None None in
  offsetTrades s = false
  /\ PreUpdate s Scenario.accepting 0%Q 0%Q 0%Q 0%Q = (Ok tt, s)
  /\ noNilDereference
       (UpdateWithOps Scenario.priceAsFloat (withMaxBacking s None None) Scenario.accepting
          [] [] []).
Proof.
  intro s.
  destruct (update_needs_no_snapshot s eq_refl) as [Hpre Hupdate].
  split; [reflexivity|split].
  - apply Hpre.
  - apply (Hupdate Scenario.priceAsFloat Scenario.accepting [] [] []).
Defined.

(** * Further properties of the strategy *)

(** ** Configuration and construction *)

Section ConstructionProperties.

Context {N : NumberOps} {B APIKeys Params Headers Venue : Type}.

(** X1.  [convertDeprecatedMirrorConfigValues] leaves a config with
    MIN_BASE_VOLUME_OVERRIDE set exactly as it is; otherwise it copies the
    deprecated MIN_BASE_VOLUME into the override.  So the override is unset
    afterwards only when both were unset, the deprecated field is never
    changed, and converting twice is converting once. *)
Theorem convertDeprecated_override_wins (config : mirrorConfig APIKeys Params Headers) :
  (forall v, MinBaseVolumeOverride config = Some v ->
     convertDeprecatedMirrorConfigValues config = config)
  /\ (MinBaseVolumeOverride config = None ->
      MinBaseVolumeOverride (convertDeprecatedMirrorConfigValues config)
      = MinBaseVolumeDeprecated config)
  /\ (MinBaseVolumeOverride (convertDeprecatedMirrorConfigValues config) = None
      <-> MinBaseVolumeOverride config = None /\ MinBaseVolumeDeprecated config = None)
  /\ MinBaseVolumeDeprecated (convertDeprecatedMirrorConfigValues config)
     = MinBaseVolumeDeprecated config
  /\ convertDeprecatedMirrorConfigValues (convertDeprecatedMirrorConfigValues config)
     = convertDeprecatedMirrorConfigValues config.
Proof.
  unfold convertDeprecatedMirrorConfigValues.
  destruct (MinBaseVolumeOverride config) as [v|] eqn:Eo.
  - split; [reflexivity|].
    split; [intro H; discriminate H|].
    split; [rewrite Eo; split; [intro H; discriminate H|intros [H _]; discriminate H]|].
    split; [reflexivity|].
    rewrite Eo. reflexivity.
  - split; [intros v H; discriminate H|].
    split; [reflexivity|].
    cbn [withMinBaseVolumeOverride MinBaseVolumeOverride MinBaseVolumeDeprecated].
    split; [split; [intro H; split; [reflexivity|exact H]|intros [_ H]; exact H]|].
    split; [reflexivity|].
    destruct (MinBaseVolumeDeprecated config); reflexivity.
Qed.

Lemma notPositive_false (p : option float64) (v : float64) :
  notPositive p = false -> p = Some v -> (0 < v)%Q.
Proof.
  intros H ->. cbn [notPositive] in H.
  apply negb_false_iff, fltb_true_iff in H. exact H.
Qed.

Lemma negative_false (p : option int8) (v : int8) :
  negative p = false -> p = Some v -> 0 <= v.
Proof.
  intros H ->. cbn [negative] in H. apply Z.ltb_ge in H. exact H.
Qed.

(** X2.  A strategy that [makeMirrorStrategy] builds with OFFSET_TRADES on
    has validated overrides: the minimum base volume in force (the override
    or, without one, the deprecated MIN_BASE_VOLUME) and the minimum quote
    volume are positive, and both precision overrides are non-negative,
    wherever they are set. *)
Theorem makeMirrorStrategy_validates
  (w : Surroundings APIKeys Params Headers Venue) (sdex0 : SDEX B) (pair : TradingPair)
  (baseAsset0 quoteAsset0 : hAsset) (config config' : mirrorConfig APIKeys Params Headers) (simMode : bool)
  (s : mirrorStrategy B) (exchange : Venue) :
  makeMirrorStrategy w sdex0 pair baseAsset0 quoteAsset0 config simMode
    = (Made (s, exchange), config') ->
  OffsetTrades config = true ->
  (forall v, MinBaseVolumeOverride config = Some v -> (0 < v)%Q)
  /\ (forall v, MinBaseVolumeOverride config = None ->
        MinBaseVolumeDeprecated config = Some v -> (0 < v)%Q)
  /\ (forall v, MinQuoteVolumeOverride config = Some v -> (0 < v)%Q)
  /\ (forall p, VolumePrecisionOverride config = Some p -> 0 <= p)
  /\ (forall p, PricePrecisionOverride config = Some p -> 0 <= p).
Proof.
  intros Hmade Hoff. unfold makeMirrorStrategy in Hmade.
  destruct (makeBackingExchange w (convertDeprecatedMirrorConfigValues config) simMode)
    as [exchange0|e|str] eqn:Eex; try discriminate Hmade.
  clear Hmade. unfold makeBackingExchange in Eex.
  assert (Hoff' : OffsetTrades (convertDeprecatedMirrorConfigValues config) = true).
  { unfold convertDeprecatedMirrorConfigValues.
    destruct (MinBaseVolumeOverride config); exact Hoff. }
  rewrite Hoff' in Eex.
  destruct (MakeTradingExchange w _ _ _ _ _) as [exchange1|e]; [|discriminate Eex].
  destruct (notPositive (MinBaseVolumeOverride _)) eqn:Ebase; [discriminate Eex|].
  destruct (notPositive (MinQuoteVolumeOverride _)) eqn:Equote; [discriminate Eex|].
  destruct (negative (VolumePrecisionOverride _)) eqn:Evol; [discriminate Eex|].
  destruct (negative (PricePrecisionOverride _)) eqn:Eprice; [discriminate Eex|].
  clear Eex. unfold convertDeprecatedMirrorConfigValues in *.
  destruct (MinBaseVolumeOverride config) as [v0|] eqn:Eo;
    cbn [withMinBaseVolumeOverride MinBaseVolumeOverride MinQuoteVolumeOverride
         VolumePrecisionOverride PricePrecisionOverride] in *.
  - rewrite Eo in Ebase. repeat split.
    + intros v Hv. apply (notPositive_false _ _ Ebase Hv).
    + intros v Hv. discriminate Hv.
    + intros v Hv. apply (notPositive_false _ _ Equote Hv).
    + intros p Hp. apply (negative_false _ _ Evol Hp).
    + intros p Hp. apply (negative_false _ _ Eprice Hp).
  - repeat split.
    + intros v Hv. discriminate Hv.
    + intros v _ Hv. apply (notPositive_false _ _ Ebase Hv).
    + intros v Hv. apply (notPositive_false _ _ Equote Hv).
    + intros p Hp. apply (negative_false _ _ Evol Hp).
    + intros p Hp. apply (negative_false _ _ Eprice Hp).
Qed.

(** X3.  Every strategy [makeMirrorStrategy] builds starts with an empty
    ledger on both sides and without a balance snapshot, offsets trades
    exactly when the config says so, and exposes itself as the one fill
    handler in that case and no fill handler otherwise; the caller's config
    is left converted. *)
Theorem makeMirrorStrategy_fresh
  (w : Surroundings APIKeys Params Headers Venue) (sdex0 : SDEX B) (pair : TradingPair)
  (baseAsset0 quoteAsset0 : hAsset) (config config' : mirrorConfig APIKeys Params Headers) (simMode : bool)
  (s : mirrorStrategy B) (exchange : Venue) :
  makeMirrorStrategy w sdex0 pair baseAsset0 quoteAsset0 config simMode
    = (Made (s, exchange), config') ->
  (forall side, surplusOf (baseSurplus s) side = {| total := Zero; committed := Zero |})
  /\ maxBackingBase s = None
  /\ maxBackingQuote s = None
  /\ offsetTrades s = OffsetTrades config
  /\ GetFillHandlers s = (if OffsetTrades config then [s] else [])
  /\ config' = convertDeprecatedMirrorConfigValues config.
Proof.
  intro Hmade. unfold makeMirrorStrategy in Hmade.
  assert (Hoff : OffsetTrades (convertDeprecatedMirrorConfigValues config)
                 = OffsetTrades config).
  { unfold convertDeprecatedMirrorConfigValues.
    destruct (MinBaseVolumeOverride config); reflexivity. }
  destruct (makeBackingExchange w _ simMode) as [exchange0|e|str];
    try discriminate Hmade.
  destruct (MustFromString w exchange0 (ExchangeBase _)) as [base|];
    [|discriminate Hmade].
  destruct (MustFromString w exchange0 (ExchangeQuote _)) as [quote|];
    [|discriminate Hmade].
  inversion Hmade. subst config'. clear Hmade.
  unfold GetFillHandlers. cbn [baseSurplus maxBackingBase maxBackingQuote offsetTrades].
  rewrite Hoff. repeat split.
  intro side. destruct side; reflexivity.
Qed.

(** X4.  With OFFSET_TRADES off [makeMirrorStrategy] checks no override: it
    builds a strategy whenever the plain exchange factory succeeds and both
    asset strings convert, whatever the precision and volume overrides are. *)
Theorem makeMirrorStrategy_unchecked_without_offset
  (w : Surroundings APIKeys Params Headers Venue) (sdex0 : SDEX B) (pair : TradingPair)
  (baseAsset0 quoteAsset0 : hAsset) (config : mirrorConfig APIKeys Params Headers) (simMode : bool)
  (exchange : Venue) (base quote : Asset) :
  OffsetTrades config = false ->
  MakeExchange w (cfg_Exchange config) simMode = Reply exchange ->
  MustFromString w exchange (ExchangeBase config) = Some base ->
  MustFromString w exchange (ExchangeQuote config) = Some quote ->
  exists (s : mirrorStrategy B) (exchange' : Venue),
    makeMirrorStrategy w sdex0 pair baseAsset0 quoteAsset0 config simMode
    = (Made (s, exchange'), convertDeprecatedMirrorConfigValues config)
    /\ backingPair s = {| Base := base; Quote := quote |}
    /\ offsetTrades s = false.
Proof.
  intros Hoff Hex Hbase Hquote. unfold makeMirrorStrategy, makeBackingExchange.
  assert (Hsame : forall c : mirrorConfig APIKeys Params Headers,
            c = convertDeprecatedMirrorConfigValues config ->
            OffsetTrades c = false /\ cfg_Exchange c = cfg_Exchange config
            /\ ExchangeBase c = ExchangeBase config
            /\ ExchangeQuote c = ExchangeQuote config).
  { intros c ->. unfold convertDeprecatedMirrorConfigValues.
    destruct (MinBaseVolumeOverride config); repeat split; assumption. }
  destruct (Hsame _ eq_refl) as (H1 & H2 & H3 & H4).
  rewrite H1, H2, Hex, H3, Hbase, H4, Hquote.
  eexists. eexists. split; [reflexivity|].
  cbn [backingPair offsetTrades]. split; reflexivity.
Qed.

End ConstructionProperties.

Lemma makeMirrorStrategy_validates_witness :
  let config := Scenario.config true None (Some (1 # 2)%Q) (Some 7) in
  exists s exchange config',
    makeMirrorStrategy Scenario.surroundings Scenario.echoSdex Scenario.pair
      Scenario.xlm Scenario.usd config false = (Made (s, exchange), config')
    /\ OffsetTrades config = true
    /\ (forall v, MinBaseVolumeOverride config = None ->
          MinBaseVolumeDeprecated config = Some v -> (0 < v)%Q).
Proof.
  intro config.
  assert (E : exists s exchange config',
             makeMirrorStrategy Scenario.surroundings Scenario.echoSdex Scenario.pair
               Scenario.xlm Scenario.usd config false = (Made (s, exchange), config'))
    by (eexists; eexists; eexists; vm_compute; reflexivity).
  destruct E as (s & exchange & config' & E).
  exists s, exchange, config'. split; [exact E|split; [reflexivity|]].
  apply (makeMirrorStrategy_validates _ _ _ _ _ _ _ _ _ _ E eq_refl).
Defined.

Lemma makeMirrorStrategy_fresh_witness :
  let config := Scenario.config true None (Some (1 # 2)%Q) (Some 7) in
  exists s exchange config',
    makeMirrorStrategy Scenario.surroundings Scenario.echoSdex Scenario.pair
      Scenario.xlm Scenario.usd config false = (Made (s, exchange), config')
    /\ maxBackingBase s = None
    /\ GetFillHandlers s = [s].
Proof.
  intro config.
  assert (E : exists s exchange config',
             makeMirrorStrategy Scenario.surroundings Scenario.echoSdex Scenario.pair
               Scenario.xlm Scenario.usd config false = (Made (s, exchange), config'))
    by (eexists; eexists; eexists; vm_compute; reflexivity).
  destruct E as (s & exchange & config' & E).
  exists s, exchange, config'.
  destruct (makeMirrorStrategy_fresh _ _ _ _ _ _ _ _ _ _ E) as (_ & Hbase & _ & _ & Hfill & _).
  split; [exact E|split; [exact Hbase|exact Hfill]].
Defined.

Lemma makeMirrorStrategy_unchecked_without_offset_witness :
  let config := Scenario.config false (Some (-1)%Q) None (Some (-3)) in
  exists s exchange',
    makeMirrorStrategy Scenario.surroundings Scenario.echoSdex Scenario.pair
      Scenario.xlm Scenario.usd config false
    = (Made (s, exchange'), convertDeprecatedMirrorConfigValues config)
    /\ backingPair s = {| Base := "XLM"%string; Quote := "USD"%string |}
    /\ offsetTrades s = false.
Proof.
  intro config.
  apply (makeMirrorStrategy_unchecked_without_offset Scenario.surroundings Scenario.echoSdex
           Scenario.pair Scenario.xlm Scenario.usd config false Scenario.backing);
    reflexivity.
Defined.

(** ** The balance snapshot *)

Section Snapshot.

Context {N : NumberOps} {B : Type}.

(** X5.  [recordBalances] succeeds exactly when the backing exchange
    answers with balances for both the base and the quote asset of the
    backing pair, and then the snapshot holds those two balances and nothing
    else of the strategy has changed. *)
Theorem recordBalances_success (s s' : mirrorStrategy B) (exchange : Exchange) :
  recordBalances s exchange = (Ok tt, s')
  <-> exists balanceMap baseBalance quoteBalance,
        GetAccountBalances exchange [Base (backingPair s); Quote (backingPair s)]
          = Reply balanceMap
        /\ lookupBalance balanceMap (Base (backingPair s)) = Some baseBalance
        /\ lookupBalance balanceMap (Quote (backingPair s)) = Some quoteBalance
        /\ s' = withMaxBacking s (Some baseBalance) (Some quoteBalance).
Proof.
  unfold recordBalances. split.
  - destruct (GetAccountBalances exchange _) as [balanceMap|e];
      [|intro H; discriminate H].
    destruct (lookupBalance balanceMap (Base _)) as [baseBalance|] eqn:Ebase;
      [|intro H; discriminate H].
    destruct (lookupBalance balanceMap (Quote _)) as [quoteBalance|] eqn:Equote;
      [|intro H; discriminate H].
    intro H. inversion H.
    exists balanceMap, baseBalance, quoteBalance.
    split; [reflexivity|split; [exact Ebase|split; [exact Equote|reflexivity]]].
  - intros (balanceMap & baseBalance & quoteBalance & -> & -> & -> & ->). reflexivity.
Qed.

(** X6.  How [recordBalances] fails.  When the balances cannot be fetched
    or the base balance is missing, the strategy is left as it is.  When
    only the quote balance is missing, the call fails although the base
    snapshot has already been replaced; the quote snapshot keeps its old
    value.  In no case are the ledger or the constraints touched. *)
Theorem recordBalances_failure (s : mirrorStrategy B) (exchange : Exchange) :
  (forall e,
     GetAccountBalances exchange [Base (backingPair s); Quote (backingPair s)] = Failed e ->
     recordBalances s exchange = (Error (ErrFetchBalances e), s))
  /\ (forall balanceMap,
        GetAccountBalances exchange [Base (backingPair s); Quote (backingPair s)]
          = Reply balanceMap ->
        lookupBalance balanceMap (Base (backingPair s)) = None ->
        recordBalances s exchange = (Error ErrNoBaseBalance, s))
  /\ (forall balanceMap baseBalance,
        GetAccountBalances exchange [Base (backingPair s); Quote (backingPair s)]
          = Reply balanceMap ->
        lookupBalance balanceMap (Base (backingPair s)) = Some baseBalance ->
        lookupBalance balanceMap (Quote (backingPair s)) = None ->
        recordBalances s exchange
        = (Error ErrNoQuoteBalance,
           withMaxBacking s (Some baseBalance) (maxBackingQuote s)))
  /\ baseSurplus (snd (recordBalances s exchange)) = baseSurplus s
  /\ backingConstraints (snd (recordBalances s exchange)) = backingConstraints s
  /\ primaryConstraints (snd (recordBalances s exchange)) = primaryConstraints s.
Proof.
  unfold recordBalances. split; [|split; [|split]].
  - intros e ->. reflexivity.
  - intros balanceMap -> ->. reflexivity.
  - intros balanceMap baseBalance -> -> ->. reflexivity.
  - destruct (GetAccountBalances exchange _) as [balanceMap|e]; [|repeat split].
    destruct (lookupBalance balanceMap (Base _)) as [baseBalance|]; [|repeat split].
    destruct (lookupBalance balanceMap (Quote _)) as [quoteBalance|]; repeat split.
Qed.

(** A successful [recordBalances] leaves a snapshot of both balances. *)
Lemma recordBalances_success_snapshot (s s' : mirrorStrategy B) (exchange : Exchange) :
  recordBalances s exchange = (Ok tt, s') ->
  exists baseBalance quoteBalance,
    s' = withMaxBacking s (Some baseBalance) (Some quoteBalance).
Proof.
  unfold recordBalances.
  destruct (GetAccountBalances exchange _) as [balanceMap|e]; [|intro H; discriminate H].
  destruct (lookupBalance balanceMap (Base _)) as [baseBalance|];
    [|intro H; discriminate H].
  destruct (lookupBalance balanceMap (Quote _)) as [quoteBalance|];
    [|intro H; discriminate H].
  intro H. inversion H. exists baseBalance, quoteBalance. reflexivity.
Qed.

End Snapshot.

Lemma recordBalances_failure_witness :
  let s := Scenario.strategy Scenario.echoSdex true 2%Q None (Some (Decimal.lit 7 0)) in
  let exchange := Scenario.exchangeHolding [("XLM"%string, Decimal.lit 40 0)] in
  recordBalances s exchange
  = (Error ErrNoQuoteBalance,
     withMaxBacking s (Some (Decimal.lit 40 0)) (Some (Decimal.lit 7 0))).
Proof.
  intros s exchange.
  destruct (recordBalances_failure s exchange) as (_ & _ & Hquote & _).
  apply (Hquote [("XLM"%string, Decimal.lit 40 0)] (Decimal.lit 40 0)); reflexivity.
Defined.

(** ** The coordinator through the loops *)

Section CoordinatorThroughLoops.

Context {N : NumberOps} {B : Type}.

Lemma lift_ok_inv {A : Type} (r : result A) (a : A) (l l' : Liabilities) :
  lift r l = (Ok a, l') -> r = Ok a /\ l = l'.
Proof. unfold lift. intro H. inversion H. split; reflexivity. Qed.

Lemma bc_queueDelete (st : levelState B) (d : option (TransactionMutator B)) :
  bc (queueDelete st d) = bc st.
Proof. destruct d; reflexivity. Qed.

Section Invariant.

(** A property of the coordinator that [checkBalance] keeps. *)
Variable P : balanceCoordinator -> Prop.
Hypothesis P_checkBalance :
  forall b vol price ok b', checkBalance b vol price = Ok (ok, b') -> P b -> P b'.

Lemma modifyLevel_keeps
  (s : mirrorStrategy B) (modifyOffer : modifyFn B) (priceMultiplier : float64) (hack : bool)
  (st st' : levelState B) (oldOffer : Offer) (newOrder : Order) (l l' : Liabilities) :
  P (bc st) ->
  modifyLevel s modifyOffer priceMultiplier hack st oldOffer newOrder l = (Ok st', l') ->
  P (bc st').
Proof.
  intros Hst H. unfold modifyLevel in H.
  apply bind_ok_inv in H. destruct H as ([[modifyOp|] deleteOp] & l1 & _ & H).
  - destruct (offsetTrades s).
    + apply bind_ok_inv in H. destruct H as ([ok b'] & l2 & Hc & H).
      apply lift_ok_inv in Hc. destruct Hc as [Hc _].
      pose proof (P_checkBalance _ _ _ _ _ Hc Hst) as Hb'.
      destruct ok; apply ret_ok_inv in H; destruct H as [<- _].
      * rewrite bc_queueDelete. exact Hb'.
      * exact Hb'.
    + apply ret_ok_inv in H. destruct H as [<- _]. rewrite bc_queueDelete. exact Hst.
  - apply ret_ok_inv in H. destruct H as [<- _]. rewrite bc_queueDelete. exact Hst.
Qed.

Lemma modifyLevels_keeps
  (s : mirrorStrategy B) (modifyOffer : modifyFn B) (priceMultiplier : float64) (hack : bool)
  (levels : list (Offer * Order)) :
  forall (st st' : levelState B) (l l' : Liabilities),
    P (bc st) ->
    modifyLevels s modifyOffer priceMultiplier hack st levels l = (Ok st', l') ->
    P (bc st').
Proof.
  induction levels as [|[oldOffer newOrder] rest IH]; intros st st' l l' Hst H.
  - apply ret_ok_inv in H. destruct H as [<- _]. exact Hst.
  - cbn [modifyLevels] in H. apply bind_ok_inv in H.
    destruct H as (st1 & l1 & Hstep & H).
    apply (IH st1 st' l1 l'); [|exact H].
    apply (modifyLevel_keeps _ _ _ _ _ _ _ _ _ _ Hst Hstep).
Qed.

Lemma createLevel_keeps
  (s : mirrorStrategy B) (createOffer : createFn B) (priceMultiplier : float64) (hack : bool)
  (st st' : levelState B) (newOrder : Order) (l l' : Liabilities) :
  P (bc st) ->
  createLevel s createOffer priceMultiplier hack st newOrder l = (Ok st', l') ->
  P (bc st').
Proof.
  intros Hst H. unfold createLevel in H.
  destruct (fltb _ _).
  { apply ret_ok_inv in H. destruct H as [<- _]. exact Hst. }
  assert (Hcreate : forall (st0 : levelState B) (l0 : Liabilities) (k : B -> M unit),
    P (bc st0) ->
    bind (reading (fun l1 => createOffer l1 (baseAsset s) (quoteAsset s)
                     (AsFloat (Scale (Price newOrder) priceMultiplier))
                     (AsFloat (Scale (Volume newOrder) (1 / volumeDivideBy s)%Q))
                     (ComputeIncrementalNativeAmountRaw (sdex s) true)))
      (fun mo => match mo with
                 | Some mo => bind (k mo) (fun _ => ret (appendOp st0 (CreateOp mo)))
                 | None => ret st0
                 end) l0 = (Ok st', l') ->
    P (bc st')).
  { intros st0 l0 k Hst0 Hc. apply bind_ok_inv in Hc. destruct Hc as ([mo|] & l1 & _ & Hc).
    - apply bind_ok_inv in Hc. destruct Hc as (_ & l2 & _ & Hc).
      apply ret_ok_inv in Hc. destruct Hc as [<- _]. exact Hst0.
    - apply ret_ok_inv in Hc. destruct Hc as [<- _]. exact Hst0. }
  destruct (offsetTrades s).
  - apply bind_ok_inv in H. destruct H as ([ok b'] & l2 & Hc & H).
    apply lift_ok_inv in Hc. destruct Hc as [Hc _].
    pose proof (P_checkBalance _ _ _ _ _ Hc Hst) as Hb'.
    destruct ok.
    + apply (Hcreate (withBc st b') l2 _ Hb' H).
    + apply ret_ok_inv in H. destruct H as [<- _]. exact Hb'.
  - apply (Hcreate st l _ Hst H).
Qed.

Lemma createLevels_keeps
  (s : mirrorStrategy B) (createOffer : createFn B) (priceMultiplier : float64) (hack : bool)
  (newOrders : list Order) :
  forall (st st' : levelState B) (l l' : Liabilities),
    P (bc st) ->
    createLevels s createOffer priceMultiplier hack st newOrders l = (Ok st', l') ->
    P (bc st').
Proof.
  induction newOrders as [|newOrder rest IH]; intros st st' l l' Hst H.
  - apply ret_ok_inv in H. destruct H as [<- _]. exact Hst.
  - cbn [createLevels] in H. apply bind_ok_inv in H.
    destruct H as (st1 & l1 & Hstep & H).
    apply (IH st1 st' l1 l'); [|exact H].
    apply (createLevel_keeps _ _ _ _ _ _ _ _ _ Hst Hstep).
Qed.

End Invariant.

Lemma checkBalance_keeps_balance (balance : Number) (b : balanceCoordinator)
  (vol price : Number) (ok : bool) (b' : balanceCoordinator) :
  checkBalance b vol price = Ok (ok, b') ->
  backingBalance b = Some balance -> backingBalance b' = Some balance.
Proof.
  unfold checkBalance. intros H Hb. rewrite Hb in H.
  destruct (fltb _ _); inversion H; subst; exact Hb.
Qed.

Lemma checkBalance_keeps_within (b : balanceCoordinator) (vol price : Number) (ok : bool)
  (b' : balanceCoordinator) :
  checkBalance b vol price = Ok (ok, b') -> withinBalance b -> withinBalance b'.
Proof.
  unfold checkBalance. intros H (balance & Hb & Hle). rewrite Hb in H.
  destruct (fltb _ _) eqn:E; inversion H; subst.
  - exists balance. split; assumption.
  - exists balance. split; [exact Hb|].
    cbn [withPlacedUnits placedUnits]. apply fltb_false_iff. exact E.
Qed.

(** X7.  Through the loops of [updateLevels] the balance coordinator stays
    within the backing balance: if it starts with a balance and placed
    units not above it, then after the paired levels and after the created
    levels it still has that balance and its placed units are not above it. *)
Theorem loops_stay_within_balance
  (s : mirrorStrategy B) (modifyOffer : modifyFn B) (createOffer : createFn B)
  (priceMultiplier : float64) (hack : bool)
  (levels : list (Offer * Order)) (newOrders : list Order)
  (st st1 st2 : levelState B) (l l1 l2 : Liabilities) (balance : Number) :
  backingBalance (bc st) = Some balance ->
  (AsFloat (placedUnits (bc st)) <= AsFloat balance)%Q ->
  modifyLevels s modifyOffer priceMultiplier hack st levels l = (Ok st1, l1) ->
  createLevels s createOffer priceMultiplier hack st1 newOrders l1 = (Ok st2, l2) ->
  backingBalance (bc st1) = Some balance
  /\ (AsFloat (placedUnits (bc st1)) <= AsFloat balance)%Q
  /\ backingBalance (bc st2) = Some balance
  /\ (AsFloat (placedUnits (bc st2)) <= AsFloat balance)%Q.
Proof.
  intros Hb Hle Hmod Hcreate.
  assert (Hw : withinBalance (bc st)) by (exists balance; split; assumption).
  pose proof (modifyLevels_keeps _ (checkBalance_keeps_balance balance)
                _ _ _ _ _ _ _ _ _ Hb Hmod) as Hb1.
  pose proof (createLevels_keeps _ (checkBalance_keeps_balance balance)
                _ _ _ _ _ _ _ _ _ Hb1 Hcreate) as Hb2.
  pose proof (modifyLevels_keeps _ checkBalance_keeps_within
                _ _ _ _ _ _ _ _ _ Hw Hmod) as Hw1.
  pose proof (createLevels_keeps _ checkBalance_keeps_within
                _ _ _ _ _ _ _ _ _ Hw1 Hcreate) as Hw2.
  destruct Hw1 as (x1 & Hx1 & Hle1). destruct Hw2 as (x2 & Hx2 & Hle2).
  rewrite Hb1 in Hx1. rewrite Hb2 in Hx2. inversion Hx1. inversion Hx2. subst x1 x2.
  repeat split; assumption.
Qed.

End CoordinatorThroughLoops.

(** ** Updating with and without a snapshot *)

Section SnapshotAndUpdate.

Context {N : NumberOps} {B : Type}.

Lemma checkBalance_with_balance (b : balanceCoordinator) (balance vol price : Number) :
  backingBalance b = Some balance ->
  exists ok b', checkBalance b vol price = Ok (ok, b').
Proof.
  intro Hb. unfold checkBalance. rewrite Hb.
  destruct (fltb _ _); eexists; eexists; reflexivity.
Qed.

Lemma noNilDereference_checkBalance (b : balanceCoordinator) (balance vol price : Number)
  (l : Liabilities) :
  backingBalance b = Some balance ->
  noNilDereference (lift (checkBalance b vol price) l).
Proof.
  intro Hb. destruct (checkBalance_with_balance b balance vol price Hb) as (ok & b' & ->).
  unfold noNilDereference, lift. cbn. discriminate.
Qed.

Lemma modifyLevel_safe
  (s : mirrorStrategy B) (modifyOffer : modifyFn B) (priceMultiplier : float64) (hack : bool)
  (st : levelState B) (oldOffer : Offer) (newOrder : Order) (l : Liabilities)
  (balance : Number) :
  backingBalance (bc st) = Some balance ->
  noNilDereference (modifyLevel s modifyOffer priceMultiplier hack st oldOffer newOrder l).
Proof.
  intro Hb. unfold modifyLevel.
  apply noNilDereference_bind; [apply doModifyOffer_noNilDereference|].
  intros [[modifyOp|] deleteOp] l1 _; [|apply noNilDereference_ret].
  destruct (offsetTrades s); [|apply noNilDereference_ret].
  apply noNilDereference_bind; [apply (noNilDereference_checkBalance _ balance); exact Hb|].
  intros [[|] b'] l2 _; apply noNilDereference_ret.
Qed.

Lemma modifyLevels_safe
  (s : mirrorStrategy B) (modifyOffer : modifyFn B) (priceMultiplier : float64) (hack : bool)
  (balance : Number) (levels : list (Offer * Order)) :
  forall (st : levelState B) (l : Liabilities),
    backingBalance (bc st) = Some balance ->
    noNilDereference (modifyLevels s modifyOffer priceMultiplier hack st levels l).
Proof.
  induction levels as [|[oldOffer newOrder] rest IH]; intros st l Hb; cbn [modifyLevels].
  - apply noNilDereference_ret.
  - apply noNilDereference_bind; [apply (modifyLevel_safe _ _ _ _ _ _ _ _ balance Hb)|].
    intros st1 l1 Hstep. apply IH.
    apply (modifyLevel_keeps _ (checkBalance_keeps_balance balance)
             _ _ _ _ _ _ _ _ _ _ Hb Hstep).
Qed.

Lemma createLevel_safe
  (s : mirrorStrategy B) (createOffer : createFn B) (priceMultiplier : float64) (hack : bool)
  (st : levelState B) (newOrder : Order) (l : Liabilities) (balance : Number) :
  backingBalance (bc st) = Some balance ->
  noNilDereference (createLevel s createOffer priceMultiplier hack st newOrder l).
Proof.
  intro Hb. unfold createLevel.
  destruct (fltb _ _); [apply noNilDereference_ret|].
  assert (Hcreate : forall (st0 : levelState B) (l0 : Liabilities) (k : B -> M unit),
    (forall mo l1, noNilDereference (k mo l1)) ->
    noNilDereference
      (bind (reading (fun l1 => createOffer l1 (baseAsset s) (quoteAsset s)
                        (AsFloat (Scale (Price newOrder) priceMultiplier))
                        (AsFloat (Scale (Volume newOrder) (1 / volumeDivideBy s)%Q))
                        (ComputeIncrementalNativeAmountRaw (sdex s) true)))
         (fun mo => match mo with
                    | Some mo => bind (k mo) (fun _ => ret (appendOp st0 (CreateOp mo)))
                    | None => ret st0
                    end) l0)).
  { intros st0 l0 k Hk.
    apply noNilDereference_bind; [apply noNilDereference_reading|].
    intros [mo|] l1 _; [|apply noNilDereference_ret].
    apply noNilDereference_bind; [apply Hk|intros; apply noNilDereference_ret]. }
  assert (Hk : forall (mo : B) (l1 : Liabilities),
    noNilDereference
      ((if hack
        then AddLiabilities (quoteAsset s) (baseAsset s)
               (AsFloat (Multiply (Scale (Volume newOrder) (1 / volumeDivideBy s)%Q)
                           (Scale (Price newOrder) priceMultiplier)))
               (AsFloat (Scale (Volume newOrder) (1 / volumeDivideBy s)%Q))
               (ComputeIncrementalNativeAmountRaw (sdex s) true)
        else AddLiabilities (baseAsset s) (quoteAsset s)
               (AsFloat (Scale (Volume newOrder) (1 / volumeDivideBy s)%Q))
               (AsFloat (Multiply (Scale (Volume newOrder) (1 / volumeDivideBy s)%Q)
                           (Scale (Price newOrder) priceMultiplier)))
               (ComputeIncrementalNativeAmountRaw (sdex s) true)) l1)).
  { intros mo l1. destruct hack; apply noNilDereference_AddLiabilities. }
  destruct (offsetTrades s).
  - apply noNilDereference_bind; [apply (noNilDereference_checkBalance _ balance); exact Hb|].
    intros [[|] b'] l2 _; [|apply noNilDereference_ret].
    apply (Hcreate _ _ (fun _ => _)). exact Hk.
  - apply (Hcreate _ _ (fun _ => _)). exact Hk.
Qed.

Lemma createLevels_safe
  (s : mirrorStrategy B) (createOffer : createFn B) (priceMultiplier : float64) (hack : bool)
  (balance : Number) (newOrders : list Order) :
  forall (st : levelState B) (l : Liabilities),
    backingBalance (bc st) = Some balance ->
    noNilDereference (createLevels s createOffer priceMultiplier hack st newOrders l).
Proof.
  induction newOrders as [|newOrder rest IH]; intros st l Hb; cbn [createLevels].
  - apply noNilDereference_ret.
  - apply noNilDereference_bind; [apply (createLevel_safe _ _ _ _ _ _ _ balance Hb)|].
    intros st1 l1 Hstep. apply IH.
    apply (createLevel_keeps _ (checkBalance_keeps_balance balance)
             _ _ _ _ _ _ _ _ _ Hb Hstep).
Qed.

Lemma updateLevels_safe
  (s : mirrorStrategy B) (oldOffers : list Offer) (newOrders : list Order)
  (modifyOffer : modifyFn B) (createOffer : createFn B) (priceMultiplier : float64)
  (hack : bool) (bc0 : balanceCoordinator) (l : Liabilities) (balance : Number) :
  backingBalance bc0 = Some balance ->
  noNilDereference
    (updateLevels s oldOffers newOrders modifyOffer createOffer priceMultiplier hack bc0 l).
Proof.
  intro Hb. unfold updateLevels.
  apply noNilDereference_bind; [|intros; apply noNilDereference_ret].
  destruct (_ <=? _)%nat.
  - apply noNilDereference_bind; [apply (modifyLevels_safe _ _ _ _ balance); exact Hb|].
    intros st1 l1 Hmod. apply (createLevels_safe _ _ _ _ balance).
    eapply (modifyLevels_keeps _ (checkBalance_keeps_balance balance)); [|exact Hmod].
    exact Hb.
  - apply noNilDereference_bind; [apply (modifyLevels_safe _ _ _ _ balance); exact Hb|].
    intros; apply noNilDereference_ret.
Qed.

(** X8.  After a successful [PreUpdate], [UpdateWithOps] never ends in a
    nil pointer dereference, whatever the offers, the backing book and the
    answers of SDEX: with hedging the snapshot holds both balances, and
    without hedging the balances are not read. *)
Theorem PreUpdate_makes_update_safe
  (s s' : mirrorStrategy B) (exchange exchange' : Exchange)
  (maxAssetA maxAssetB trustA trustB : float64)
  (PriceAsFloat : string -> float64) (buyingAOffers sellingAOffers : list Offer)
  (l : Liabilities) :
  PreUpdate s exchange maxAssetA maxAssetB trustA trustB = (Ok tt, s') ->
  noNilDereference (UpdateWithOps PriceAsFloat s' exchange' buyingAOffers sellingAOffers l).
Proof.
  intro Hpre. unfold PreUpdate in Hpre.
  assert (Hlevels : forall oldOffers newOrders modifyOffer createOffer priceMultiplier hack
                           assetType buy (balance0 : option Number) l0,
            (offsetTrades s' = true -> balance0 <> None) ->
            noNilDereference
              (updateLevels s' oldOffers newOrders modifyOffer createOffer priceMultiplier
                 hack {| placedUnits := Zero; backingBalance := balance0;
                         backingAssetType := assetType; isBackingBuy := buy |} l0)).
  { intros oldOffers newOrders modifyOffer createOffer priceMultiplier hack
           assetType buy balance0 l0 Hbal.
    destruct (offsetTrades s') eqn:Eoff.
    - destruct balance0 as [balance|]; [|exfalso; apply (Hbal eq_refl); reflexivity].
      apply (updateLevels_safe _ _ _ _ _ _ _ _ _ balance). reflexivity.
    - apply (fun b => proj2 (updateLevels_unhedged s' Eoff _ _ _ _ _ _ b b l0)). }
  assert (Hsnapshot : offsetTrades s' = true ->
                      maxBackingBase s' <> None /\ maxBackingQuote s' <> None).
  { destruct (offsetTrades s) eqn:Eoff.
    - apply recordBalances_success_snapshot in Hpre.
      destruct Hpre as (b & q & ->). intros _. split; discriminate.
    - inversion Hpre. subst s'. rewrite Eoff. intro H. discriminate H. }
  unfold UpdateWithOps.
  apply noNilDereference_bind.
  { unfold noNilDereference, lift. cbn [fst].
    destruct (GetOrderBook exchange' _ _); discriminate. }
  intros ob l0 _.
  apply noNilDereference_bind; [apply Hlevels; intro H; apply (Hsnapshot H)|].
  intros buyOps l1 _.
  apply noNilDereference_bind; [apply Hlevels; intro H; apply (Hsnapshot H)|].
  intros sellOps l2 _.
  destruct (sellOpsFirst _ _ _); apply noNilDereference_ret.
Qed.

End SnapshotAndUpdate.

Section MissingSnapshot.

Context {N : NumberOps} {B : Type}.

(** X9.  With hedging on and no base balance recorded (as before the first
    [PreUpdate]), [UpdateWithOps] panics with a nil pointer dereference as
    soon as there is a level to create: no resting bid and a top backing bid
    whose divided volume reaches the backing minimum base volume.  No
    liability has been recorded by then. *)
Theorem update_without_snapshot_panics
  (s : mirrorStrategy B) (exchange : Exchange) (PriceAsFloat : string -> float64)
  (sellingAOffers : list Offer) (l : Liabilities)
  (ob : OrderBook) (topBid : Order) (bids : list Order) :
  offsetTrades s = true ->
  maxBackingBase s = None ->
  GetOrderBook exchange (backingPair s) (orderbookDepth s) = Reply ob ->
  Bids ob = topBid :: bids ->
  (AsFloat (MinBaseVolume (backingConstraints s))
   <= AsFloat (Scale (Volume topBid) (1 / volumeDivideBy s)%Q))%Q ->
  UpdateWithOps PriceAsFloat s exchange [] sellingAOffers l
  = (Panic NilPointerDereference, l).
Proof.
  intros Hoff Hnone Hob Hbids Hvol. apply fltb_false_iff in Hvol.
  unfold UpdateWithOps. unfold bind at 1. unfold lift. rewrite Hob. cbn [fromReply].
  rewrite Hbids. cbn [firstn]. unfold bind at 1.
  unfold updateLevels.
  cbn [List.length Nat.leb combine modifyLevels skipn createLevels].
  unfold bind at 1. unfold bind at 1. unfold ret at 1. unfold bind at 1.
  unfold createLevel. rewrite Hvol, Hoff.
  unfold bind at 1. unfold lift, checkBalance. cbn [backingBalance bc].
  rewrite Hnone. reflexivity.
Qed.

End MissingSnapshot.

Lemma loops_stay_within_balance_witness :
  let s := Scenario.strategy Scenario.echoSdex true 2%Q None None in
  let coordinator := {| placedUnits := Zero; backingBalance := Some (Decimal.lit 15 1);
                        backingAssetType := "base"; isBackingBuy := false |} in
  let st := {| ops := []; deleteOps := []; bc := coordinator |} in
  let order := Scenario.level OrderActionBuy (Decimal.lit 100 0) (Decimal.lit 2 0) in
  exists st2 l2,
    createLevels s Scenario.echoCreate (99 # 100)%Q true st [order; order; order] []
    = (Ok st2, l2)
    /\ (AsFloat (placedUnits (bc st2)) <= AsFloat (Decimal.lit 15 1))%Q.
Proof.
  intros s coordinator st order.
  assert (E : exists st2 l2,
             createLevels s Scenario.echoCreate (99 # 100)%Q true st [order; order; order] []
             = (Ok st2, l2))
    by (eexists; eexists; vm_compute; reflexivity).
  destruct E as (st2 & l2 & E). exists st2, l2. split; [exact E|].
  apply (loops_stay_within_balance s Scenario.echoModify Scenario.echoCreate (99 # 100)%Q
           true [] [order; order; order] st st st2 [] [] l2 (Decimal.lit 15 1)).
  - reflexivity.
  - vm_compute. discriminate.
  - reflexivity.
  - exact E.
Defined.

Lemma PreUpdate_makes_update_safe_witness :
  let s := Scenario.strategy Scenario.echoSdex true 2%Q None None in
  exists s',
    PreUpdate s Scenario.accepting 0%Q 0%Q 0%Q 0%Q = (Ok tt, s')
    /\ noNilDereference
         (UpdateWithOps Scenario.priceAsFloat s' Scenario.accepting [] [] []).
Proof.
  intro s.
  assert (E : exists s', PreUpdate s Scenario.accepting 0%Q 0%Q 0%Q 0%Q = (Ok tt, s'))
    by (eexists; vm_compute; reflexivity).
  destruct E as (s' & E). exists s'. split; [exact E|].
  apply (PreUpdate_makes_update_safe s s' Scenario.accepting Scenario.accepting
           0%Q 0%Q 0%Q 0%Q Scenario.priceAsFloat [] [] [] E).
Defined.

Lemma update_without_snapshot_panics_witness :
  let s := Scenario.strategy Scenario.echoSdex true 2%Q None None in
  UpdateWithOps Scenario.priceAsFloat s Scenario.accepting [] [] []
  = (Panic NilPointerDereference, []).
Proof.
  intro s.
  apply (update_without_snapshot_panics s Scenario.accepting Scenario.priceAsFloat [] []
           Scenario.book
           (Scenario.level OrderActionBuy (Decimal.lit 100 0) (Decimal.lit 2 0)) []).
  - reflexivity.
  - reflexivity.
  - reflexivity.
  - reflexivity.
  - vm_compute. discriminate.
Defined.

(** ** What a batch consists of *)

Section BatchShape.

Context {N : NumberOps} {B : Type}.

(** One paired level adds nothing, one modify operation, or one delete of
    the old offer. *)
Lemma modifyLevel_step
  (s : mirrorStrategy B) (modifyOffer : modifyFn B) (priceMultiplier : float64) (hack : bool)
  (st st' : levelState B) (oldOffer : Offer) (newOrder : Order) (l l' : Liabilities) :
  modifyLevel s modifyOffer priceMultiplier hack st oldOffer newOrder l = (Ok st', l') ->
  (ops st' = ops st /\ deleteOps st' = deleteOps st)
  \/ ((exists mo, ops st' = ops st ++ [ModifyOp mo]) /\ deleteOps st' = deleteOps st)
  \/ (ops st' = ops st /\ deleteOps st' = deleteOps st ++ [DeleteOp oldOffer]).
Proof.
  intro H. unfold modifyLevel in H.
  apply bind_ok_inv in H. destruct H as ([modifyOp deleteOp] & l1 & Hdo & H).
  apply doModifyOffer_shape in Hdo.
  destruct Hdo as [[-> ->]|[[-> ->]|(mo & -> & ->)]].
  - apply ret_ok_inv in H. destruct H as [<- _]. left. split; reflexivity.
  - apply ret_ok_inv in H. destruct H as [<- _]. right. right. split; reflexivity.
  - destruct (offsetTrades s).
    + apply bind_ok_inv in H. destruct H as ([[|] b'] & l2 & _ & H);
        apply ret_ok_inv in H; destruct H as [<- _].
      * right. left. split; [exists mo|]; reflexivity.
      * left. split; reflexivity.
    + apply ret_ok_inv in H. destruct H as [<- _].
      right. left. split; [exists mo|]; reflexivity.
Qed.

(** One new level adds nothing or one create operation, and no delete. *)
Lemma createLevel_step
  (s : mirrorStrategy B) (createOffer : createFn B) (priceMultiplier : float64) (hack : bool)
  (st st' : levelState B) (newOrder : Order) (l l' : Liabilities) :
  createLevel s createOffer priceMultiplier hack st newOrder l = (Ok st', l') ->
  (ops st' = ops st \/ exists mo, ops st' = ops st ++ [CreateOp mo])
  /\ deleteOps st' = deleteOps st.
Proof.
  intro H. unfold createLevel in H.
  destruct (fltb _ _).
  { apply ret_ok_inv in H. destruct H as [<- _]. split; [left|]; reflexivity. }
  assert (Hcreate : forall (st0 : levelState B) (l0 : Liabilities) (k : B -> M unit),
    bind (reading (fun l1 => createOffer l1 (baseAsset s) (quoteAsset s)
                     (AsFloat (Scale (Price newOrder) priceMultiplier))
                     (AsFloat (Scale (Volume newOrder) (1 / volumeDivideBy s)%Q))
                     (ComputeIncrementalNativeAmountRaw (sdex s) true)))
      (fun mo => match mo with
                 | Some mo => bind (k mo) (fun _ => ret (appendOp st0 (CreateOp mo)))
                 | None => ret st0
                 end) l0 = (Ok st', l') ->
    (ops st' = ops st0 \/ exists mo, ops st' = ops st0 ++ [CreateOp mo])
    /\ deleteOps st' = deleteOps st0).
  { intros st0 l0 k Hc. apply bind_ok_inv in Hc. destruct Hc as ([mo|] & l1 & _ & Hc).
    - apply bind_ok_inv in Hc. destruct Hc as (_ & l2 & _ & Hc).
      apply ret_ok_inv in Hc. destruct Hc as [<- _].
      split; [right; exists mo|]; reflexivity.
    - apply ret_ok_inv in Hc. destruct Hc as [<- _]. split; [left|]; reflexivity. }
  destruct (offsetTrades s).
  - apply bind_ok_inv in H. destruct H as ([[|] b'] & l2 & _ & H).
    + apply (Hcreate (withBc st b') l2 _ H).
    + apply ret_ok_inv in H. destruct H as [<- _]. split; [left|]; reflexivity.
  - apply (Hcreate st l _ H).
Qed.

(** The paired levels add at most one operation each; the deletes they add
    are deletes of old offers of these levels. *)
Lemma modifyLevels_steps
  (s : mirrorStrategy B) (modifyOffer : modifyFn B) (priceMultiplier : float64) (hack : bool)
  (levels : list (Offer * Order)) :
  forall (st st' : levelState B) (l l' : Liabilities),
    modifyLevels s modifyOffer priceMultiplier hack st levels l = (Ok st', l') ->
    exists placed dels : list (TransactionMutator B),
      ops st' = ops st ++ placed
      /\ deleteOps st' = deleteOps st ++ dels
      /\ (List.length placed + List.length dels <= List.length levels)%nat
      /\ Forall (fun d => exists o n, In (o, n) levels /\ d = DeleteOp o) dels.
Proof.
  induction levels as [|[oldOffer newOrder] rest IH]; intros st st' l l' H.
  - apply ret_ok_inv in H. destruct H as [<- _].
    exists [], []. rewrite !app_nil_r. repeat split; [apply Nat.le_refl|constructor].
  - cbn [modifyLevels] in H. apply bind_ok_inv in H.
    destruct H as (st1 & l1 & Hstep & H).
    apply modifyLevel_step in Hstep.
    destruct (IH st1 st' l1 l' H) as (placed & dels & Hops & Hdels & Hlen & Hall).
    assert (Hall' : Forall (fun d => exists o n,
                              In (o, n) ((oldOffer, newOrder) :: rest) /\ d = DeleteOp o)
                      dels).
    { apply Forall_forall. intros d Hd.
      destruct (proj1 (Forall_forall _ _) Hall d Hd) as (o & n & Hin & ->).
      exists o, n. split; [right; exact Hin|reflexivity]. }
    destruct Hstep as [[Ho Hd]|[[[mo Ho] Hd]|[Ho Hd]]].
    + exists placed, dels. rewrite Hops, Hdels, Ho, Hd.
      repeat split; [cbn [List.length]; lia|exact Hall'].
    + exists (ModifyOp mo :: placed), dels. rewrite Hops, Hdels, Ho, Hd, <- app_assoc.
      repeat split; [cbn [List.length]; lia|exact Hall'].
    + exists placed, (DeleteOp oldOffer :: dels).
      rewrite Hops, Hdels, Ho, Hd, <- app_assoc.
      repeat split; [cbn [List.length]; lia|].
      constructor; [|exact Hall'].
      exists oldOffer, newOrder. split; [left|]; reflexivity.
Qed.

(** The new levels add at most one operation each and no delete. *)
Lemma createLevels_steps
  (s : mirrorStrategy B) (createOffer : createFn B) (priceMultiplier : float64) (hack : bool)
  (newOrders : list Order) :
  forall (st st' : levelState B) (l l' : Liabilities),
    createLevels s createOffer priceMultiplier hack st newOrders l = (Ok st', l') ->
    (exists placed : list (TransactionMutator B),
       ops st' = ops st ++ placed
       /\ (List.length placed <= List.length newOrders)%nat)
    /\ deleteOps st' = deleteOps st.
Proof.
  induction newOrders as [|newOrder rest IH]; intros st st' l l' H.
  - apply ret_ok_inv in H. destruct H as [<- _].
    split; [exists []; rewrite app_nil_r; split; [reflexivity|apply Nat.le_refl]|reflexivity].
  - cbn [createLevels] in H. apply bind_ok_inv in H.
    destruct H as (st1 & l1 & Hstep & H).
    apply createLevel_step in Hstep. destruct Hstep as [Hstep Hd].
    destruct (IH st1 st' l1 l' H) as [(placed & Hops & Hlen) Hdels].
    split; [|rewrite Hdels; exact Hd].
    destruct Hstep as [Ho|[mo Ho]].
    + exists placed. rewrite Hops, Ho. split; [reflexivity|cbn [List.length]; lia].
    + exists (CreateOp mo :: placed). rewrite Hops, Ho, <- app_assoc.
      split; [reflexivity|cbn [List.length]; lia].
Qed.

(** A batch of [updateLevels]: its deletes, all of given old offers and
    among them every old offer beyond the new orders, then the operations
    placed, none of them a delete and at most one per new order. *)
Lemma updateLevels_shape
  (s : mirrorStrategy B) (oldOffers : list Offer) (newOrders : list Order)
  (modifyOffer : modifyFn B) (createOffer : createFn B) (priceMultiplier : float64)
  (hack : bool) (bc0 : balanceCoordinator) (l l' : Liabilities)
  (batch : list (TransactionMutator B)) :
  updateLevels s oldOffers newOrders modifyOffer createOffer priceMultiplier hack bc0 l
  = (Ok batch, l') ->
  exists dels placed : list (TransactionMutator B),
    batch = dels ++ placed
    /\ Forall (fun op => isDelete op = false) placed
    /\ Forall (fun d => exists o, In o oldOffers /\ d = DeleteOp o) dels
    /\ (forall o, In o (skipn (List.length newOrders) oldOffers) -> In (DeleteOp o) dels)
    /\ (List.length placed <= List.length newOrders)%nat
    /\ (List.length batch <= Nat.max (List.length oldOffers) (List.length newOrders))%nat.
Proof.
  intro H. unfold updateLevels in H.
  apply bind_ok_inv in H. destruct H as (st & l1 & Hloops & H).
  apply ret_ok_inv in H. destruct H as [<- _].
  assert (H0 : sorted (ManageOfferBuilder := B)
                 {| ops := []; deleteOps := []; bc := bc0 |})
    by (split; constructor).
  assert (Hpairs : forall (dels : list (TransactionMutator B)),
            Forall (fun d => exists o n, In (o, n) (combine oldOffers newOrders)
                                         /\ d = DeleteOp o) dels ->
            Forall (fun d => exists o, In o oldOffers /\ d = DeleteOp o) dels).
  { intros dels Hd. apply Forall_forall. intros d Hin.
    destruct (proj1 (Forall_forall _ _) Hd d Hin) as (o & n & Hon & ->).
    exists o. split; [apply (in_combine_l _ _ _ _ Hon)|reflexivity]. }
  destruct (List.length oldOffers <=? List.length newOrders)%nat eqn:Ecmp.
  - apply Nat.leb_le in Ecmp.
    apply bind_ok_inv in Hloops. destruct Hloops as (st1 & l2 & Hmod & Hcreate).
    pose proof (modifyLevels_sorted _ _ _ _ _ _ _ _ _ H0 Hmod) as Hs1.
    pose proof (createLevels_sorted _ _ _ _ _ _ _ _ _ Hs1 Hcreate) as [_ Hs2].
    destruct (modifyLevels_steps _ _ _ _ _ _ _ _ _ Hmod)
      as (placed1 & dels1 & Hops1 & Hdels1 & Hlen1 & Hall1).
    destruct (createLevels_steps _ _ _ _ _ _ _ _ _ Hcreate)
      as [(placed2 & Hops2 & Hlen2) Hdels2].
    cbn [ops deleteOps app] in Hops1, Hdels1.
    rewrite length_combine, Nat.min_l in Hlen1 by exact Ecmp.
    rewrite length_skipn in Hlen2.
    exists (deleteOps st), (ops st).
    rewrite Hdels2, Hdels1. rewrite Hops2, Hops1 in *.
    split; [reflexivity|]. split; [exact Hs2|]. split; [apply Hpairs; exact Hall1|].
    split.
    { intros o Hin. rewrite skipn_all2 in Hin by exact Ecmp. destruct Hin. }
    rewrite !length_app. split; lia.
  - apply Nat.leb_gt in Ecmp.
    apply bind_ok_inv in Hloops. destruct Hloops as (st1 & l2 & Hmod & Hret).
    apply ret_ok_inv in Hret. destruct Hret as [<- _].
    pose proof (modifyLevels_sorted _ _ _ _ _ _ _ _ _ H0 Hmod) as [_ Hs1].
    destruct (modifyLevels_steps _ _ _ _ _ _ _ _ _ Hmod)
      as (placed1 & dels1 & Hops1 & Hdels1 & Hlen1 & Hall1).
    cbn [ops deleteOps app] in Hops1, Hdels1 |- *.
    rewrite length_combine, Nat.min_r in Hlen1 by lia.
    exists (deleteOps st1 ++ map DeleteOp (skipn (List.length newOrders) oldOffers)),
      (ops st1).
    rewrite Hdels1. rewrite Hops1 in *.
    split; [reflexivity|]. split; [exact Hs1|]. split.
    { apply Forall_app. split; [apply Hpairs; exact Hall1|].
      apply Forall_forall. intros d Hin. apply in_map_iff in Hin.
      destruct Hin as (o & <- & Hin). exists o. split; [|reflexivity].
      rewrite <- (firstn_skipn (List.length newOrders) oldOffers).
      apply in_or_app. right. exact Hin. }
    split.
    { intros o Hin. apply in_or_app. right. apply in_map. exact Hin. }
    rewrite !length_app, length_map, length_skipn. split; lia.
Qed.

End BatchShape.

Section BatchProperties.

Context {N : NumberOps} {B : Type}.

Variable PriceAsFloat : string -> float64.

(** What a successful [UpdateWithOps] went through. *)
Lemma UpdateWithOps_ok_inv
  (s : mirrorStrategy B) (exchange : Exchange) (buyingAOffers sellingAOffers : list Offer)
  (l l' : Liabilities) (batch : list (TransactionMutator B)) :
  UpdateWithOps PriceAsFloat s exchange buyingAOffers sellingAOffers l = (Ok batch, l') ->
  exists (ob : OrderBook) (buyOps sellOps : list (TransactionMutator B)) (l1 : Liabilities),
    GetOrderBook exchange (backingPair s) (orderbookDepth s) = Reply ob
    /\ updateLevels s buyingAOffers (firstn 50 (Bids ob))
         (ModifyBuyOffer (sdex s)) (CreateBuyOffer (sdex s)) (1 - perLevelSpread s)%Q true
         {| placedUnits := Zero; backingBalance := maxBackingBase s;
            backingAssetType := "base"; isBackingBuy := false |} l
       = (Ok buyOps, l1)
    /\ updateLevels s sellingAOffers (firstn 50 (Asks ob))
         (ModifySellOffer (sdex s)) (CreateSellOffer (sdex s)) (1 + perLevelSpread s)%Q false
         {| placedUnits := Zero; backingBalance := maxBackingQuote s;
            backingAssetType := "quote"; isBackingBuy := true |} l1
       = (Ok sellOps, l')
    /\ (batch = sellOps ++ buyOps \/ batch = buyOps ++ sellOps).
Proof.
  intro H. unfold UpdateWithOps in H.
  apply bind_ok_inv in H. destruct H as (ob & l0 & Hob & H).
  unfold lift in Hob.
  destruct (GetOrderBook exchange _ _) as [ob'|e] eqn:Ebook; [|discriminate Hob].
  cbn [fromReply] in Hob. inversion Hob. subst ob' l0. clear Hob.
  apply bind_ok_inv in H. destruct H as (buyOps & l1 & Hbuy & H).
  apply bind_ok_inv in H. destruct H as (sellOps & l2 & Hsell & H).
  exists ob, buyOps, sellOps, l1.
  destruct (sellOpsFirst PriceAsFloat ob sellingAOffers);
    apply ret_ok_inv in H; destruct H as [<- <-]; repeat split; auto.
Qed.

Lemma countPlaced_app (a b : list (TransactionMutator B)) :
  countPlaced (a ++ b) = (countPlaced a + countPlaced b)%nat.
Proof. unfold countPlaced. rewrite filter_app, length_app. reflexivity. Qed.

Lemma countPlaced_le_length (a : list (TransactionMutator B)) :
  (countPlaced a <= List.length a)%nat.
Proof. unfold countPlaced. apply filter_length_le. Qed.

Lemma countPlaced_deletes (dels : list (TransactionMutator B)) (offers : list Offer) :
  Forall (fun d => exists o, In o offers /\ d = DeleteOp o) dels -> countPlaced dels = 0%nat.
Proof.
  unfold countPlaced. induction 1 as [|d rest (o & _ & ->) _ IH]; [reflexivity|].
  cbn [filter isDelete negb]. exact IH.
Qed.

Lemma firstn_50_length {A : Type} (xs : list A) : (List.length (firstn 50 xs) <= 50)%nat.
Proof. rewrite length_firstn. apply Nat.le_min_l. Qed.

(** X10.  The size of a batch.  [UpdateWithOps] never emits more than 100
    operations that are not deletes (at most 50 creates or modifies per
    side), and the whole batch has at most max(bids resting, 50) +
    max(asks resting, 50) operations: at most 100 when no more than 50
    offers rest on either side. *)
Theorem UpdateWithOps_batch_size
  (s : mirrorStrategy B) (exchange : Exchange) (buyingAOffers sellingAOffers : list Offer)
  (l l' : Liabilities) (batch : list (TransactionMutator B)) :
  UpdateWithOps PriceAsFloat s exchange buyingAOffers sellingAOffers l = (Ok batch, l') ->
  (countPlaced batch <= 100)%nat
  /\ (List.length batch
      <= Nat.max (List.length buyingAOffers) 50 + Nat.max (List.length sellingAOffers) 50)%nat.
Proof.
  intro H. apply UpdateWithOps_ok_inv in H.
  destruct H as (ob & buyOps & sellOps & l1 & _ & Hbuy & Hsell & Hbatch).
  apply updateLevels_shape in Hbuy, Hsell.
  destruct Hbuy as (dels1 & placed1 & -> & _ & Hd1 & _ & Hp1 & Hlen1).
  destruct Hsell as (dels2 & placed2 & -> & _ & Hd2 & _ & Hp2 & Hlen2).
  pose proof (firstn_50_length (Bids ob)) as Hb.
  pose proof (firstn_50_length (Asks ob)) as Ha.
  pose proof (countPlaced_deletes _ _ Hd1) as Hc1.
  pose proof (countPlaced_deletes _ _ Hd2) as Hc2.
  pose proof (countPlaced_le_length placed1) as Hq1.
  pose proof (countPlaced_le_length placed2) as Hq2.
  destruct Hbatch as [-> | ->]; rewrite !countPlaced_app, Hc1, Hc2, length_app; split; lia.
Qed.

(** X11.  Which offers a batch deletes.  Every delete operation of a batch
    is the delete of an offer that was passed in, and every resting offer
    beyond the (at most 50) levels of its side of the backing book is
    deleted. *)
Theorem UpdateWithOps_deletes
  (s : mirrorStrategy B) (exchange : Exchange) (buyingAOffers sellingAOffers : list Offer)
  (l l' : Liabilities) (batch : list (TransactionMutator B)) (ob : OrderBook) :
  UpdateWithOps PriceAsFloat s exchange buyingAOffers sellingAOffers l = (Ok batch, l') ->
  GetOrderBook exchange (backingPair s) (orderbookDepth s) = Reply ob ->
  (forall o, In (DeleteOp o) batch -> In o buyingAOffers \/ In o sellingAOffers)
  /\ (forall o, In o (skipn (Nat.min 50 (List.length (Bids ob))) buyingAOffers) ->
        In (DeleteOp o) batch)
  /\ (forall o, In o (skipn (Nat.min 50 (List.length (Asks ob))) sellingAOffers) ->
        In (DeleteOp o) batch).
Proof.
  intros H Hob. apply UpdateWithOps_ok_inv in H.
  destruct H as (ob' & buyOps & sellOps & l1 & Hob' & Hbuy & Hsell & Hbatch).
  rewrite Hob in Hob'. inversion Hob'. subst ob'. clear Hob'.
  apply updateLevels_shape in Hbuy, Hsell.
  destruct Hbuy as (dels1 & placed1 & -> & Hn1 & Hd1 & Hs1 & _ & _).
  destruct Hsell as (dels2 & placed2 & -> & Hn2 & Hd2 & Hs2 & _ & _).
  rewrite length_firstn in Hs1, Hs2.
  assert (Hside : forall (dels placed : list (TransactionMutator B)) (offers : list Offer) o,
            Forall (fun op => isDelete op = false) placed ->
            Forall (fun d => exists o', In o' offers /\ d = DeleteOp o') dels ->
            In (DeleteOp o) (dels ++ placed) -> In o offers).
  { intros dels placed offers o Hn Hd Hin. apply in_app_or in Hin.
    destruct Hin as [Hin|Hin].
    - destruct (proj1 (Forall_forall _ _) Hd _ Hin) as (o' & Ho' & E).
      inversion E. subst o'. exact Ho'.
    - pose proof (proj1 (Forall_forall _ _) Hn _ Hin) as E. discriminate E. }
  split; [|split].
  - intros o Hin.
    assert (Hin' : In (DeleteOp o) (dels1 ++ placed1) \/ In (DeleteOp o) (dels2 ++ placed2)).
    { destruct Hbatch as [-> | ->]; apply in_app_or in Hin; tauto. }
    destruct Hin' as [Hin'|Hin'].
    + left. apply (Hside _ _ _ _ Hn1 Hd1 Hin').
    + right. apply (Hside _ _ _ _ Hn2 Hd2 Hin').
  - intros o Hin. apply Hs1 in Hin.
    destruct Hbatch as [-> | ->]; repeat (apply in_or_app; auto).
    + right. apply in_or_app. left. exact Hin.
    + left. apply in_or_app. left. exact Hin.
  - intros o Hin. apply Hs2 in Hin.
    destruct Hbatch as [-> | ->].
    + apply in_or_app. left. apply in_or_app. left. exact Hin.
    + apply in_or_app. right. apply in_or_app. left. exact Hin.
Qed.

(** With no new orders [updateLevels] deletes every old offer, in order. *)
Lemma updateLevels_no_orders
  (s : mirrorStrategy B) (oldOffers : list Offer)
  (modifyOffer : modifyFn B) (createOffer : createFn B) (priceMultiplier : float64)
  (hack : bool) (bc0 : balanceCoordinator) (l : Liabilities) :
  updateLevels s oldOffers [] modifyOffer createOffer priceMultiplier hack bc0 l
  = (Ok (map DeleteOp oldOffers), l).
Proof.
  unfold updateLevels. rewrite combine_nil.
  destruct oldOffers as [|o rest]; cbn [List.length Nat.leb].
  - reflexivity.
  - cbn [modifyLevels skipn]. unfold bind, ret. cbn [deleteOps ops app].
    rewrite app_nil_r. reflexivity.
Qed.

(** X12.  An empty backing book withdraws everything: [UpdateWithOps]
    returns the deletes of all resting bids followed by the deletes of all
    resting asks, calls neither the modify nor the create functions, and
    records no liability. *)
Theorem UpdateWithOps_empty_book
  (s : mirrorStrategy B) (exchange : Exchange) (buyingAOffers sellingAOffers : list Offer)
  (l : Liabilities) (ob : OrderBook) :
  GetOrderBook exchange (backingPair s) (orderbookDepth s) = Reply ob ->
  Bids ob = [] ->
  Asks ob = [] ->
  UpdateWithOps PriceAsFloat s exchange buyingAOffers sellingAOffers l
  = (Ok (map DeleteOp buyingAOffers ++ map DeleteOp sellingAOffers), l).
Proof.
  intros Hob Hbids Hasks. unfold UpdateWithOps.
  unfold bind at 1. unfold lift. rewrite Hob. cbn [fromReply].
  rewrite Hbids, Hasks. cbn [firstn].
  unfold bind at 1. rewrite updateLevels_no_orders.
  unfold bind at 1. rewrite updateLevels_no_orders.
  unfold sellOpsFirst. rewrite Hbids. reflexivity.
Qed.

End BatchProperties.

Lemma UpdateWithOps_batch_size_witness :
  let s := Scenario.strategy Scenario.echoSdex false 2%Q None None in
  let exchange := Scenario.exchangeWith Scenario.crossedBook (Reply None) in
  exists batch l',
    UpdateWithOps Scenario.priceAsFloat s exchange Scenario.restingBids
      Scenario.restingAsks [] = (Ok batch, l')
    /\ (countPlaced batch <= 100)%nat
    /\ (List.length batch <= Nat.max 2 50 + Nat.max 2 50)%nat.
Proof.
  intros s exchange.
  assert (E : exists batch l',
             UpdateWithOps Scenario.priceAsFloat s exchange Scenario.restingBids
               Scenario.restingAsks [] = (Ok batch, l'))
    by (eexists; eexists; vm_compute; reflexivity).
  destruct E as (batch & l' & E). exists batch, l'. split; [exact E|].
  apply (UpdateWithOps_batch_size Scenario.priceAsFloat s exchange Scenario.restingBids
           Scenario.restingAsks [] l' batch E).
Defined.

Lemma UpdateWithOps_deletes_witness :
  let s := Scenario.strategy Scenario.echoSdex false 2%Q None None in
  let exchange := Scenario.exchangeWith Scenario.crossedBook (Reply None) in
  exists batch l',
    UpdateWithOps Scenario.priceAsFloat s exchange Scenario.restingBids
      Scenario.restingAsks [] = (Ok batch, l')
    /\ In (DeleteOp (Scenario.offer 3 Scenario.usd Scenario.xlm "1" "3")) batch
    /\ In (DeleteOp (Scenario.offer 5 Scenario.xlm Scenario.usd "1.5" "150")) batch.
Proof.
  intros s exchange.
  assert (E : exists batch l',
             UpdateWithOps Scenario.priceAsFloat s exchange Scenario.restingBids
               Scenario.restingAsks [] = (Ok batch, l'))
    by (eexists; eexists; vm_compute; reflexivity).
  destruct E as (batch & l' & E). exists batch, l'. split; [exact E|].
  destruct (UpdateWithOps_deletes Scenario.priceAsFloat s exchange Scenario.restingBids
              Scenario.restingAsks [] l' batch Scenario.crossedBook E eq_refl)
    as (_ & Hbids & Hasks).
  split; [apply Hbids|apply Hasks]; cbn; left; reflexivity.
Defined.

Lemma UpdateWithOps_empty_book_witness :
  let s := Scenario.strategy Scenario.echoSdex true 2%Q None None in
  let exchange := Scenario.exchangeWith Scenario.emptyBook (Reply None) in
  UpdateWithOps Scenario.priceAsFloat s exchange Scenario.restingBids Scenario.restingAsks []
  = (Ok (map DeleteOp Scenario.restingBids ++ map DeleteOp Scenario.restingAsks), []).
Proof.
  intros s exchange.
  apply (UpdateWithOps_empty_book Scenario.priceAsFloat s exchange Scenario.restingBids
           Scenario.restingAsks [] Scenario.emptyBook); reflexivity.
Defined.

(** ** The liabilities recorded by an update *)

Section LiabilitiesRecorded.

Context {N : NumberOps} {B : Type}.

Lemma extendsBy_le {A : Type} (k k' : nat) (l : Liabilities) (r : result A * Liabilities) :
  (k <= k')%nat -> extendsBy k l r -> extendsBy k' l r.
Proof. intros Hk (added & Hs & Hlen). exists added. split; [exact Hs|lia]. Qed.

Lemma extendsBy_ret {A : Type} (a : A) (l : Liabilities) : extendsBy 0 l (ret a l).
Proof. exists []. rewrite app_nil_r. split; [reflexivity|apply Nat.le_refl]. Qed.

Lemma extendsBy_lift {A : Type} (r : result A) (l : Liabilities) : extendsBy 0 l (lift r l).
Proof. exists []. rewrite app_nil_r. split; [reflexivity|apply Nat.le_refl]. Qed.

Lemma extendsBy_reading {A : Type} (f : Liabilities -> reply A) (l : Liabilities) :
  extendsBy 0 l (reading f l).
Proof. exists []. rewrite app_nil_r. split; [reflexivity|apply Nat.le_refl]. Qed.

Lemma extendsBy_AddLiabilities (x y : hAsset) (a b c : float64) (l : Liabilities) :
  extendsBy 1 l (AddLiabilities x y a b c l).
Proof. eexists. split; [reflexivity|apply Nat.le_refl]. Qed.

Lemma extendsBy_bind {A C : Type} (k1 k2 : nat) (m : M A) (f : A -> M C) (l : Liabilities) :
  extendsBy k1 l (m l) ->
  (forall a l1, m l = (Ok a, l1) -> extendsBy k2 l1 (f a l1)) ->
  extendsBy (k1 + k2) l (bind m f l).
Proof.
  intros (added1 & Hs1 & Hlen1) Hf. unfold bind.
  destruct (m l) as [[a|e|p] l1] eqn:Em; cbn [snd] in Hs1; subst l1.
  - destruct (Hf a _ eq_refl) as (added2 & Hs2 & Hlen2).
    exists (added1 ++ added2). rewrite Hs2, app_assoc, length_app. split; [reflexivity|lia].
  - exists added1. split; [reflexivity|lia].
  - exists added1. split; [reflexivity|lia].
Qed.

Lemma mustNumber_extends (str : string) (p : int8) (l : Liabilities) :
  extendsBy 0 l (mustNumber str p l).
Proof.
  unfold mustNumber. destruct (MustNumberFromString str p);
    [apply extendsBy_ret|apply extendsBy_lift].
Qed.

(** [doModifyOffer] records at most one liability, whatever its outcome. *)
Lemma doModifyOffer_extends
  (s : mirrorStrategy B) (oldOffer : Offer) (newOrder : Order) (priceMultiplier : float64)
  (modifyOffer : modifyFn B) (hack : bool) (l : Liabilities) :
  extendsBy 1 l (doModifyOffer s oldOffer newOrder priceMultiplier modifyOffer hack l).
Proof.
  unfold doModifyOffer.
  apply (extendsBy_bind 0 1); [apply mustNumber_extends|intros oldPrice0 l1 _].
  apply (extendsBy_bind 0 1); [apply mustNumber_extends|intros oldVol0 l2 _].
  destruct (_ && _).
  - apply (extendsBy_bind 1 0);
      [destruct hack; apply extendsBy_AddLiabilities|intros; apply extendsBy_ret].
  - destruct (_ && _); [apply (extendsBy_le 0); [lia|apply extendsBy_ret]|].
    apply (extendsBy_bind 0 1); [apply extendsBy_reading|intros [mo|] l3 _].
    + apply (extendsBy_bind 1 0);
        [destruct hack; apply extendsBy_AddLiabilities|intros; apply extendsBy_ret].
    + apply (extendsBy_le 0); [lia|apply extendsBy_ret].
Qed.

Lemma modifyLevel_extends
  (s : mirrorStrategy B) (modifyOffer : modifyFn B) (priceMultiplier : float64) (hack : bool)
  (st : levelState B) (oldOffer : Offer) (newOrder : Order) (l : Liabilities) :
  extendsBy 1 l (modifyLevel s modifyOffer priceMultiplier hack st oldOffer newOrder l).
Proof.
  unfold modifyLevel.
  apply (extendsBy_bind 1 0); [apply doModifyOffer_extends|].
  intros [[modifyOp|] deleteOp] l1 _; [|apply extendsBy_ret].
  destruct (offsetTrades s); [|apply extendsBy_ret].
  apply (extendsBy_bind 0 0); [apply extendsBy_lift|].
  intros [[|] b'] l2 _; apply extendsBy_ret.
Qed.

Lemma modifyLevels_extends
  (s : mirrorStrategy B) (modifyOffer : modifyFn B) (priceMultiplier : float64) (hack : bool)
  (levels : list (Offer * Order)) :
  forall (st : levelState B) (l : Liabilities),
    extendsBy (List.length levels) l
      (modifyLevels s modifyOffer priceMultiplier hack st levels l).
Proof.
  induction levels as [|[oldOffer newOrder] rest IH]; intros st l; cbn [modifyLevels].
  - apply extendsBy_ret.
  - apply (extendsBy_bind 1 (List.length rest)); [apply modifyLevel_extends|].
    intros st1 l1 _. apply IH.
Qed.

Lemma createLevel_extends
  (s : mirrorStrategy B) (createOffer : createFn B) (priceMultiplier : float64) (hack : bool)
  (st : levelState B) (newOrder : Order) (l : Liabilities) :
  extendsBy 1 l (createLevel s createOffer priceMultiplier hack st newOrder l).
Proof.
  unfold createLevel.
  destruct (fltb _ _); [apply (extendsBy_le 0); [lia|apply extendsBy_ret]|].
  assert (Hcreate : forall (st0 : levelState B) (l0 : Liabilities) (k : B -> M unit),
    (forall mo l1, extendsBy 1 l1 (k mo l1)) ->
    extendsBy 1 l0
      (bind (reading (fun l1 => createOffer l1 (baseAsset s) (quoteAsset s)
                        (AsFloat (Scale (Price newOrder) priceMultiplier))
                        (AsFloat (Scale (Volume newOrder) (1 / volumeDivideBy s)%Q))
                        (ComputeIncrementalNativeAmountRaw (sdex s) true)))
         (fun mo => match mo with
                    | Some mo => bind (k mo) (fun _ => ret (appendOp st0 (CreateOp mo)))
                    | None => ret st0
                    end) l0)).
  { intros st0 l0 k Hk.
    apply (extendsBy_bind 0 1); [apply extendsBy_reading|].
    intros [mo|] l1 _; [|apply (extendsBy_le 0); [lia|apply extendsBy_ret]].
    apply (extendsBy_bind 1 0); [apply Hk|intros; apply extendsBy_ret]. }
  assert (Hk : forall (mo : B) (l1 : Liabilities),
    extendsBy 1 l1
      ((if hack
        then AddLiabilities (quoteAsset s) (baseAsset s)
               (AsFloat (Multiply (Scale (Volume newOrder) (1 / volumeDivideBy s)%Q)
                           (Scale (Price newOrder) priceMultiplier)))
               (AsFloat (Scale (Volume newOrder) (1 / volumeDivideBy s)%Q))
               (ComputeIncrementalNativeAmountRaw (sdex s) true)
        else AddLiabilities (baseAsset s) (quoteAsset s)
               (AsFloat (Scale (Volume newOrder) (1 / volumeDivideBy s)%Q))
               (AsFloat (Multiply (Scale (Volume newOrder) (1 / volumeDivideBy s)%Q)
                           (Scale (Price newOrder) priceMultiplier)))
               (ComputeIncrementalNativeAmountRaw (sdex s) true)) l1)).
  { intros mo l1. destruct hack; apply extendsBy_AddLiabilities. }
  destruct (offsetTrades s).
  - apply (extendsBy_bind 0 1); [apply extendsBy_lift|].
    intros [[|] b'] l2 _; [|apply (extendsBy_le 0); [lia|apply extendsBy_ret]].
    apply (Hcreate _ _ (fun _ => _)). exact Hk.
  - apply (Hcreate _ _ (fun _ => _)). exact Hk.
Qed.

Lemma createLevels_extends
  (s : mirrorStrategy B) (createOffer : createFn B) (priceMultiplier : float64) (hack : bool)
  (newOrders : list Order) :
  forall (st : levelState B) (l : Liabilities),
    extendsBy (List.length newOrders) l
      (createLevels s createOffer priceMultiplier hack st newOrders l).
Proof.
  induction newOrders as [|newOrder rest IH]; intros st l; cbn [createLevels].
  - apply extendsBy_ret.
  - apply (extendsBy_bind 1 (List.length rest)); [apply createLevel_extends|].
    intros st1 l1 _. apply IH.
Qed.

(** One side records at most one liability per new order. *)
Lemma updateLevels_extends
  (s : mirrorStrategy B) (oldOffers : list Offer) (newOrders : list Order)
  (modifyOffer : modifyFn B) (createOffer : createFn B) (priceMultiplier : float64)
  (hack : bool) (bc0 : balanceCoordinator) (l : Liabilities) :
  extendsBy (List.length newOrders) l
    (updateLevels s oldOffers newOrders modifyOffer createOffer priceMultiplier hack bc0 l).
Proof.
  unfold updateLevels.
  apply (extendsBy_le (List.length newOrders + 0)); [lia|].
  apply extendsBy_bind; [|intros; apply extendsBy_ret].
  destruct (List.length oldOffers <=? List.length newOrders)%nat eqn:Ecmp.
  - apply Nat.leb_le in Ecmp.
    apply (extendsBy_le (List.length (combine oldOffers newOrders)
                         + List.length (skipn (List.length oldOffers) newOrders))).
    { rewrite length_combine, length_skipn. lia. }
    apply extendsBy_bind; [apply modifyLevels_extends|].
    intros st1 l1 _. apply createLevels_extends.
  - apply Nat.leb_gt in Ecmp.
    apply (extendsBy_le (List.length (combine oldOffers newOrders) + 0)).
    { rewrite length_combine. lia. }
    apply extendsBy_bind; [apply modifyLevels_extends|].
    intros; apply extendsBy_ret.
Qed.

(** X13.  Whatever its outcome (a batch, an error or a panic),
    [UpdateWithOps] keeps the liabilities recorded before it, in order, and
    adds at most one per level it mirrors: not more than 100. *)
Theorem UpdateWithOps_liabilities
  (PriceAsFloat : string -> float64) (s : mirrorStrategy B) (exchange : Exchange)
  (buyingAOffers sellingAOffers : list Offer) (l : Liabilities) :
  exists added : Liabilities,
    snd (UpdateWithOps PriceAsFloat s exchange buyingAOffers sellingAOffers l) = l ++ added
    /\ (List.length added <= 100)%nat.
Proof.
  change (extendsBy 100 l
            (UpdateWithOps PriceAsFloat s exchange buyingAOffers sellingAOffers l)).
  unfold UpdateWithOps.
  apply (extendsBy_bind 0 100); [apply extendsBy_lift|intros ob l0 _].
  apply (extendsBy_bind 50 50).
  { apply (extendsBy_le (List.length (firstn 50 (Bids ob))));
      [apply firstn_50_length|apply updateLevels_extends]. }
  intros buyOps l1 _.
  apply (extendsBy_bind 50 0).
  { apply (extendsBy_le (List.length (firstn 50 (Asks ob))));
      [apply firstn_50_length|apply updateLevels_extends]. }
  intros sellOps l2 _.
  destruct (sellOpsFirst _ _ _); apply extendsBy_ret.
Qed.

(** X14.  What [doModifyOffer] records.  It records exactly one liability
    when it keeps the old offer (nil, nil) or hands back a modify operation,
    and none when it hands back a delete, returns an error or panics. *)
Theorem doModifyOffer_liability
  (s : mirrorStrategy B) (oldOffer : Offer) (newOrder : Order) (priceMultiplier : float64)
  (modifyOffer : modifyFn B) (hack : bool) (l l' : Liabilities)
  (r : result (option (TransactionMutator B) * option (TransactionMutator B))) :
  doModifyOffer s oldOffer newOrder priceMultiplier modifyOffer hack l = (r, l') ->
  match r with
  | Ok (Some _, _) => exists call, l' = l ++ [call]
  | Ok (None, None) => exists call, l' = l ++ [call]
  | Ok (None, Some _) => l' = l
  | Error _ => l' = l
  | Panic _ => l' = l
  end.
Proof.
  intro H.
  unfold doModifyOffer, bind, mustNumber, lift, ret, reading in H.
  destruct (MustNumberFromString (offer_Price oldOffer) _) as [oldPrice0|];
    [|inversion H; reflexivity].
  destruct (MustNumberFromString (Amount oldOffer) _) as [oldVol0|];
    [|inversion H; reflexivity].
  destruct (EqualsPrecisionNormalized _ _ _ && EqualsPrecisionNormalized _ _ _).
  - destruct hack; unfold AddLiabilities in H; inversion H; eexists; reflexivity.
  - destruct (offsetTrades s && _); [inversion H; reflexivity|].
    destruct (modifyOffer l oldOffer _ _ _) as [[mo|]|e]; cbn [fromReply] in H.
    + destruct hack; unfold AddLiabilities in H; inversion H; eexists; reflexivity.
    + inversion H. reflexivity.
    + inversion H. reflexivity.
Qed.

End LiabilitiesRecorded.
